(** * NetworkControlPlane: configuration application and network validation

    A shallow embedding of the four core files of the control plane

    - [automation/device.py]   ([SimulatedDevice]),
    - [automation/session.py]  ([DeviceSession]),
    - [telemetry/collector.py] ([_parse_ping_output], [_parse_proc_net_dev]),
    - [validation/validator.py] ([NetworkValidator]),

    together with the part of the Python run time these files rely on
    (string methods, [int], [str], [float], the two regular expressions of
    the latency parser).

    Conventions of the embedding.

    - A Python [str] is a [string]; its characters are read as the code
      points U+0000..U+00FF.  The character classes below ([isspace],
      [isdecimal], [isdigit]) are the Unicode ones restricted to that range.
    - A Python [float] is an IEEE 754 binary64 value, represented by
      [spec_float] with precision 53 and maximal exponent 1024.
    - A statement that may raise returns an [exn] in place of its value.
      Only exceptions below [Exception] are modelled; they are identified
      by their class, the message text is left out.
    - Logging calls have no influence on control flow and are left out, and
      so is the [timestamp] field of the metrics records.
    - What lies outside the four files is a parameter: the node behind a
      device is a state with a [cmd] function that may raise, the device
      behind a session is any implementation of [NetworkDevice], and the
      digit limit of [int] and [str] is that of the interpreter. *)

From Stdlib Require Import ZArith NArith PeanoNat List Bool Ascii String Lia.
From Stdlib Require Import DecimalString.
From Stdlib Require Import Floats.SpecFloat.
Import ListNotations.

Local Open Scope list_scope.
Local Open Scope string_scope.

(* ================================================================== *)
(** ** Python strings *)
(* ================================================================== *)

Module PyStr.

Definition LF : ascii := "010"%char.

(** [str.isspace] of one character, which is also [\s] of [re] and the
    set removed by [strip()] and separating the fields of [split()]. *)
Definition isspace (c : ascii) : bool :=
  let n := nat_of_ascii c in
  (((9 <=? n) && (n <=? 13)) || ((28 <=? n) && (n <=? 32))
   || (n =? 133) || (n =? 160))%nat.

(** [\d] of [re]: the decimal digits. *)
Definition isdecimal (c : ascii) : bool :=
  let n := nat_of_ascii c in ((48 <=? n) && (n <=? 57))%nat.

(** [str.isdigit] of one character: the decimal digits and the
    superscripts U+00B2, U+00B3 and U+00B9. *)
Definition isdigit_char (c : ascii) : bool :=
  let n := nat_of_ascii c in
  isdecimal c || ((n =? 178) || (n =? 179) || (n =? 185))%nat.

Definition is_empty (s : string) : bool :=
  match s with EmptyString => true | String _ _ => false end.

Fixpoint all_chars (p : ascii -> bool) (s : string) : bool :=
  match s with
  | EmptyString => true
  | String c s' => p c && all_chars p s'
  end.

(** [s.isdigit()]: non-empty and every character a digit. *)
Definition isdigit (s : string) : bool :=
  negb (is_empty s) && all_chars isdigit_char s.

(** Removal of the leading and of the trailing characters of a class. *)
Fixpoint lstrip_of (space : ascii -> bool) (s : string) : string :=
  match s with
  | EmptyString => EmptyString
  | String c s' => if space c then lstrip_of space s' else s
  end.

Fixpoint rstrip_of (space : ascii -> bool) (s : string) : string :=
  match s with
  | EmptyString => EmptyString
  | String c s' =>
      let r := rstrip_of space s' in
      if space c && is_empty r then EmptyString else String c r
  end.

Definition strip_of (space : ascii -> bool) (s : string) : string :=
  rstrip_of space (lstrip_of space s).

(** [s.strip()] *)
Definition strip (s : string) : string := strip_of isspace s.

(** [s.startswith(p)] *)
Definition startswith (s p : string) : bool := prefix p s.

Fixpoint drop (n : nat) (s : string) : string :=
  match n, s with
  | O, _ => s
  | S _, EmptyString => EmptyString
  | S k, String _ s' => drop k s'
  end.

(** [sub in s] *)
Fixpoint contains (sub s : string) : bool :=
  prefix sub s
  || match s with
     | EmptyString => false
     | String _ s' => contains sub s'
     end.

(** [s.split(sep, 1)[1]] for a non-empty [sep]: what follows the first
    occurrence of [sep]; [None] stands for the [IndexError] of the
    subscript when [sep] does not occur. *)
Fixpoint after_first (sep s : string) : option string :=
  if prefix sep s then Some (drop (String.length sep) s)
  else match s with
       | EmptyString => None
       | String _ s' => after_first sep s'
       end.

(** [s.split(sep)] for a one-character separator. *)
Fixpoint split_char (sep : ascii) (s : string) : list string :=
  match s with
  | EmptyString => [EmptyString]
  | String c s' =>
      if Ascii.eqb c sep then EmptyString :: split_char sep s'
      else match split_char sep s' with
           | h :: t => String c h :: t
           | [] => [String c EmptyString]
           end
  end.

(** [s.split()]: the maximal runs of non-space characters.  [tok] is
    the run being read. *)
Fixpoint split_ws_from (tok s : string) : list string :=
  match s with
  | EmptyString => if is_empty tok then [] else [tok]
  | String c s' =>
      if isspace c
      then (if is_empty tok then split_ws_from EmptyString s'
            else tok :: split_ws_from EmptyString s')
      else split_ws_from (tok ++ String c EmptyString) s'
  end.

Definition split_ws (s : string) : list string :=
  split_ws_from EmptyString s.

(** [s.replace(sub, '')] for a non-empty [sub]: the occurrences of [sub]
    are removed from left to right, without overlap.  [skip] counts the
    characters of an occurrence that are still to be dropped. *)
Fixpoint remove_from (sub : string) (skip : nat) (s : string) : string :=
  match s with
  | EmptyString => EmptyString
  | String c s' =>
      match skip with
      | S k => remove_from sub k s'
      | O => if prefix sub s then remove_from sub (String.length sub - 1) s'
             else String c (remove_from sub 0 s')
      end
  end.

Definition remove_all (sub s : string) : string := remove_from sub 0 s.

(** [sep.join(l)] *)
Fixpoint join (sep : string) (l : list string) : string :=
  match l with
  | [] => EmptyString
  | [x] => x
  | x :: rest => x ++ sep ++ join sep rest
  end.

End PyStr.

(* ================================================================== *)
(** ** Python numbers *)
(* ================================================================== *)

Module PyNum.
Import PyStr.

Definition digit_value (c : ascii) : Z := Z.of_nat (nat_of_ascii c - 48).

(** The digits of an integer literal after its sign: decimal digits,
    single underscores allowed between two digits.  [acc] is the value
    read so far, [cnt] the number of digits read, [prev_digit] tells
    whether the previous character was a digit. *)
Fixpoint int_digits (prev_digit : bool) (acc : Z) (cnt : nat) (s : string)
  : option (Z * nat) :=
  match s with
  | EmptyString => if prev_digit then Some (acc, cnt) else None
  | String c s' =>
      if isdecimal c
      then int_digits true (10 * acc + digit_value c)%Z (S cnt) s'
      else if Ascii.eqb c "_"%char && prev_digit
           then int_digits false acc cnt s'
           else None
  end.

(** The number that a string of decimal digits denotes, [acc] being the
    number denoted by the digits before it. *)
Fixpoint decimal_value (acc : Z) (s : string) : Z :=
  match s with
  | EmptyString => acc
  | String c s' => decimal_value (10 * acc + digit_value c)%Z s'
  end.

(** The characters that [int] takes for white space around a literal:
    those of the C locale, and the spaces U+0085 and U+00A0.  Unlike
    [str.strip], [int] does not skip the separators U+001C to U+001F. *)
Definition int_space (c : ascii) : bool :=
  let n := nat_of_ascii c in
  (((9 <=? n) && (n <=? 13)) || (n =? 32) || (n =? 133) || (n =? 160))%nat.

(** The optional sign of an integer literal: whether it is [-], and the
    rest of the literal. *)
Definition split_sign (t : string) : bool * string :=
  match t with
  | String "-" r => (true, r)
  | String "+" r => (false, r)
  | _ => (false, t)
  end.

Section IntLimit.
(** [sys.get_int_max_str_digits()]: the largest number of digits that
    [int(str)] and [str(int)] accept (4300 unless it is set otherwise);
    [0] switches the limit off, as it is in the Python versions that do
    not have it. *)
Variable int_max_str_digits : nat.

Definition within_limit (digits : nat) : bool :=
  (int_max_str_digits =? 0)%nat || (digits <=? int_max_str_digits)%nat.

(** [int(s)]; [None] stands for [ValueError]. *)
Definition py_int (s : string) : option Z :=
  let '(neg, body) := split_sign (strip_of int_space s) in
  match int_digits false 0%Z 0 body with
  | Some (v, cnt) =>
      if within_limit cnt then Some (if neg then (- v)%Z else v) else None
  | None => None
  end.

(** [str(n)] for an integer; [None] stands for [ValueError]. *)
Definition py_str (n : Z) : option string :=
  let digits := NilZero.string_of_uint (N.to_uint (Z.abs_N n)) in
  if within_limit (String.length digits)
  then Some (if (n <? 0)%Z then String "-" digits else digits)
  else None.
End IntLimit.

End PyNum.

(* ================================================================== *)
(** ** Python floats *)
(* ================================================================== *)

Module PyFloat.
Import PyStr.

Definition float := spec_float.
Definition prec : Z := 53.
Definition emax : Z := 1024.

(** [x - y], [x > y] and [x >= y] on floats. *)
Definition fsub (x y : float) : float := SFsub prec emax x y.
Definition fgt (x y : float) : bool := SFltb y x.
Definition fge (x y : float) : bool := SFleb y x.

Fixpoint pow10 (k : nat) : positive :=
  match k with
  | O => 1%positive
  | S k' => (10 * pow10 k')%positive
  end.

(** The float nearest to [n / 10^k] (ties to even), for [n >= 0]: what
    [float] returns for the decimal numeral with digits [n] of which the
    last [k] follow the point.  The division of [SpecFloat] rounds the
    exact quotient of the two integers; a numeral too large for a float
    gives [+inf], as in Python. *)
Definition of_decimal (n : Z) (k : nat) : float :=
  match n with
  | Zpos p =>
      SFdiv prec emax (S754_finite false p 0) (S754_finite false (pow10 k) 0)
  | _ => S754_zero false
  end.

(** The float of an integer, as written in a literal such as [50.0]. *)
Definition float_of_Z (n : Z) : float := binary_normalize prec emax n 0 false.

(** The digits of a numeral with at most one point: the digits read as
    one integer, the number of digits after the point, the number of
    digits. *)
Fixpoint numeral_digits (seen_point : bool) (acc : Z) (frac digits : nat)
         (s : string) : option (Z * nat * nat) :=
  match s with
  | EmptyString => Some (acc, frac, digits)
  | String c s' =>
      if isdecimal c
      then numeral_digits seen_point (10 * acc + PyNum.digit_value c)%Z
             (if seen_point then S frac else frac) (S digits) s'
      else if Ascii.eqb c "."%char && negb seen_point
           then numeral_digits true acc frac digits s'
           else None
  end.

(** [float(s)] for a string [s] of decimal digits and points, the only
    strings the telemetry parsers hand to [float]; [None] stands for
    [ValueError], raised unless [s] has at least one digit and at most
    one point. *)
Definition py_float (s : string) : option float :=
  match numeral_digits false 0%Z 0 0 s with
  | Some (n, frac, S _) => Some (of_decimal n frac)
  | _ => None
  end.

(** A float of positive sign: [+0.0], a positive finite number or [+inf]. *)
Definition positive_sign (f : float) : Prop :=
  match f with
  | S754_zero false | S754_infinity false | S754_finite false _ _ => True
  | _ => False
  end.

(** The float 100.0. *)
Definition hundred : float := float_of_Z 100.

(** A mantissa [m] at the exponent [e] stands for a number of at most
    100, respectively below 100; the exponent is at most that of 100. *)
Definition at_most_100 (m e : Z) : Prop :=
  (e <= -46 /\ 0 <= m <= 100 * 2 ^ (- e))%Z.

Definition below_100 (m e : Z) : Prop :=
  (e <= -46 /\ 0 <= m < 100 * 2 ^ (- e))%Z.

(** Neither the round bit nor the sticky bit of a shifted mantissa is
    set. *)
Definition no_bits (mrs : shr_record) : Prop :=
  shr_r mrs = false /\ shr_s mrs = false.

(** The numeral [g] denotes a number of at most [bound]. *)
Definition written_at_most (bound : Z) (g : string) : Prop :=
  match numeral_digits false 0%Z 0 0 g with
  | Some (n, k, _) => (n <= bound * Z.pos (pow10 k))%Z
  | None => False
  end.

End PyFloat.

(* ================================================================== *)
(** ** Exceptions and return values *)
(* ================================================================== *)

(** The exception classes that occur: [DeviceConnectionError] of
    [device.py], the built-in classes raised by subscripts, conversions and
    attribute access, and [ExecutorError] for whatever [Exception] the
    command executor behind a device raises. *)
Inductive exn : Type :=
| DeviceConnectionError
| IndexError
| ValueError
| AttributeError
| ExecutorError.

Inductive result (A : Type) : Type :=
| Ok (a : A)
| Raise (e : exn).
Arguments Ok {A} a.
Arguments Raise {A} e.

(** The objects the modelled methods return. *)
Inductive pyval : Type :=
| PyNone
| PyBool (b : bool)
| PyInt (n : Z).

Definition of_option {A : Type} (e : exn) (o : option A) : result A :=
  match o with
  | Some a => Ok a
  | None => Raise e
  end.

Definition is_ok {A : Type} (r : result A) : Prop :=
  match r with
  | Ok _ => True
  | Raise _ => False
  end.

Definition is_raise {A : Type} (r : result A) : Prop :=
  match r with
  | Ok _ => False
  | Raise _ => True
  end.

(** [l[i]] *)
Definition subscript {A : Type} (l : list A) (i : nat) : result A :=
  of_option IndexError (nth_error l i).

Definition rbind {A B : Type} (r : result A) (k : A -> result B) : result B :=
  match r with
  | Ok a => k a
  | Raise e => Raise e
  end.

Declare Scope result_scope.
Delimit Scope result_scope with result.
Notation "x <- r ;; k" := (rbind r (fun x => k))
  (at level 61, r at next level, right associativity) : result_scope.

(* ================================================================== *)
(** ** The regular expressions of the latency parser *)
(* ================================================================== *)

Module PyRe.
Import PyStr.

(** [re.search]: the match at the leftmost position that has one;
    [at_start] matches the pattern at the start of its argument. *)
Fixpoint search {A : Type} (at_start : string -> option A) (s : string)
  : option A :=
  match at_start s with
  | Some g => Some g
  | None =>
      match s with
      | EmptyString => None
      | String _ s' => search at_start s'
      end
  end.

Definition isnumchar (c : ascii) : bool := isdecimal c || Ascii.eqb c ".".
Definition not_equals (c : ascii) : bool := negb (Ascii.eqb c "=").

(** The regular expressions that occur, as [re] reads them: a literal
    text [t]; a greedy repetition [c*] ([least = 0]) or [c+]
    ([least = 1]) of a character class [c]; a greedy option [(?:r)?]; a
    sequence [r1 r2]; a capturing group [(r)]. *)
Inductive regex : Type :=
| Chars (t : string)
| Many (p : ascii -> bool) (least : nat)
| Maybe (r : regex)
| Then (r1 r2 : regex)
| Capture (r : regex).

Section Matcher.
Context {R : Type}.

(** A greedy repetition of a character class, of which the characters
    [taken] are already consumed: first the longest run, then the shorter
    ones, as long as at least [least] characters are taken.  The
    continuation gets the text consumed and the rest. *)
Fixpoint many (p : ascii -> bool) (least : nat)
         (k : string -> string -> option R) (taken s : string) : option R :=
  let stop :=
    if (least <=? String.length taken)%nat then k taken s else None in
  match s with
  | EmptyString => stop
  | String c s' =>
      if p c
      then match many p least k (taken ++ String c EmptyString) s' with
           | Some x => Some x
           | None => stop
           end
      else stop
  end.

(** The backtracking matcher: [run r s caps k] matches [r] at the start of
    [s] and hands the text matched, the rest of [s] and the groups
    captured so far to the continuation [k]; when [k] fails, the next
    alternative of [r] is tried. *)
Fixpoint run (r : regex) (s : string) (caps : list string)
         (k : string -> string -> list string -> option R) : option R :=
  match r with
  | Chars t =>
      if prefix t s then k t (drop (String.length t) s) caps else None
  | Many p least => many p least (fun m rest => k m rest caps) EmptyString s
  | Maybe r' =>
      match run r' s caps k with
      | Some x => Some x
      | None => k EmptyString s caps
      end
  | Then r1 r2 =>
      run r1 s caps
          (fun m1 rest caps' =>
             run r2 rest caps' (fun m2 => k (m1 ++ m2)))
  | Capture r' =>
      run r' s caps (fun m rest caps' => k m rest (caps' ++ [m])%list)
  end.
End Matcher.

(** [re.match]: the groups of the match of [r] at the start of [s]. *)
Definition match_at (r : regex) (s : string) : option (list string) :=
  run r s [] (fun _ _ caps => Some caps).

(** [m.group(i)] for a group that took part in the match. *)
Definition group (caps : list string) (i : nat) : string :=
  nth (i - 1) caps "".

(** [(\d+(?:\.\d+)?)% packet loss] *)
Definition loss_pattern : regex :=
  Then (Capture (Then (Many isdecimal 1)
                      (Maybe (Then (Chars ".") (Many isdecimal 1)))))
       (Chars "% packet loss").

(** [min/avg/max[^=]*=\s*([\d.]+)/([\d.]+)/([\d.]+)] *)
Definition latency_pattern : regex :=
  Then (Chars "min/avg/max")
  (Then (Many not_equals 0)
  (Then (Chars "=")
  (Then (Many isspace 0)
  (Then (Capture (Many isnumchar 1))
  (Then (Chars "/")
  (Then (Capture (Many isnumchar 1))
  (Then (Chars "/")
        (Capture (Many isnumchar 1))))))))).

(** The classes [[^\s(]] and [[^)]] of the path parser. *)
Definition not_space_or_paren (c : ascii) : bool :=
  negb (isspace c || Ascii.eqb c "(").
Definition not_close_paren (c : ascii) : bool := negb (Ascii.eqb c ")").

(** [^\s*(\d+)\s+([^\s(]+)\s*\(([^)]+)\)\s+([\d.]+)\s*ms]; the pattern is
    used with [re.match], which anchors it at the start of the line,
    where [^] holds. *)
Definition hop_pattern : regex :=
  Then (Many isspace 0)
  (Then (Capture (Many isdecimal 1))
  (Then (Many isspace 1)
  (Then (Capture (Many not_space_or_paren 1))
  (Then (Many isspace 0)
  (Then (Chars "(")
  (Then (Capture (Many not_close_paren 1))
  (Then (Chars ")")
  (Then (Many isspace 1)
  (Then (Capture (Many isnumchar 1))
  (Then (Many isspace 0)
        (Chars "ms"))))))))))).

(** The texts that a regular expression matches: [matches r m caps caps']
    holds when [r] matches the text [m] and the match adds to the groups
    [caps] captured before it those that make up [caps']. *)
Fixpoint matches (r : regex) (m : string) (caps caps' : list string) : Prop :=
  match r with
  | Chars t => m = t /\ caps' = caps
  | Many p least =>
      all_chars p m = true /\ (least <= String.length m)%nat /\ caps' = caps
  | Maybe r' => matches r' m caps caps' \/ (m = "" /\ caps' = caps)
  | Then r1 r2 =>
      exists m1 m2 mid,
        m = m1 ++ m2 /\ matches r1 m1 caps mid /\ matches r2 m2 mid caps'
  | Capture r' =>
      exists mid, matches r' m caps mid /\ caps' = (mid ++ [m])%list
  end.


(** The longest prefix of [s] whose characters satisfy [p], and the rest. *)
Fixpoint span (p : ascii -> bool) (s : string) : string * string :=
  match s with
  | EmptyString => (EmptyString, EmptyString)
  | String c s' =>
      if p c then let '(a, b) := span p s' in (String c a, b)
      else (EmptyString, s)
  end.

(** The text [s] starts with a character of the class [p]. *)
Definition starts_in (p : ascii -> bool) (s : string) : Prop :=
  match s with
  | String c _ => p c = true
  | EmptyString => False
  end.

End PyRe.

(* ================================================================== *)
(** ** telemetry/metrics.py and telemetry/collector.py *)
(* ================================================================== *)

Module Telemetry.
Import PyStr PyNum PyFloat PyRe.
Local Open Scope result_scope.

Record LatencyMetrics : Type := {
  source : string;
  destination : string;
  min_latency_ms : float;
  avg_latency_ms : float;
  max_latency_ms : float;
  packet_loss_percent : float
}.

Record PathHop : Type := {
  hop_number : Z;
  hostname : option string;
  ip_address : string;
  latency_ms : option float
}.

Record PathMetrics : Type := {
  path_source : string;
  path_destination : string;
  hops : list PathHop;
  total_hops : nat
}.

Record InterfaceCounter : Type := {
  interface_name : string;
  bytes_sent : Z;
  bytes_received : Z;
  packets_sent : Z;
  packets_received : Z;
  drops_sent : Z;
  drops_received : Z
}.

Record TelemetryMetrics : Type := {
  latency : option LatencyMetrics;
  path : option PathMetrics;
  interfaces : list InterfaceCounter
}.

Definition zero : float := S754_zero false.

(** [float(m.group(i))]; the conversion raises [ValueError]. *)
Definition to_float (s : string) : result float :=
  of_option ValueError (py_float s).

(** [TelemetryCollector._parse_ping_output] *)
Definition _parse_ping_output (output src dst : string)
  : result LatencyMetrics :=
  let loss_match := search (match_at loss_pattern) output in
  packet_loss <-
    match loss_match with
    | Some m => to_float (group m 1)
    | None => Ok zero
    end ;;
  let latency_match := search (match_at latency_pattern) output in
  lat <-
    match latency_match with
    | Some m =>
        min_latency <- to_float (group m 1) ;;
        avg_latency <- to_float (group m 2) ;;
        max_latency <- to_float (group m 3) ;;
        Ok (min_latency, avg_latency, max_latency)
    | None => Ok (zero, zero, zero)
    end ;;
  let '(min_latency, avg_latency, max_latency) := lat in
  Ok {| source := src;
        destination := dst;
        min_latency_ms := min_latency;
        avg_latency_ms := avg_latency;
        max_latency_ms := max_latency;
        packet_loss_percent := packet_loss |}.

Section ProcNetDev.
Variable int_max_str_digits : nat.

Definition to_int (s : string) : result Z :=
  of_option ValueError (py_int int_max_str_digits s).

(** The body of the loop of [_parse_proc_net_dev] for one line of the
    output: [Ok None] when the line is skipped by a [continue],
    [Ok (Some c)] when it appends [c] to [counters]. *)
Definition parse_dev_line (raw : string) : result (option InterfaceCounter) :=
  let line := strip raw in
  if is_empty line || negb (contains ":" line) then Ok None
  else
    let parts := split_char ":" line in
    if negb (List.length parts =? 2)%nat then Ok None
    else
      name_part <- subscript parts 0 ;;
      stats_part <- subscript parts 1 ;;
      let name := strip name_part in
      let stats := split_ws stats_part in
      if (List.length stats <? 16)%nat then Ok None
      else
        bytes_received <- rbind (subscript stats 0) to_int ;;
        packets_received <- rbind (subscript stats 1) to_int ;;
        drops_received <- rbind (subscript stats 3) to_int ;;
        bytes_sent <- rbind (subscript stats 8) to_int ;;
        packets_sent <- rbind (subscript stats 9) to_int ;;
        drops_sent <- rbind (subscript stats 11) to_int ;;
        Ok (Some {| interface_name := name;
                    bytes_sent := bytes_sent;
                    bytes_received := bytes_received;
                    packets_sent := packets_sent;
                    packets_received := packets_received;
                    drops_sent := drops_sent;
                    drops_received := drops_received |}).

(** The loop itself; [counters] is the list built so far. *)
Fixpoint parse_dev_lines (lines : list string)
         (counters : list InterfaceCounter)
  : result (list InterfaceCounter) :=
  match lines with
  | [] => Ok counters
  | raw :: rest =>
      r <- parse_dev_line raw ;;
      match r with
      | None => parse_dev_lines rest counters
      | Some c => parse_dev_lines rest (counters ++ [c])%list
      end
  end.

(** [TelemetryCollector._parse_proc_net_dev]; [node_name] is not used
    by the method. *)
Definition _parse_proc_net_dev (output node_name : string)
  : result (list InterfaceCounter) :=
  parse_dev_lines (split_char LF output) [].
End ProcNetDev.

(** The fields that follow the colon of a line of [/proc/net/dev]; a line
    without a colon, or with more than one, has none. *)
Definition stats_of (raw : string) : list string :=
  match split_char ":" (strip raw) with
  | [_; st] => split_ws st
  | _ => []
  end.

(** [int] accepts the six fields that the parser converts. *)
Definition int_fields_ok (int_max_str_digits : nat) (stats : list string)
  : bool :=
  forallb (fun i => match nth_error stats i with
                    | Some f => match py_int int_max_str_digits f with
                                | Some _ => true
                                | None => false
                                end
                    | None => false
                    end)
          [0; 1; 3; 8; 9; 11]%nat.

Section Traceroute.
Variable int_max_str_digits : nat.

(** The body of the loop of [_parse_traceroute_output] for one line of the
    output: [Ok None] when the line adds no hop, [Ok (Some h)] when it
    appends [h] to [hops]. *)
Definition parse_hop_line (raw : string) : result (option PathHop) :=
  let line := strip raw in
  if is_empty line || startswith line "traceroute" then Ok None
  else
    match match_at hop_pattern line with
    | Some hop_match =>
        hop_num <- to_int int_max_str_digits (group hop_match 1) ;;
        let host := group hop_match 2 in
        let ip := group hop_match 3 in
        lat <- to_float (group hop_match 4) ;;
        Ok (Some {| hop_number := hop_num;
                    hostname := if String.eqb host "*" then None
                                else Some host;
                    ip_address := ip;
                    latency_ms := Some lat |})
    | None => Ok None
    end.

(** The loop itself; [found] is the list [hops] built so far. *)
Fixpoint parse_hop_lines (lines : list string) (found : list PathHop)
  : result (list PathHop) :=
  match lines with
  | [] => Ok found
  | raw :: rest =>
      r <- parse_hop_line raw ;;
      match r with
      | None => parse_hop_lines rest found
      | Some h => parse_hop_lines rest (found ++ [h])%list
      end
  end.

(** [TelemetryCollector._parse_traceroute_output] *)
Definition _parse_traceroute_output (output src dst : string)
  : result PathMetrics :=
  found <- parse_hop_lines (split_char LF output) [] ;;
  Ok {| path_source := src;
        path_destination := dst;
        hops := found;
        total_hops := List.length found |}.
End Traceroute.


End Telemetry.

(* ================================================================== *)
(** ** validation/validator.py *)
(* ================================================================== *)

Module Validation.
Import PyStr PyFloat Telemetry.

Inductive ValidationStatus : Type := PASS | FAIL | WARNING.

(** [status.value] *)
Definition value (s : ValidationStatus) : string :=
  match s with
  | PASS => "pass"
  | FAIL => "fail"
  | WARNING => "warning"
  end.

Definition status_eqb (a b : ValidationStatus) : bool :=
  match a, b with
  | PASS, PASS | FAIL, FAIL | WARNING, WARNING => true
  | _, _ => false
  end.

(** The entries of [details].  The source formats each of them into one
    line of text; the embedding keeps the data that goes into the line. *)
Inductive evidence : Type :=
| LatencyExceeded (increase baseline current : float)
| LatencyWithin (current baseline : float)
| LossExceeded (increase baseline current : float)
| LossWithin (current baseline : float)
| PathChangeDetected (baseline_hops current_hops : nat)
| BaselinePath (ips : list string)
| CurrentPath (ips : list string)
| PathUnchanged
| ConnectivityFailed
| ConnectivityDegraded (loss : float)
| ConnectivityOK (loss avg : float)
| NoLatencyMetrics.

Record ValidationResult : Type := {
  status : ValidationStatus;
  message : string;
  baseline_metrics : option TelemetryMetrics;
  current_metrics : option TelemetryMetrics;
  details : list evidence
}.

Definition is_pass (r : ValidationResult) : bool := status_eqb (status r) PASS.

Record NetworkValidator : Type := {
  latency_threshold_ms : float;
  packet_loss_threshold_percent : float;
  path_change_allowed : bool
}.

Definition default {A : Type} (arg : option A) (d : A) : A :=
  match arg with
  | Some a => a
  | None => d
  end.

(** [NetworkValidator.__init__]; an argument that the caller leaves out
    is [None] and takes the default of the signature. *)
Definition __init__ (latency_threshold : option float)
           (packet_loss_threshold : option float)
           (path_change : option bool) : NetworkValidator :=
  {| latency_threshold_ms := default latency_threshold (float_of_Z 50);
     packet_loss_threshold_percent :=
       default packet_loss_threshold (float_of_Z 5);
     path_change_allowed := default path_change false |}.

(** [NetworkValidator()] *)
Definition default_validator : NetworkValidator := __init__ None None None.

Section Validator.
Variable self : NetworkValidator.

Definition _validate_latency (baseline current : LatencyMetrics)
  : ValidationResult :=
  let latency_increase :=
    fsub (avg_latency_ms current) (avg_latency_ms baseline) in
  let '(st, det) :=
    if fgt latency_increase (latency_threshold_ms self)
    then (FAIL, [LatencyExceeded latency_increase (avg_latency_ms baseline)
                                 (avg_latency_ms current)])
    else (PASS, [LatencyWithin (avg_latency_ms current)
                               (avg_latency_ms baseline)]) in
  {| status := st;
     message := "Latency validation: " ++ value st;
     baseline_metrics := None;
     current_metrics := None;
     details := det |}.

Definition _validate_packet_loss (baseline current : LatencyMetrics)
  : ValidationResult :=
  let loss_increase :=
    fsub (packet_loss_percent current) (packet_loss_percent baseline) in
  let '(st, det) :=
    if fgt loss_increase (packet_loss_threshold_percent self)
    then (FAIL, [LossExceeded loss_increase (packet_loss_percent baseline)
                              (packet_loss_percent current)])
    else (PASS, [LossWithin (packet_loss_percent current)
                            (packet_loss_percent baseline)]) in
  {| status := st;
     message := "Packet loss validation: " ++ value st;
     baseline_metrics := None;
     current_metrics := None;
     details := det |}.

(** [a == b] on lists of strings *)
Fixpoint list_eqb (a b : list string) : bool :=
  match a, b with
  | [], [] => true
  | x :: a', y :: b' => String.eqb x y && list_eqb a' b'
  | _, _ => false
  end.

(** [baseline_hops != current_hops] *)
Definition hops_differ (a b : list string) : bool := negb (list_eqb a b).

Definition _validate_path (baseline current : PathMetrics)
  : ValidationResult :=
  let baseline_hops := map ip_address (hops baseline) in
  let current_hops := map ip_address (hops current) in
  let '(st, det) :=
    if hops_differ baseline_hops current_hops
    then (WARNING,
          [PathChangeDetected (List.length baseline_hops)
                              (List.length current_hops);
           BaselinePath baseline_hops;
           CurrentPath current_hops])
    else (PASS, [PathUnchanged]) in
  {| status := st;
     message := "Path validation: " ++ value st;
     baseline_metrics := None;
     current_metrics := None;
     details := det |}.

(** [NetworkValidator.validate].  The three blocks update the pair of
    local variables [(status, details)] in turn. *)
Definition validate (baseline current : TelemetryMetrics)
  : ValidationResult :=
  let s0 := (PASS, @nil evidence) in
  let s1 :=
    match latency baseline, latency current with
    | Some b, Some c =>
        let latency_result := _validate_latency b c in
        ((if negb (is_pass latency_result) then FAIL else fst s0),
         (snd s0 ++ details latency_result)%list)
    | _, _ => s0
    end in
  let s2 :=
    match latency baseline, latency current with
    | Some b, Some c =>
        let loss_result := _validate_packet_loss b c in
        ((if negb (is_pass loss_result) then FAIL else fst s1),
         (snd s1 ++ details loss_result)%list)
    | _, _ => s1
    end in
  let s3 :=
    match path baseline, path current with
    | Some b, Some c =>
        let path_result := _validate_path b c in
        ((if negb (is_pass path_result) && negb (path_change_allowed self)
          then FAIL else fst s2),
         (snd s2 ++ details path_result)%list)
    | _, _ => s2
    end in
  let message :=
    if status_eqb (fst s3) PASS
    then "Network validation passed: all metrics within acceptable thresholds"
    else "Network validation failed: metrics exceeded acceptable thresholds" in
  {| status := fst s3;
     message := message;
     baseline_metrics := Some baseline;
     current_metrics := Some current;
     details := snd s3 |}.

(** The results of the sub-checks that [validate] runs on [baseline]
    and [current], in the order in which it runs them. *)
Definition subchecks (baseline current : TelemetryMetrics)
  : list ValidationResult :=
  (match latency baseline, latency current with
   | Some b, Some c => [_validate_latency b c; _validate_packet_loss b c]
   | _, _ => []
   end
   ++
   match path baseline, path current with
   | Some b, Some c => [_validate_path b c]
   | _, _ => []
   end)%list.

(** [NetworkValidator.validate_connectivity]; like [_validate_path],
    the method does not read the attributes of [self]. *)
Definition validate_connectivity (metrics : TelemetryMetrics)
  : ValidationResult :=
  let '(st, det) :=
    match latency metrics with
    | Some l =>
        if fge (packet_loss_percent l) (float_of_Z 100)
        then (FAIL, [ConnectivityFailed])
        else if fgt (packet_loss_percent l) (float_of_Z 50)
             then (FAIL, [ConnectivityDegraded (packet_loss_percent l)])
             else (PASS, [ConnectivityOK (packet_loss_percent l)
                                         (avg_latency_ms l)])
    | None => (FAIL, [NoLatencyMetrics])
    end in
  {| status := st;
     message := "Connectivity validation: " ++ value st;
     baseline_metrics := None;
     current_metrics := None;
     details := det |}.
End Validator.

(** The order of severity that the specification puts on the statuses,
    [Fail > Warning > Pass], and the most severe status of a list. *)
Definition severity (s : ValidationStatus) : nat :=
  match s with
  | PASS => 0
  | WARNING => 1
  | FAIL => 2
  end.

Definition more_severe (a b : ValidationStatus) : ValidationStatus :=
  if (severity a <? severity b)%nat then b else a.

Definition most_severe (l : list ValidationStatus) : ValidationStatus :=
  fold_left more_severe l PASS.

End Validation.

(* ================================================================== *)
(** ** automation/device.py *)
(* ================================================================== *)

Module Automation.
Import PyStr PyNum.

Section Device.
(** The Mininet node behind a device is known only through its [cmd]
    method.  [NodeS] is the state of the node; [node_cmd c n] runs the
    command [c] on the node in state [n] and gives the text returned,
    or [None] when the call raises, and the state afterwards. *)
Variable NodeS : Type.
Variable node_cmd : string -> NodeS -> option string * NodeS.
Variable int_max_str_digits : nat.

(** The attributes of a [SimulatedDevice].  [issued] is not an
    attribute of the source: it records, oldest first, the commands
    passed to [self.node.cmd]. *)
Record SimulatedDevice : Type := {
  device_name : string;
  device_type : string;
  connected : bool;
  _config_pending : bool;
  node : option NodeS;
  _applied_config : list string;
  _current_interface : option string;
  issued : list string
}.

Definition set_connected (b : bool) (d : SimulatedDevice) :=
  {| device_name := device_name d; device_type := device_type d;
     connected := b; _config_pending := _config_pending d;
     node := node d; _applied_config := _applied_config d;
     _current_interface := _current_interface d; issued := issued d |}.

Definition set_config_pending (b : bool) (d : SimulatedDevice) :=
  {| device_name := device_name d; device_type := device_type d;
     connected := connected d; _config_pending := b;
     node := node d; _applied_config := _applied_config d;
     _current_interface := _current_interface d; issued := issued d |}.

Definition set_applied_config (l : list string) (d : SimulatedDevice) :=
  {| device_name := device_name d; device_type := device_type d;
     connected := connected d; _config_pending := _config_pending d;
     node := node d; _applied_config := l;
     _current_interface := _current_interface d; issued := issued d |}.

Definition set_current_interface (i : option string) (d : SimulatedDevice) :=
  {| device_name := device_name d; device_type := device_type d;
     connected := connected d; _config_pending := _config_pending d;
     node := node d; _applied_config := _applied_config d;
     _current_interface := i; issued := issued d |}.

(** The device after the command [c] has left its node as [n]. *)
Definition set_node (n : option NodeS) (c : string) (d : SimulatedDevice) :=
  {| device_name := device_name d; device_type := device_type d;
     connected := connected d; _config_pending := _config_pending d;
     node := n; _applied_config := _applied_config d;
     _current_interface := _current_interface d;
     issued := (issued d ++ [c])%list |}.

(** [SimulatedDevice.__init__] *)
Definition new_device (name type : string) (n : option NodeS)
  : SimulatedDevice :=
  {| device_name := name; device_type := type;
     connected := false; _config_pending := false;
     node := n; _applied_config := [];
     _current_interface := None; issued := [] |}.

(** Statements of a method: they read and update the device and either
    yield a value or raise. *)
Definition M (A : Type) : Type :=
  SimulatedDevice -> result A * SimulatedDevice.

Definition ret {A : Type} (a : A) : M A := fun d => (Ok a, d).
Definition raise {A : Type} (e : exn) : M A := fun d => (Raise e, d).
Definition lift {A : Type} (r : result A) : M A := fun d => (r, d).
Definition bind {A B : Type} (m : M A) (k : A -> M B) : M B :=
  fun d =>
    match m d with
    | (Ok a, d') => k a d'
    | (Raise e, d') => (Raise e, d')
    end.

Notation "x <- m ;; k" := (bind m (fun x => k))
  (at level 61, m at next level, right associativity).
Notation "m ;;; k" := (bind m (fun _ => k))
  (at level 61, right associativity).

(** [self.node.cmd(c)] *)
Definition cmd (c : string) : M string :=
  fun d =>
    match node d with
    | None => (Raise AttributeError, d)
    | Some n =>
        let '(out, n') := node_cmd c n in
        (of_option ExecutorError out, set_node (Some n') c d)
    end.

(** Truth value of an object that is [None] or a string. *)
Definition truthy (o : option string) : bool :=
  match o with
  | Some s => negb (is_empty s)
  | None => false
  end.

Definition to_int (s : string) : result Z :=
  of_option ValueError (py_int int_max_str_digits s).
Definition to_str (n : Z) : result string :=
  of_option ValueError (py_str int_max_str_digits n).

Definition is_switch (d : SimulatedDevice) : bool :=
  String.eqb (device_type d) "switch".

(** The interface of the node that an [ip address] line configures
    (lines 194 to 206 of [device.py]). *)
Definition if_name_of (d : SimulatedDevice) : result string :=
  if truthy (_current_interface d) then
    let eth_num :=
      remove_all "eth" (match _current_interface d with
                        | Some i => i
                        | None => ""
                        end) in
    rbind (if is_switch d
           then if isdigit eth_num
                then rbind (to_int eth_num) (fun n => to_str (n + 1))
                else Ok "1"
           else Ok eth_num)
          (fun eth_num' => Ok (device_name d ++ "-eth" ++ eth_num'))
  else if is_switch d then Ok (device_name d ++ "-eth1")
       else Ok (device_name d ++ "-eth0").

Definition cidr_map : list (string * string) :=
  [("255.255.255.0", "/24"); ("255.255.0.0", "/16"); ("255.0.0.0", "/8")].

(** [m.get(k, dflt)] *)
Fixpoint dict_get (m : list (string * string)) (k dflt : string) : string :=
  match m with
  | [] => dflt
  | (k', v) :: m' => if String.eqb k k' then v else dict_get m' k dflt
  end.

Definition cidr_of (netmask : option string) : string :=
  if truthy netmask
  then dict_get cidr_map (match netmask with Some m => m | None => "" end)
                "/24"
  else "/24".

(** The conditions of the [if]/[elif] chain on a line. *)
Definition is_hostname (line : string) : bool :=
  startswith (strip line) "hostname ".
Definition is_interface (line : string) : bool :=
  startswith (strip line) "interface ".
Definition is_ip_address (line : string) : bool :=
  startswith (strip line) "ip address "
  || (startswith line " " && contains "ip address" (strip line)).
Definition is_ip_route (line : string) : bool :=
  startswith line "ip route ".

Definition second (parts : list string) : option string :=
  if (1 <? List.length parts)%nat then nth_error parts 1 else None.

(** The address and the mask on an [ip address] line (lines 183 to 189
    of [device.py]). *)
Definition address_of (line : string) : result (string * option string) :=
  rbind (of_option IndexError
           (if contains " ip address " line
            then after_first " ip address " line
            else after_first "ip address " (strip line)))
        (fun ip_part =>
           let parts := split_ws (strip ip_part) in
           rbind (subscript parts 0)
                 (fun ip_addr => Ok (ip_addr, second parts))).

(** The [ip address] branch. *)
Definition apply_ip_address (line : string) : M unit :=
  address <- lift (address_of line) ;;
  let ip_addr := fst address in
  let netmask := snd address in
  if_name <- (fun d => (if_name_of d, d)) ;;
  let cidr := cidr_of netmask in
  cmd ("ip addr flush dev " ++ if_name ++ " 2>&1") ;;;
  cmd ("ip addr add " ++ ip_addr ++ cidr ++ " dev " ++ if_name ++ " 2>&1") ;;;
  cmd ("ip link set " ++ if_name ++ " up 2>/dev/null || true") ;;;
  (fun d =>
     if is_switch d then
       (cmd "sysctl -w net.ipv4.ip_forward=1 > /dev/null 2>&1" ;;;
        cmd ("echo 1 > /proc/sys/net/ipv4/conf/" ++ if_name
             ++ "/proxy_arp 2>/dev/null || true") ;;;
        cmd ("echo 1 > /proc/sys/net/ipv4/conf/" ++ if_name
             ++ "/arp_ignore 2>/dev/null || true") ;;;
        cmd ("echo 2 > /proc/sys/net/ipv4/conf/" ++ if_name
             ++ "/arp_announce 2>/dev/null || true") ;;;
        ret tt) d
     else ret tt d) ;;;
  cmd ("ip addr show " ++ if_name ++ " 2>/dev/null") ;;;
  ret tt.

(** The [ip route] branch. *)
Definition apply_ip_route (line : string) : M unit :=
  route_part <- lift (of_option IndexError (after_first "ip route " line)) ;;
  let parts := split_ws (strip route_part) in
  network <- lift (subscript parts 0) ;;
  let next_hop := second parts in
  if truthy next_hop then
    let hop := match next_hop with Some h => h | None => "" end in
    let network' :=
      if negb (contains "/" network) then network ++ "/24" else network in
    cmd ("ip route del " ++ network' ++ " via " ++ hop
         ++ " 2>/dev/null || true") ;;;
    cmd ("ip route add " ++ network' ++ " via " ++ hop ++ " 2>&1") ;;;
    ret tt
  else ret tt.

(** The body of the [try] statement for one configuration line. *)
Definition apply_line (line : string) : M unit :=
  let stripped := strip line in
  if is_hostname line then
    hostname <- lift (of_option IndexError
                        (after_first "hostname " stripped)) ;;
    cmd ("hostname " ++ strip hostname) ;;;
    ret tt
  else if is_interface line then
    name <- lift (of_option IndexError
                    (after_first "interface " stripped)) ;;
    (fun d => (Ok tt, set_current_interface (Some (strip name)) d))
  else if is_ip_address line then apply_ip_address line
  else if is_ip_route line then apply_ip_route line
  else ret tt.

(** [try: ... except Exception: logger.warning(...)] around the body. *)
Definition try_line (line : string) (d : SimulatedDevice)
  : SimulatedDevice :=
  snd (apply_line line d).

(** The lines of the text that are neither blank nor a comment. *)
Definition keep_line (line : string) : bool :=
  negb (is_empty (strip line)) && negb (startswith (strip line) "#").

Definition config_lines (config : string) : list string :=
  filter keep_line (split_char LF config).

(** [SimulatedDevice.connect] *)
Definition connect : M pyval :=
  fun d =>
    if connected d then (Ok PyNone, d)
    else match node d with
         | None => (Raise DeviceConnectionError, d)
         | Some _ => (Ok PyNone, set_connected true d)
         end.

(** [SimulatedDevice.send_config] *)
Definition send_config (config : string) : M pyval :=
  fun d =>
    if negb (connected d) then (Raise DeviceConnectionError, d)
    else match node d with
         | None => (Raise DeviceConnectionError, d)
         | Some _ =>
             let lines := config_lines config in
             let d1 := set_current_interface None d in
             let d2 := fold_left (fun dev line => try_line line dev)
                                 lines d1 in
             let d3 := set_applied_config
                         (_applied_config d2 ++ lines)%list d2 in
             (Ok PyNone, set_config_pending true d3)
         end.

(** [SimulatedDevice.commit] *)
Definition commit : M pyval :=
  fun d =>
    if negb (connected d) then (Raise DeviceConnectionError, d)
    else if negb (_config_pending d) then (Ok PyNone, d)
         else (Ok PyNone, set_config_pending false d).

(** [SimulatedDevice.disconnect] *)
Definition disconnect : M pyval :=
  fun d =>
    if negb (connected d) then (Ok PyNone, d)
    else (Ok PyNone, set_connected false d).

(** [SimulatedDevice.get_applied_config] *)
Definition get_applied_config (d : SimulatedDevice) : list string :=
  _applied_config d.

(** What applying a configuration line leaves alone: the identity of the
    device, its connection, the pending flag, the history, the presence
    of a node, and the commands sent before. *)
Definition frame (d d' : SimulatedDevice) : Prop :=
  device_name d' = device_name d
  /\ device_type d' = device_type d
  /\ connected d' = connected d
  /\ _config_pending d' = _config_pending d
  /\ _applied_config d' = _applied_config d
  /\ (node d <> None -> node d' <> None)
  /\ exists more, issued d' = (issued d ++ more)%list.

Definition preserves {A : Type} (m : M A) : Prop :=
  forall d, frame d (snd (m d)).

(** The device after the loop of [send_config] over [lines]. *)
Definition after_lines (lines : list string) (d : SimulatedDevice)
  : SimulatedDevice :=
  fold_left (fun dev line => try_line line dev) lines
            (set_current_interface None d).

End Device.

(** A line of text holds no line feed. *)
Definition no_line_feed (line : string) : Prop :=
  contains (String LF "") line = false.

(** A line that is blank or a comment. *)
Definition blank_or_comment (line : string) : Prop :=
  strip line = "" \/ startswith (strip line) "#" = true.

(** A line that is kept and meets none of the four conditions of the
    [if]/[elif] chain. *)
Definition unknown_line (line : string) : bool :=
  keep_line line && negb (is_hostname line) && negb (is_interface line)
  && negb (is_ip_address line) && negb (is_ip_route line).

(** The trailing numeric suffix of a name, in the words of the
    specification: its longest suffix of decimal digits. *)
Fixpoint trailing_digits (s : string) : string :=
  match s with
  | EmptyString => EmptyString
  | String _ s' => if all_chars isdecimal s then s else trailing_digits s'
  end.

Arguments frame {NodeS} _ _.
Arguments preserves NodeS {A} _.
Arguments after_lines {NodeS} _ _ _ _.
Arguments device_name {NodeS} _.
Arguments device_type {NodeS} _.
Arguments connected {NodeS} _.
Arguments _config_pending {NodeS} _.
Arguments node {NodeS} _.
Arguments _applied_config {NodeS} _.
Arguments _current_interface {NodeS} _.
Arguments issued {NodeS} _.
Arguments set_connected {NodeS} _ _.
Arguments set_config_pending {NodeS} _ _.
Arguments set_applied_config {NodeS} _ _.
Arguments set_current_interface {NodeS} _ _.
Arguments set_node {NodeS} _ _ _.
Arguments new_device {NodeS} _ _ _.
Arguments ret {NodeS A} _ _.
Arguments raise {NodeS A} _ _.
Arguments lift {NodeS A} _ _.
Arguments bind {NodeS A B} _ _ _.
Arguments cmd {NodeS} _ _ _.
Arguments is_switch {NodeS} _.
Arguments if_name_of {NodeS} _ _.
Arguments apply_ip_address {NodeS} _ _ _ _.
Arguments apply_ip_route {NodeS} _ _ _.
Arguments apply_line {NodeS} _ _ _ _.
Arguments try_line {NodeS} _ _ _ _.
Arguments connect {NodeS} _.
Arguments send_config {NodeS} _ _ _ _.
Arguments commit {NodeS} _.
Arguments disconnect {NodeS} _.
Arguments get_applied_config {NodeS} _.

(** A call of one of the life-cycle methods of a device by its user. *)
Inductive call : Type :=
| Connect
| SendConfig (config : string)
| Commit
| Disconnect.

Section Calls.
Variable NodeS : Type.
Variable node_cmd : string -> NodeS -> option string * NodeS.
Variable int_max_str_digits : nat.

Definition do_call (c : call) : M NodeS pyval :=
  match c with
  | Connect => connect
  | SendConfig config => send_config node_cmd int_max_str_digits config
  | Commit => commit
  | Disconnect => disconnect
  end.

(** The device after a sequence of calls, each made on the device that
    the call before it left, whether that call returned or raised. *)
Definition after_calls (calls : list call) (d : SimulatedDevice NodeS)
  : SimulatedDevice NodeS :=
  fold_left (fun dev c => snd (do_call c dev)) calls d.

(** What every call leaves alone: the identity of the device, the
    entries of the history, the commands sent before, the presence of a
    node. *)
Definition grows (d d' : SimulatedDevice NodeS) : Prop :=
  device_name d' = device_name d
  /\ device_type d' = device_type d
  /\ (exists more, _applied_config d' = (_applied_config d ++ more)%list)
  /\ (exists more, issued d' = (issued d ++ more)%list)
  /\ (node d <> None -> node d' <> None).

(** A device that is connected only when it has a node, and whose
    history holds lines that are neither blank nor comments. *)
Definition sound (d : SimulatedDevice NodeS) : Prop :=
  (connected d = true -> node d <> None)
  /\ Forall (fun line => keep_line line = true /\ no_line_feed line)
            (_applied_config d).
End Calls.

Arguments do_call {NodeS} _ _ _ _.
Arguments after_calls {NodeS} _ _ _ _.
Arguments grows {NodeS} _ _.
Arguments sound {NodeS} _.


End Automation.

(* ================================================================== *)
(** ** automation/session.py *)
(* ================================================================== *)

Module Session.

(** The abstract class [NetworkDevice]: the four life-cycle methods that
    a session calls on its device.  Each of them may change the device
    and raise. *)
Class NetworkDevice (D : Type) : Type := {
  dev_connect : D -> result pyval * D;
  dev_send_config : string -> D -> result pyval * D;
  dev_commit : D -> result pyval * D;
  dev_disconnect : D -> result pyval * D
}.

(** [SimulatedDevice] is a [NetworkDevice]. *)
#[export] Instance simulated_device (NodeS : Type)
    (node_cmd : string -> NodeS -> option string * NodeS)
    (int_max_str_digits : nat)
  : NetworkDevice (Automation.SimulatedDevice NodeS) := {
  dev_connect := Automation.connect;
  dev_send_config := Automation.send_config node_cmd int_max_str_digits;
  dev_commit := Automation.commit;
  dev_disconnect := Automation.disconnect
}.

Section DeviceSession.
Context {D : Type} `{NetworkDevice D}.

(** A session and the device it holds. *)
Record DeviceSession : Type := {
  device : D;
  _connected : bool
}.

(** [DeviceSession.__init__] *)
Definition new_session (d : D) : DeviceSession :=
  {| device := d; _connected := false |}.

Definition SessionM (A : Type) : Type :=
  DeviceSession -> result A * DeviceSession.

(** [DeviceSession.connect] *)
Definition connect : SessionM pyval :=
  fun s =>
    if _connected s then (Ok PyNone, s)
    else
      match dev_connect (device s) with
      | (Ok _, d') => (Ok PyNone, {| device := d'; _connected := true |})
      | (Raise _, d') =>
          (Raise DeviceConnectionError,
           {| device := d'; _connected := _connected s |})
      end.

(** [DeviceSession.disconnect] *)
Definition disconnect : SessionM pyval :=
  fun s =>
    if negb (_connected s) then (Ok PyNone, s)
    else
      match dev_disconnect (device s) with
      | (Ok _, d') => (Ok PyNone, {| device := d'; _connected := false |})
      | (Raise _, d') =>
          (Ok PyNone, {| device := d'; _connected := _connected s |})
      end.

(** [DeviceSession.deploy_config] *)
Definition deploy_config (config : string) (commit : bool) : SessionM pyval :=
  fun s =>
    if negb (_connected s) then (Raise DeviceConnectionError, s)
    else
      match dev_send_config config (device s) with
      | (Raise _, d1) =>
          (Raise DeviceConnectionError,
           {| device := d1; _connected := _connected s |})
      | (Ok _, d1) =>
          if commit then
            match dev_commit d1 with
            | (Raise _, d2) =>
                (Raise DeviceConnectionError,
                 {| device := d2; _connected := _connected s |})
            | (Ok _, d2) =>
                (Ok PyNone, {| device := d2; _connected := _connected s |})
            end
          else (Ok PyNone, {| device := d1; _connected := _connected s |})
      end.

(** [DeviceSession.__exit__] *)
Definition __exit__ : SessionM pyval :=
  fun s =>
    match disconnect s with
    | (Ok _, s') => (Ok (PyBool false), s')
    | (Raise e, s') => (Raise e, s')
    end.
(** [DeviceSession.__enter__]; the session it returns is the one it
    leaves. *)
Definition __enter__ : SessionM unit :=
  fun s =>
    match connect s with
    | (Ok _, s') => (Ok tt, s')
    | (Raise e, s') => (Raise e, s')
    end.

(** Truth value of an object that a method returns. *)
Definition truth (v : pyval) : bool :=
  match v with
  | PyNone => false
  | PyBool b => b
  | PyInt n => negb (n =? 0)%Z
  end.

(** [with DeviceSession(d) as session: body].  When [__enter__] raises,
    the statement raises and [__exit__] is not called.  Otherwise
    [__exit__] is called after the body, whether the body raised or not;
    an exception of the body is raised again unless [__exit__] returns a
    true value, and an exception of [__exit__] takes its place. *)
Definition with_session (d : D) (body : SessionM pyval)
  : result pyval * DeviceSession :=
  match __enter__ (new_session d) with
  | (Raise e, s) => (Raise e, s)
  | (Ok _, s) =>
      match body s with
      | (Ok _, s1) =>
          match __exit__ s1 with
          | (Ok _, s2) => (Ok PyNone, s2)
          | (Raise e, s2) => (Raise e, s2)
          end
      | (Raise e, s1) =>
          match __exit__ s1 with
          | (Ok v, s2) => if truth v then (Ok PyNone, s2) else (Raise e, s2)
          | (Raise e', s2) => (Raise e', s2)
          end
      end
  end.

(** The deployment to one device in [cli/main.py] (lines 75 to 77) and
    [ui/app.py] (lines 213 to 215):
    [with DeviceSession(device) as session: session.deploy_config(config)]. *)
Definition deploy_to_device (config : string) (d : D)
  : result pyval * DeviceSession :=
  with_session d (deploy_config config true).

End DeviceSession.

Arguments DeviceSession D : clear implicits.

End Session.

(* ================================================================== *)
(** ** Values used in the examples *)
(* ================================================================== *)

Module Examples.
Import PyStr PyFloat Telemetry Validation Automation Session.

(** Two snapshots used in the examples: the same latency figures
    (2.0 ms on average, no loss), a one-hop path through 10.0.0.1 before
    the change and through 10.0.0.2 after it. *)
Definition ex_latency : LatencyMetrics :=
  {| source := "h1"; destination := "h2";
     min_latency_ms := float_of_Z 1; avg_latency_ms := float_of_Z 2;
     max_latency_ms := float_of_Z 3; packet_loss_percent := zero |}.

Definition ex_path (ip : string) : PathMetrics :=
  {| path_source := "h1"; path_destination := "h2";
     hops := [ {| hop_number := 1; hostname := Some "gw"; ip_address := ip;
                  latency_ms := Some (float_of_Z 1) |} ];
     total_hops := 1 |}.

Definition ex_snapshot (ip : string) : TelemetryMetrics :=
  {| latency := Some ex_latency; path := Some (ex_path ip);
     interfaces := [] |}.

Definition ex_baseline : TelemetryMetrics := ex_snapshot "10.0.0.1".
Definition ex_current : TelemetryMetrics := ex_snapshot "10.0.0.2".

(** A node that counts the commands it has run and answers each of them
    with an empty text, except that it raises on every [hostname]
    command. *)
Definition ex_node_cmd (c : string) (n : nat) : option string * nat :=
  (if prefix "hostname " c then None else Some "", S n).

(** A connected switch and a connected host on such a node, the limit of
    [int] and [str] being the default of CPython 3.11. *)
Definition ex_limit : nat := 4300.

Definition ex_switch : SimulatedDevice nat :=
  set_connected true (new_device "s1" "switch" (Some 0)).

Definition ex_host : SimulatedDevice nat :=
  set_connected true (new_device "h1" "host" (Some 0)).

(** A device whose [commit] and [disconnect] raise, and that counts the
    calls of its methods. *)
Definition ex_stuck_device : NetworkDevice nat :=
  {| dev_connect := fun n => (Ok PyNone, S n);
     dev_send_config := fun _ n => (Ok PyNone, S n);
     dev_commit := fun n => (Raise ExecutorError, S n);
     dev_disconnect := fun n => (Raise ExecutorError, S n) |}.

(** A text of two configuration lines. *)
Definition ex_text : string :=
  join (String LF "") ["hostname s1"; "interface eth0"].

(** A session on the example switch, marked connected. *)
Definition ex_session : DeviceSession (SimulatedDevice nat) :=
  {| device := ex_switch; _connected := true |}.

(** The output of a [traceroute] over two hops, the second of which has
    no name, and the path it stands for. *)
Definition ex_traceroute : string :=
  join (String LF "")
    ["traceroute to 10.0.1.10 (10.0.1.10), 30 hops max, 60 byte packets";
     " 1  r1 (10.0.0.1)  0.5 ms  0.4 ms  0.4 ms";
     " 2  * (10.0.1.10)  1.25 ms";
     ""].

Definition ex_route : PathMetrics :=
  {| path_source := "h1"; path_destination := "h2";
     hops := [ {| hop_number := 1; hostname := Some "r1";
                  ip_address := "10.0.0.1";
                  latency_ms := Some (of_decimal 5 1) |};
               {| hop_number := 2; hostname := None;
                  ip_address := "10.0.1.10";
                  latency_ms := Some (of_decimal 125 2) |} ];
     total_hops := 2 |}.

(** The metrics read from an output of [ping] that is empty, and a
    snapshot that carries them. *)
Definition ex_no_answer : LatencyMetrics :=
  {| source := "h1"; destination := "h2";
     min_latency_ms := zero; avg_latency_ms := zero;
     max_latency_ms := zero; packet_loss_percent := zero |}.

Definition ex_no_answer_snapshot : TelemetryMetrics :=
  {| latency := Some ex_no_answer; path := None; interfaces := [] |}.

(** The metrics read from a summary line of [ping]. *)
Definition ex_summary : string :=
  "rtt min/avg/max/mdev = 1.000/2.500/4.000/0.100 ms".

Definition ex_summary_metrics : LatencyMetrics :=
  {| source := "h1"; destination := "h2";
     min_latency_ms := of_decimal 1000 3;
     avg_latency_ms := of_decimal 2500 3;
     max_latency_ms := of_decimal 4000 3;
     packet_loss_percent := zero |}.

(** A line of [/proc/net/dev] and the record it stands for. *)
Definition ex_dev_line : string :=
  "    lo: 100 2 0 5 0 0 0 0 300 4 0 7 0 0 0 0".

Definition ex_counter : InterfaceCounter :=
  {| interface_name := "lo"; bytes_sent := 300; bytes_received := 100;
     packets_sent := 4; packets_received := 2;
     drops_sent := 7; drops_received := 5 |}.

(** A host that has just been constructed, with a node and without one,
    and a sequence of calls that goes through the life cycle. *)
Definition ex_fresh : SimulatedDevice nat :=
  new_device "h1" "host" (Some 0).

Definition ex_no_node : SimulatedDevice nat :=
  new_device "h1" "host" None.

Definition ex_calls : list call :=
  [Connect; SendConfig ex_text; Commit; Disconnect].

(** A snapshot that carries no metrics. *)
Definition ex_empty_snapshot : TelemetryMetrics :=
  {| latency := None; path := None; interfaces := [] |}.

End Examples.

(* ================================================================== *)
(** * Properties of the run-time functions *)
(* ================================================================== *)

Module PyFacts.
Import PyStr PyNum PyFloat PyRe.

(** *** Strings *)

Lemma is_empty_true (s : string) : is_empty s = true <-> s = "".
Proof. destruct s; simpl; split; congruence. Qed.

Lemma append_empty_r (s : string) : s ++ "" = s.
Proof. induction s as [|c s IH]; simpl; [reflexivity | now rewrite IH]. Qed.

Lemma append_assoc (a b c : string) : (a ++ b) ++ c = a ++ (b ++ c).
Proof. induction a as [|x a IH]; simpl; [reflexivity | now rewrite IH]. Qed.

Lemma length_append (a b : string) :
  String.length (a ++ b) = (String.length a + String.length b)%nat.
Proof. induction a as [|x a IH]; simpl; [reflexivity | now rewrite IH]. Qed.

Lemma all_chars_append (p : ascii -> bool) (a b : string) :
  all_chars p (a ++ b) = all_chars p a && all_chars p b.
Proof.
  induction a as [|x a IH]; simpl; [reflexivity|].
  now rewrite IH, andb_assoc.
Qed.

Lemma split_char_not_nil (c : ascii) (s : string) : split_char c s <> [].
Proof.
  induction s as [|x s IH]; simpl; [discriminate|].
  destruct (Ascii.eqb x c); [discriminate|].
  destruct (split_char c s); [contradiction | discriminate].
Qed.

Lemma split_char_absent (c : ascii) (s : string) :
  contains (String c "") s = false -> split_char c s = [s].
Proof.
  induction s as [|x s IH]; cbn [contains prefix split_char]; [reflexivity|].
  destruct (ascii_dec c x) as [->|Hne].
  - destruct s; discriminate.
  - cbn [orb]. intros H. rewrite (IH H).
    destruct (Ascii.eqb x c) eqn:E; [|reflexivity].
    apply Ascii.eqb_eq in E. congruence.
Qed.

Lemma split_char_app (c : ascii) (a b : string) :
  split_char c (a ++ String c b) = (split_char c a ++ split_char c b)%list.
Proof.
  induction a as [|x a IH]; cbn [append split_char].
  - now rewrite Ascii.eqb_refl.
  - rewrite IH. destruct (Ascii.eqb x c); [reflexivity|].
    pose proof (split_char_not_nil c a) as Hne.
    destruct (split_char c a); [contradiction | reflexivity].
Qed.

(** Joining lines that hold no line feed and splitting the text again
    gives the lines back. *)
Lemma split_join (l : list string) :
  l <> [] ->
  Forall (fun line => contains (String LF "") line = false) l ->
  split_char LF (join (String LF "") l) = l.
Proof.
  induction l as [|x l IH]; [congruence|]. intros _ Hall.
  inversion Hall as [|? ? Hx Hl]; subst.
  destruct l as [|y l].
  - simpl. now apply split_char_absent.
  - change (join (String LF "") (x :: y :: l))
      with (x ++ String LF (join (String LF "") (y :: l))).
    rewrite split_char_app, (split_char_absent _ _ Hx).
    rewrite IH; [reflexivity | discriminate | exact Hl].
Qed.

(** *** [span] *)

Lemma span_spec (p : ascii -> bool) (s : string) :
  s = fst (span p s) ++ snd (span p s)
  /\ all_chars p (fst (span p s)) = true.
Proof.
  induction s as [|c s [IH1 IH2]]; simpl; [now split|].
  destruct (p c) eqn:E.
  - destruct (span p s) as [a b]. simpl in *. rewrite E, IH2.
    split; [now f_equal | reflexivity].
  - simpl. now split.
Qed.

Lemma search_some {A : Type} (f : string -> option A) (s : string) (g : A) :
  search f s = Some g -> exists t, f t = Some g.
Proof.
  induction s as [|c s IH]; simpl.
  - destruct (f "") eqn:E; [|discriminate]. intros [= <-]. eauto.
  - destruct (f (String c s)) eqn:E.
    + intros [= <-]. eauto.
    + exact IH.
Qed.

(** *** Floats *)

Lemma shr_1_nonneg (mrs : shr_record) :
  (0 <= shr_m mrs)%Z -> (0 <= shr_m (shr_1 mrs))%Z.
Proof.
  destruct mrs as [m r s]. destruct m as [|p|p]; simpl; try lia.
  destruct p; simpl; lia.
Qed.

Lemma iter_pos_invariant {A : Type} (P : A -> Prop) (f : A -> A) :
  (forall x, P x -> P (f x)) ->
  forall (n : positive) (x : A), P x -> P (iter_pos f n x).
Proof.
  intros Hf n. induction n as [n IH|n IH|]; intros x Hx; simpl; auto.
Qed.

Lemma shr_fexp_nonneg (m e : Z) (l : location) :
  (0 <= m)%Z -> (0 <= shr_m (fst (shr_fexp prec emax m e l)))%Z.
Proof.
  intros Hm. unfold shr_fexp, shr.
  assert (H0 : (0 <= shr_m (shr_record_of_loc m l))%Z).
  { destruct l as [|[]]; simpl; exact Hm. }
  destruct (_ - e)%Z; simpl; try exact H0.
  apply (iter_pos_invariant (fun r => (0 <= shr_m r)%Z));
    auto using shr_1_nonneg.
Qed.

Lemma round_nearest_even_nonneg (m : Z) (l : location) :
  (0 <= m)%Z -> (0 <= round_nearest_even m l)%Z.
Proof.
  intros Hm. destruct l as [|[]]; simpl; try lia.
  destruct (Z.even m); lia.
Qed.

Lemma positive_sign_fge (f : float) :
  positive_sign f -> fge f (S754_zero false) = true.
Proof.
  destruct f as [[]|[]| |[] m e]; simpl; intros H;
    try contradiction; reflexivity.
Qed.

Lemma binary_round_aux_positive (m e : Z) (l : location) :
  (0 <= m)%Z -> positive_sign (binary_round_aux prec emax false m e l).
Proof.
  intros Hm. unfold binary_round_aux.
  pose proof (shr_fexp_nonneg m e l Hm) as H1.
  destruct (shr_fexp prec emax m e l) as [mrs1 e1]. simpl in H1.
  pose proof (shr_fexp_nonneg _ e1 loc_Exact
                (round_nearest_even_nonneg _ (loc_of_shr_record mrs1) H1))
    as H2.
  destruct (shr_fexp prec emax _ e1 loc_Exact) as [mrs2 e2]. simpl in H2.
  destruct (shr_m mrs2) as [|p|p]; simpl.
  - exact I.
  - destruct (e2 <=? 971)%Z; exact I.
  - lia.
Qed.

Lemma of_decimal_positive (n : Z) (k : nat) : positive_sign (of_decimal n k).
Proof.
  unfold of_decimal. destruct n as [|p|p]; simpl; try exact I.
  unfold SFdiv_core_binary.
  set (m' := match _ with Z0 => Z.pos p | Zpos _ => _ | Zneg _ => 0%Z end).
  assert (Hm : (0 <= m')%Z).
  { unfold m'. destruct (_ - _ - _)%Z; try lia. apply Z.shiftl_nonneg. lia. }
  pose proof (Z.div_pos m' (Z.pos (pow10 k)) Hm (Pos2Z.is_pos _)) as Hq.
  unfold Z.div in Hq.
  destruct (Z.div_eucl m' (Z.pos (pow10 k))) as [q r]. simpl in Hq.
  now apply binary_round_aux_positive.
Qed.

Lemma py_float_positive (s : string) (f : float) :
  py_float s = Some f -> positive_sign f.
Proof.
  unfold py_float.
  destruct (numeral_digits false 0 0 0 s) as [[[n frac] [|d]]|];
    try discriminate.
  intros [= <-]. apply of_decimal_positive.
Qed.

Lemma numeral_digits_decimal (a : string) :
  all_chars isdecimal a = true ->
  forall (sp : bool) (acc : Z) (fr dg : nat) (rest : string),
  exists acc' fr',
    numeral_digits sp acc fr dg (a ++ rest)
    = numeral_digits sp acc' fr' (dg + String.length a) rest.
Proof.
  induction a as [|c a IH]; cbn [all_chars append numeral_digits String.length];
    intros Ha sp acc fr dg rest.
  - exists acc, fr. now rewrite Nat.add_0_r.
  - apply andb_true_iff in Ha as [Hc Ha]. rewrite Hc.
    destruct (IH Ha sp (10 * acc + digit_value c)%Z
                 (if sp then S fr else fr) (S dg) rest) as (acc' & fr' & E).
    exists acc', fr'. rewrite E. f_equal. lia.
Qed.

(** A numeral of [\d+] or [\d+\.\d+] converts to a float. *)
Lemma py_float_whole (w : string) :
  w <> "" -> all_chars isdecimal w = true -> exists f, py_float w = Some f.
Proof.
  intros Hne Hw. unfold py_float.
  destruct (numeral_digits_decimal w Hw false 0%Z 0 0 "") as (acc & fr & E).
  rewrite append_empty_r in E. rewrite E. simpl.
  destruct w as [|c w]; [congruence|]. simpl. eauto.
Qed.

Lemma py_float_fraction (w fr : string) :
  w <> "" -> all_chars isdecimal w = true -> all_chars isdecimal fr = true ->
  exists f, py_float (w ++ String "." fr) = Some f.
Proof.
  intros Hne Hw Hfr. unfold py_float.
  destruct (numeral_digits_decimal w Hw false 0%Z 0 0 (String "." fr))
    as (acc & k & E).
  rewrite E. simpl.
  destruct (numeral_digits_decimal fr Hfr true acc k (String.length w) "")
    as (acc' & k' & E').
  rewrite append_empty_r in E'. rewrite E'. simpl.
  destruct w as [|c w]; [congruence|]. simpl. eauto.
Qed.

(** *** The matcher on a greedy run *)

Lemma many_max {R : Type} (p : ascii -> bool) (least : nat)
      (k : string -> string -> option R) (s : string) :
  forall taken x,
    k (taken ++ fst (span p s)) (snd (span p s)) = Some x ->
    (least <= String.length (taken ++ fst (span p s)))%nat ->
    many p least k taken s = Some x.
Proof.
  induction s as [|c s IH]; intros taken x Hk Hl; cbn [many span] in *.
  - cbn [fst snd] in *. rewrite append_empty_r in *.
    apply Nat.leb_le in Hl. now rewrite Hl.
  - destruct (p c) eqn:E.
    + destruct (span p s) as [a b] eqn:Es. cbn [fst snd] in *.
      rewrite (IH (taken ++ String c "") x); [reflexivity | |];
        rewrite append_assoc; assumption.
    + cbn [fst snd] in *. rewrite append_empty_r in *.
      apply Nat.leb_le in Hl. now rewrite Hl.
Qed.

Lemma many_none {R : Type} (p : ascii -> bool) (least : nat)
      (k : string -> string -> option R) (s : string) :
  (forall m b, starts_in p b -> k m b = None) ->
  forall taken,
    k (taken ++ fst (span p s)) (snd (span p s)) = None
    \/ (String.length (taken ++ fst (span p s)) < least)%nat ->
    many p least k taken s = None.
Proof.
  intros Hk. induction s as [|c s IH]; intros taken H; cbn [many span] in *.
  - cbn [fst snd] in H. rewrite append_empty_r in H.
    destruct (least <=? String.length taken)%nat eqn:E; [|reflexivity].
    apply Nat.leb_le in E. destruct H as [H|H]; [exact H | lia].
  - destruct (p c) eqn:E.
    + destruct (span p s) as [a b] eqn:Es. cbn [fst snd] in *.
      rewrite IH.
      * destruct (least <=? String.length taken)%nat; [|reflexivity].
        apply Hk. exact E.
      * rewrite append_assoc. exact H.
    + cbn [fst snd] in H. rewrite append_empty_r in H.
      destruct (least <=? String.length taken)%nat eqn:El; [|reflexivity].
      apply Nat.leb_le in El. destruct H as [H|H]; [exact H | lia].
Qed.

(** A greedy run whose continuation rejects every rest that starts in the
    class takes the longest run or fails. *)
Lemma many_greedy {R : Type} (p : ascii -> bool) (least : nat)
      (k : string -> string -> option R) (s : string) :
  (forall m b, starts_in p b -> k m b = None) ->
  many p least k "" s
  = if (least <=? String.length (fst (span p s)))%nat
    then k (fst (span p s)) (snd (span p s)) else None.
Proof.
  intros Hk. destruct (least <=? String.length (fst (span p s)))%nat eqn:E.
  - destruct (k (fst (span p s)) (snd (span p s))) as [x|] eqn:Ek.
    + apply many_max; [exact Ek|]. apply Nat.leb_le in E. exact E.
    + apply many_none; [exact Hk | now left].
  - apply many_none; [exact Hk|]. right. apply Nat.leb_gt in E. exact E.
Qed.

(** The last greedy run of a pattern, after which nothing can fail. *)
Lemma many_last {R : Type} (p : ascii -> bool) (least : nat)
      (k : string -> string -> R) (s : string) :
  many p least (fun m rest => Some (k m rest)) "" s
  = if (least <=? String.length (fst (span p s)))%nat
    then Some (k (fst (span p s)) (snd (span p s))) else None.
Proof.
  destruct (least <=? String.length (fst (span p s)))%nat eqn:E.
  - apply many_max; [reflexivity|]. apply Nat.leb_le in E. exact E.
  - assert (H : forall t taken,
               (String.length (taken ++ fst (span p t)) < least)%nat ->
               many p least (fun m rest => Some (k m rest)) taken t = None).
    { induction t as [|c t IH]; intros taken Hl; cbn [many span] in *.
      - cbn [fst] in Hl. rewrite append_empty_r in Hl.
        apply Nat.leb_gt in Hl. now rewrite Hl.
      - destruct (p c).
        + destruct (span p t) as [a b]. cbn [fst] in *.
          rewrite IH by (rewrite append_assoc; exact Hl).
          rewrite length_append in Hl.
          assert (Hl' : (String.length taken < least)%nat) by lia.
          apply Nat.leb_gt in Hl'. now rewrite Hl'.
        + cbn [fst] in Hl. rewrite append_empty_r in Hl.
          apply Nat.leb_gt in Hl. now rewrite Hl. }
    apply H. apply Nat.leb_gt in E. exact E.
Qed.

Lemma prefix_first (t s : string) (c d : ascii) :
  c <> d -> prefix (String c t) (String d s) = false.
Proof. intros H. cbn [prefix]. now destruct (ascii_dec c d). Qed.

Lemma decimal_starts (b : string) :
  starts_in isdecimal b ->
  prefix "." b = false /\ prefix "% packet loss" b = false.
Proof.
  destruct b as [|c b]; [contradiction|]. cbn [starts_in]. intros H.
  split; apply prefix_first; intros <-; discriminate H.
Qed.

(** Group 1 of a match of the loss pattern is a numeral that [float]
    accepts. *)
Lemma loss_pattern_float (s : string) (caps : list string) :
  match_at loss_pattern s = Some caps ->
  exists g f, caps = [g] /\ py_float g = Some f.
Proof.
  unfold match_at, loss_pattern. cbn [run].
  rewrite many_greedy.
  2:{ intros m b Hb. destruct (decimal_starts b Hb) as [H1 H2].
      now rewrite H1, H2. }
  pose proof (span_spec isdecimal s) as [_ Hw].
  destruct (span isdecimal s) as [whole r1]. cbn [fst snd] in *.
  destruct whole as [|c w]; [discriminate|].
  cbn [String.length Nat.leb].
  assert (Hwhole : exists f, py_float (String c w ++ "") = Some f).
  { rewrite append_empty_r. apply py_float_whole; [discriminate | exact Hw]. }
  assert (Hfall : (if prefix "% packet loss" r1
                   then Some ([] ++ [(String c w ++ "")%string])%list
                   else None)
                  = Some caps ->
                  exists g f, caps = [g] /\ py_float g = Some f).
  { destruct (prefix "% packet loss" r1); [|discriminate].
    intros [= <-]. destruct Hwhole as [f Hf]. eauto. }
  destruct (prefix "." r1); [|exact Hfall].
  rewrite many_greedy.
  2:{ intros m b Hb. destruct (decimal_starts b Hb) as [_ H2]. now rewrite H2. }
  pose proof (span_spec isdecimal (drop 1 r1)) as [_ Hf].
  destruct (span isdecimal (drop 1 r1)) as [frac r3]. cbn [fst snd] in *.
  destruct (1 <=? String.length frac)%nat; [|exact Hfall].
  destruct (prefix "% packet loss" r3); [|exact Hfall].
  intros [= <-].
  destruct (py_float_fraction (String c w) frac) as [f Hfr];
    [discriminate | exact Hw | exact Hf |].
  exists (String c w ++ "." ++ frac), f. split; [reflexivity | exact Hfr].
Qed.

(** *** Strings of decimal digits *)

Lemma isdecimal_not_space (c : ascii) :
  isdecimal c = true -> isspace c = false /\ int_space c = false.
Proof.
  destruct c as [[] [] [] [] [] [] [] []]; intros H;
    try discriminate H; split; reflexivity.
Qed.

Lemma isdecimal_not_sign (c : ascii) (s : string) :
  isdecimal c = true ->
  split_sign (String c s) = (false, String c s).
Proof.
  destruct c as [[] [] [] [] [] [] [] []]; intros H;
    try discriminate H; reflexivity.
Qed.

Lemma isdecimal_isdigit (s : string) :
  s <> "" -> all_chars isdecimal s = true -> isdigit s = true.
Proof.
  intros Hne H. unfold isdigit. destruct s as [|c s]; [congruence|].
  cbn [is_empty negb andb]. clear Hne. revert H.
  generalize (String c s). intros t. induction t as [|x t IH]; simpl; auto.
  intros H. apply andb_true_iff in H as [Hx Ht].
  unfold isdigit_char. rewrite Hx. simpl. auto.
Qed.

Lemma rstrip_no_space (space : ascii -> bool) (s : string) :
  all_chars (fun c => negb (space c)) s = true -> rstrip_of space s = s.
Proof.
  induction s as [|c s IH]; simpl; [reflexivity|].
  intros H. apply andb_true_iff in H as [Hc Hs].
  apply negb_true_iff in Hc. rewrite Hc, (IH Hs). reflexivity.
Qed.

Lemma all_chars_impl (p q : ascii -> bool) (s : string) :
  (forall c, p c = true -> q c = true) ->
  all_chars p s = true -> all_chars q s = true.
Proof.
  intros Hpq. induction s as [|c s IH]; simpl; [reflexivity|].
  intros H. apply andb_true_iff in H as [Hc Hs].
  now rewrite (Hpq c Hc), (IH Hs).
Qed.

(** Stripping leaves a string alone when none of its characters is in
    the class that is stripped. *)
Lemma strip_of_outside (space : ascii -> bool) (s : string) :
  all_chars (fun c => negb (space c)) s = true -> strip_of space s = s.
Proof.
  intros H. unfold strip_of.
  assert (Hl : lstrip_of space s = s).
  { destruct s as [|c s]; [reflexivity|]. simpl in *.
    apply andb_true_iff in H as [Hc _].
    apply negb_true_iff in Hc. now rewrite Hc. }
  rewrite Hl. now apply rstrip_no_space.
Qed.

Lemma strip_decimal (s : string) :
  all_chars isdecimal s = true -> strip_of int_space s = s.
Proof.
  intros H. apply strip_of_outside.
  apply (all_chars_impl isdecimal); [|exact H].
  intros c Hc. now rewrite (proj2 (isdecimal_not_space c Hc)).
Qed.

Lemma int_digits_decimal (s : string) :
  all_chars isdecimal s = true ->
  forall (acc : Z) (cnt : nat),
    int_digits true acc cnt s
    = Some (decimal_value acc s, (cnt + String.length s)%nat).
Proof.
  induction s as [|c s IH];
    cbn [all_chars int_digits decimal_value String.length];
    intros H acc cnt.
  - now rewrite Nat.add_0_r.
  - apply andb_true_iff in H as [Hc Hs]. rewrite Hc, (IH Hs).
    do 2 f_equal. lia.
Qed.

(** [int] of a non-empty string of decimal digits within the limit. *)
Lemma py_int_decimal (lim : nat) (s : string) :
  s <> "" -> all_chars isdecimal s = true ->
  within_limit lim (String.length s) = true ->
  py_int lim s = Some (decimal_value 0 s).
Proof.
  intros Hne H Hlim. unfold py_int. rewrite (strip_decimal s H).
  destruct s as [|c s]; [congruence|].
  pose proof H as H'. cbn [all_chars] in H'.
  apply andb_true_iff in H' as [Hc Hs].
  rewrite (isdecimal_not_sign c s Hc).
  cbn [int_digits]. rewrite Hc, (int_digits_decimal s Hs).
  cbn [String.length] in Hlim. cbn [Nat.add]. rewrite Hlim. reflexivity.
Qed.

Lemma prefix_eth_decimal (c : ascii) (s : string) :
  isdecimal c = true -> prefix "eth" (String c s) = false.
Proof.
  intros H. cbn [prefix]. destruct (ascii_dec "e" c) as [<-|]; [|reflexivity].
  discriminate H.
Qed.

Lemma remove_eth_decimal (s : string) :
  all_chars isdecimal s = true -> remove_from "eth" 0 s = s.
Proof.
  induction s as [|c s IH]; [reflexivity|].
  cbn [all_chars]. intros H. apply andb_true_iff in H as [Hc Hs].
  cbn [remove_from]. rewrite (prefix_eth_decimal c s Hc), (IH Hs). reflexivity.
Qed.

Lemma remove_all_eth (s : string) :
  all_chars isdecimal s = true -> remove_all "eth" ("eth" ++ s) = s.
Proof.
  intros H. unfold remove_all. simpl.
  assert (Hp : prefix "" s = true) by now destruct s.
  rewrite Hp. now apply remove_eth_decimal.
Qed.

End PyFacts.

(* ================================================================== *)
(** * Properties of the conversion to floats *)
(* ================================================================== *)

Module FloatFacts.
Import PyStr PyNum PyFloat PyFacts.
Local Open Scope Z_scope.

(** [digits2_pos p] is the number of binary digits of [p]. *)
Lemma digits2_pos_bounds (p : positive) :
  2 ^ (Z.pos (digits2_pos p) - 1) <= Z.pos p < 2 ^ Z.pos (digits2_pos p).
Proof.
  induction p as [p IH|p IH|]; cbn [digits2_pos].
  - rewrite Pos2Z.inj_succ.
    replace (Z.succ (Z.pos (digits2_pos p)) - 1)
      with (Z.pos (digits2_pos p)) by lia.
    rewrite Z.pow_succ_r by lia.
    assert (H : 2 ^ Z.pos (digits2_pos p)
                = 2 * 2 ^ (Z.pos (digits2_pos p) - 1)).
    { rewrite <- Z.pow_succ_r by lia. f_equal. lia. }
    lia.
  - rewrite Pos2Z.inj_succ.
    replace (Z.succ (Z.pos (digits2_pos p)) - 1)
      with (Z.pos (digits2_pos p)) by lia.
    rewrite Z.pow_succ_r by lia.
    assert (H : 2 ^ Z.pos (digits2_pos p)
                = 2 * 2 ^ (Z.pos (digits2_pos p) - 1)).
    { rewrite <- Z.pow_succ_r by lia. f_equal. lia. }
    lia.
  - simpl. lia.
Qed.

Lemma Zdigits2_bounds (m : Z) :
  0 < m -> 2 ^ (Zdigits2 m - 1) <= m < 2 ^ Zdigits2 m.
Proof. destruct m as [|p|p]; try lia. intros _. apply digits2_pos_bounds. Qed.

Lemma Zdigits2_nonneg (m : Z) : 0 <= Zdigits2 m.
Proof. destruct m; simpl; lia. Qed.

(** A number below [2^k] has at most [k] digits. *)
Lemma Zdigits2_le (m k : Z) : 0 <= m -> 0 <= k -> m < 2 ^ k -> Zdigits2 m <= k.
Proof.
  intros Hm Hk Hlt. destruct (Z.eq_dec m 0) as [->|Hne]; [simpl; lia|].
  destruct (Zdigits2_bounds m ltac:(lia)) as [Hlo _].
  destruct (Z_le_gt_dec (Zdigits2 m) k) as [|Hgt]; [assumption|].
  assert (2 ^ k <= 2 ^ (Zdigits2 m - 1)) by (apply Z.pow_le_mono_r; lia).
  lia.
Qed.

(** Shifting a mantissa to the right does not increase the number that
    it stands for. *)
Lemma shr_1_le (mrs : shr_record) :
  0 <= shr_m mrs ->
  0 <= shr_m (shr_1 mrs) /\ 2 * shr_m (shr_1 mrs) <= shr_m mrs.
Proof.
  destruct mrs as [m r s]. destruct m as [|p|p]; simpl; try lia.
  destruct p; simpl; lia.
Qed.

Lemma iter_shr_1_le (n : positive) :
  forall mrs, 0 <= shr_m mrs ->
    0 <= shr_m (iter_pos shr_1 n mrs)
    /\ 2 ^ Z.pos n * shr_m (iter_pos shr_1 n mrs) <= shr_m mrs.
Proof.
  induction n as [n IH|n IH|]; intros mrs H; cbn [iter_pos].
  - destruct (shr_1_le mrs H) as [H0 H1].
    destruct (IH _ H0) as [H2 H3]. destruct (IH _ H2) as [H4 H5].
    split; [assumption|].
    replace (Z.pos n~1) with (Z.pos n + Z.pos n + 1) by lia.
    rewrite !Z.pow_add_r by lia. change (2 ^ 1) with 2.
    set (a := 2 ^ Z.pos n) in *.
    assert (0 < a) by (apply Z.pow_pos_nonneg; lia).
    nia.
  - destruct (IH _ H) as [H2 H3]. destruct (IH _ H2) as [H4 H5].
    split; [assumption|].
    replace (Z.pos n~0) with (Z.pos n + Z.pos n) by lia.
    rewrite !Z.pow_add_r by lia.
    set (a := 2 ^ Z.pos n) in *.
    assert (0 < a) by (apply Z.pow_pos_nonneg; lia).
    nia.
  - destruct (shr_1_le mrs H). split; [assumption|].
    change (2 ^ 1) with 2. lia.
Qed.

(** A shift that loses nothing sets neither the round bit nor the sticky
    bit. *)
Lemma shr_1_exact (mrs : shr_record) :
  0 <= shr_m mrs -> no_bits mrs -> 2 * shr_m (shr_1 mrs) = shr_m mrs ->
  no_bits (shr_1 mrs).
Proof.
  destruct mrs as [m r s]. intros Hm [Hr Hs]. simpl in Hr, Hs. subst r s.
  destruct m as [|p|p]; [| |simpl in Hm; lia].
  - intros _. split; reflexivity.
  - destruct p; cbn [shr_1 shr_m orb]; intros H; try lia; split; reflexivity.
Qed.

Lemma iter_shr_1_exact (n : positive) :
  forall mrs, 0 <= shr_m mrs -> no_bits mrs ->
    2 ^ Z.pos n * shr_m (iter_pos shr_1 n mrs) = shr_m mrs ->
    no_bits (iter_pos shr_1 n mrs).
Proof.
  induction n as [n IH|n IH|]; intros mrs H Hb; cbn [iter_pos].
  - destruct (shr_1_le mrs H) as [H0 H1].
    destruct (iter_shr_1_le n _ H0) as [H2 H3].
    destruct (iter_shr_1_le n _ H2) as [H4 H5].
    replace (Z.pos n~1) with (Z.pos n + Z.pos n + 1) by lia.
    rewrite !Z.pow_add_r by lia. change (2 ^ 1) with 2.
    set (a := 2 ^ Z.pos n) in *.
    assert (0 < a) by (apply Z.pow_pos_nonneg; lia).
    intros E.
    assert (E1 : 2 * shr_m (shr_1 mrs) = shr_m mrs) by nia.
    assert (E2 : a * shr_m (iter_pos shr_1 n (shr_1 mrs)) = shr_m (shr_1 mrs))
      by nia.
    assert (E3 : a * shr_m (iter_pos shr_1 n (iter_pos shr_1 n (shr_1 mrs)))
                 = shr_m (iter_pos shr_1 n (shr_1 mrs))) by nia.
    apply IH; [assumption | apply IH; [assumption | | assumption] | assumption].
    now apply shr_1_exact.
  - destruct (iter_shr_1_le n _ H) as [H2 H3].
    destruct (iter_shr_1_le n _ H2) as [H4 H5].
    replace (Z.pos n~0) with (Z.pos n + Z.pos n) by lia.
    rewrite !Z.pow_add_r by lia.
    set (a := 2 ^ Z.pos n) in *.
    assert (0 < a) by (apply Z.pow_pos_nonneg; lia).
    intros E.
    assert (E2 : a * shr_m (iter_pos shr_1 n mrs) = shr_m mrs) by nia.
    assert (E3 : a * shr_m (iter_pos shr_1 n (iter_pos shr_1 n mrs))
                 = shr_m (iter_pos shr_1 n mrs)) by nia.
    apply IH; [assumption | apply IH; assumption | assumption].
  - change (2 ^ 1) with 2. intros E. now apply shr_1_exact.
Qed.

(** The two cases of [shr]. *)
Lemma shr_le (mrs : shr_record) (e n : Z) :
  0 <= shr_m mrs ->
  0 <= shr_m (fst (shr mrs e n))
  /\ ((0 < n /\ snd (shr mrs e n) = e + n
       /\ 2 ^ n * shr_m (fst (shr mrs e n)) <= shr_m mrs
       /\ (no_bits mrs -> 2 ^ n * shr_m (fst (shr mrs e n)) = shr_m mrs ->
           no_bits (fst (shr mrs e n))))
      \/ (n <= 0 /\ shr mrs e n = (mrs, e))).
Proof.
  intros H. unfold shr. destruct n as [|p|p]; cbn [fst snd].
  - split; [assumption|]. right. split; [lia | reflexivity].
  - destruct (iter_shr_1_le p mrs H) as [H0 H1].
    split; [assumption|]. left. split; [lia|]. split; [reflexivity|].
    split; [assumption|]. intros Hb E. now apply iter_shr_1_exact.
  - split; [assumption|]. right. split; [lia | reflexivity].
Qed.

Lemma shr_record_of_loc_m (m : Z) (l : location) :
  shr_m (shr_record_of_loc m l) = m.
Proof. destruct l as [|[]]; reflexivity. Qed.

Lemma fexp_eq (e : Z) : fexp prec emax e = Z.max (e - 53) (-1074).
Proof. reflexivity. Qed.

Lemma digits_at_most_100 (m e : Z) : at_most_100 m e -> Zdigits2 m + e <= 7.
Proof.
  intros (He & Hm0 & Hm).
  assert (Hd : Zdigits2 m <= 7 - e).
  { apply Zdigits2_le; try lia.
    replace (7 - e) with (7 + - e) by lia. rewrite Z.pow_add_r by lia.
    assert (0 < 2 ^ (- e)) by (apply Z.pow_pos_nonneg; lia).
    change (2 ^ 7) with 128. lia. }
  lia.
Qed.

Lemma below_at_most (m e : Z) : below_100 m e -> at_most_100 m e.
Proof. unfold below_100, at_most_100. lia. Qed.

Lemma pow2_split (e n : Z) : 0 < n -> e + n <= 0 ->
  2 ^ (- e) = 2 ^ (- (e + n)) * 2 ^ n.
Proof. intros Hn He. rewrite <- Z.pow_add_r by lia. f_equal. lia. Qed.

(** Normalisation keeps both bounds. *)
Lemma shr_fexp_at_most_100 (m e : Z) (l : location) :
  at_most_100 m e ->
  at_most_100 (shr_m (fst (shr_fexp prec emax m e l)))
              (snd (shr_fexp prec emax m e l)).
Proof.
  intros H. pose proof (digits_at_most_100 m e H) as Hd.
  destruct H as (He & Hm0 & Hm). unfold shr_fexp.
  set (n := fexp prec emax (Zdigits2 m + e) - e).
  assert (Hn : e + n <= -46) by (unfold n; rewrite fexp_eq; lia).
  destruct (shr_le (shr_record_of_loc m l) e n)
    as [H0 [(Hpos & -> & Hle & _)|(Hneg & ->)]];
    rewrite ?shr_record_of_loc_m in *; try assumption.
  - split; [lia|]. split; [assumption|].
    rewrite (pow2_split e n) in Hm by lia.
    assert (0 < 2 ^ n) by (apply Z.pow_pos_nonneg; lia).
    nia.
  - cbn [fst snd]. rewrite shr_record_of_loc_m. repeat split; assumption.
Qed.

Lemma shr_fexp_below_100 (m e : Z) (l : location) :
  below_100 m e ->
  below_100 (shr_m (fst (shr_fexp prec emax m e l)))
            (snd (shr_fexp prec emax m e l)).
Proof.
  intros H. pose proof (digits_at_most_100 m e (below_at_most m e H)) as Hd.
  destruct H as (He & Hm0 & Hm). unfold shr_fexp.
  set (n := fexp prec emax (Zdigits2 m + e) - e).
  assert (Hn : e + n <= -46) by (unfold n; rewrite fexp_eq; lia).
  destruct (shr_le (shr_record_of_loc m l) e n)
    as [H0 [(Hpos & -> & Hle & _)|(Hneg & ->)]];
    rewrite ?shr_record_of_loc_m in *; try assumption.
  - split; [lia|]. split; [assumption|].
    rewrite (pow2_split e n) in Hm by lia.
    assert (0 < 2 ^ n) by (apply Z.pow_pos_nonneg; lia).
    nia.
  - cbn [fst snd]. rewrite shr_record_of_loc_m. repeat split; assumption.
Qed.

Lemma round_nearest_even_le (m : Z) (l : location) :
  m <= round_nearest_even m l <= m + 1.
Proof.
  destruct l as [|[]]; simpl; try lia. destruct (Z.even m); lia.
Qed.

(** A float built from a mantissa and an exponent within the bound is at
    most 100. *)
Lemma finite_at_most_100 (m : positive) (e : Z) :
  at_most_100 (Z.pos m) e -> SFleb (S754_finite false m e) hundred = true.
Proof.
  intros (He & _ & Hm).
  change hundred with (S754_finite false 7036874417766400 (-46)).
  unfold SFleb, SFcompare.
  destruct (Z.compare_spec e (-46)) as [->|Hlt|Hgt]; try reflexivity; [|lia].
  change (2 ^ (- -46)) with 70368744177664 in Hm.
  rewrite Pos.compare_cont_spec. cbn [Pos.switch_Eq].
  destruct (Pos.compare_spec m 7036874417766400) as [E|E|E]; try reflexivity.
  exfalso. apply Pos2Z.pos_lt_pos in E. lia.
Qed.

(** Rounding a number below 100 gives at most 100. *)
Lemma binary_round_aux_le_100 (m e : Z) (l : location) :
  below_100 m e ->
  SFleb (binary_round_aux prec emax false m e l) hundred = true.
Proof.
  intros H. unfold binary_round_aux.
  pose proof (shr_fexp_below_100 m e l H) as H1.
  destruct (shr_fexp prec emax m e l) as [mrs1 e1]. cbn [fst snd] in H1.
  set (m2 := round_nearest_even (shr_m mrs1) (loc_of_shr_record mrs1)).
  assert (H2 : at_most_100 m2 e1).
  { destruct H1 as (He & Hm0 & Hm).
    pose proof (round_nearest_even_le (shr_m mrs1) (loc_of_shr_record mrs1)).
    unfold at_most_100, m2. lia. }
  pose proof (shr_fexp_at_most_100 m2 e1 loc_Exact H2) as H3.
  destruct (shr_fexp prec emax m2 e1 loc_Exact) as [mrs3 e3].
  cbn [fst snd] in H3.
  destruct (shr_m mrs3) as [|p|p] eqn:E.
  - reflexivity.
  - assert (He3 : (e3 <=? emax - prec) = true).
    { apply Z.leb_le. destruct H3. unfold emax, prec. lia. }
    rewrite He3. now apply finite_at_most_100.
  - destruct H3 as (_ & ? & _). lia.
Qed.

(** Rounding a number of at most 100 that is known exactly gives at most
    100. *)
Lemma binary_round_aux_exact_le_100 (m e : Z) :
  at_most_100 m e ->
  SFleb (binary_round_aux prec emax false m e loc_Exact) hundred = true.
Proof.
  intros H. unfold binary_round_aux.
  pose proof (shr_fexp_at_most_100 m e loc_Exact H) as H1.
  assert (Hx : shr_m (fst (shr_fexp prec emax m e loc_Exact))
               = 100 * 2 ^ (- snd (shr_fexp prec emax m e loc_Exact)) ->
               no_bits (fst (shr_fexp prec emax m e loc_Exact))).
  { pose proof (digits_at_most_100 m e H) as Hd.
    destruct H as (He & Hm0 & Hm). unfold shr_fexp.
    set (n := fexp prec emax (Zdigits2 m + e) - e).
    assert (Hn : e + n <= -46) by (unfold n; rewrite fexp_eq; lia).
    destruct (shr_le (shr_record_of_loc m loc_Exact) e n)
      as [H0 [(Hpos & -> & Hle & Hex)|(Hneg & ->)]]; [exact Hm0| |].
    - intros E. apply Hex; [now split|]. cbn [shr_record_of_loc shr_m] in *.
      rewrite (pow2_split e n) in Hm by lia.
      assert (0 < 2 ^ n) by (apply Z.pow_pos_nonneg; lia).
      nia.
    - intros _. now split. }
  destruct (shr_fexp prec emax m e loc_Exact) as [mrs1 e1].
  cbn [fst snd] in H1, Hx.
  set (m2 := round_nearest_even (shr_m mrs1) (loc_of_shr_record mrs1)).
  assert (H2 : at_most_100 m2 e1).
  { destruct H1 as (He & Hm0 & Hm).
    pose proof (round_nearest_even_le (shr_m mrs1) (loc_of_shr_record mrs1)).
    destruct (Z.eq_dec (shr_m mrs1) (100 * 2 ^ (- e1))) as [E|E].
    - destruct (Hx E) as [Hr Hs]. unfold m2.
      destruct mrs1 as [m1 r1 s1]. simpl in Hr, Hs. subst r1 s1.
      cbn [loc_of_shr_record round_nearest_even shr_m] in *.
      unfold at_most_100. lia.
    - unfold at_most_100, m2. lia. }
  pose proof (shr_fexp_at_most_100 m2 e1 loc_Exact H2) as H3.
  destruct (shr_fexp prec emax m2 e1 loc_Exact) as [mrs3 e3].
  cbn [fst snd] in H3.
  destruct (shr_m mrs3) as [|p|p] eqn:E.
  - reflexivity.
  - assert (He3 : (e3 <=? emax - prec) = true).
    { apply Z.leb_le. destruct H3. unfold emax, prec. lia. }
    rewrite He3. now apply finite_at_most_100.
  - destruct H3 as (_ & ? & _). lia.
Qed.

(** The exponent and the shifted dividend of a quotient of at most 100. *)
Lemma div_core_exponent (p q : positive) :
  Z.pos p <= 100 * Z.pos q ->
  Z.min (fexp prec emax (Zdigits2 (Z.pos p) + 0 - (Zdigits2 (Z.pos q) + 0)))
        (0 - 0) <= -46.
Proof.
  intros H.
  destruct (Zdigits2_bounds (Z.pos p) ltac:(lia)) as [Hp _].
  destruct (Zdigits2_bounds (Z.pos q) ltac:(lia)) as [_ Hq].
  pose proof (Zdigits2_nonneg (Z.pos q)) as Hq0.
  assert (Hd : Zdigits2 (Z.pos p) - 1 < 7 + Zdigits2 (Z.pos q)).
  { apply (Z.pow_lt_mono_r_iff 2); try lia.
    rewrite Z.pow_add_r by lia. change (2 ^ 7) with 128. lia. }
  rewrite fexp_eq. lia.
Qed.

(** The float of a numeral that denotes at most 100 is at most 100. *)
Lemma of_decimal_le_100 (n : Z) (k : nat) :
  n <= 100 * Z.pos (pow10 k) -> SFleb (of_decimal n k) hundred = true.
Proof.
  intros H. unfold of_decimal. destruct n as [|p|p]; try reflexivity.
  cbn [SFdiv xorb]. unfold SFdiv_core_binary.
  pose proof (div_core_exponent p (pow10 k) H) as He.
  set (e' := Z.min _ _) in *.
  assert (Hs : 0 - 0 - e' = - e') by lia. rewrite Hs.
  destruct (- e') as [|s|s] eqn:Es; try lia.
  rewrite Z.shiftl_mul_pow2 by lia.
  set (q := Z.pos (pow10 k)) in *.
  assert (Hq : 0 < q) by (unfold q; lia).
  assert (Hpow : 0 < 2 ^ Z.pos s) by (apply Z.pow_pos_nonneg; lia).
  pose proof (Z.div_eucl_eq (Z.pos p * 2 ^ Z.pos s) q ltac:(lia)) as Hdiv.
  pose proof (Z.mod_pos_bound (Z.pos p * 2 ^ Z.pos s) q Hq) as Hmod.
  unfold Z.modulo in Hmod.
  destruct (Z.div_eucl (Z.pos p * 2 ^ Z.pos s) q) as [q0 r].
  destruct (Z_lt_le_dec (Z.pos p) (100 * q)) as [Hlt|Hge].
  - apply binary_round_aux_le_100. unfold below_100. rewrite Es.
    split; [lia|]. nia.
  - assert (Hp : Z.pos p = 100 * q) by lia.
    set (a := 2 ^ Z.pos s) in *.
    assert (Ht : r = q * (100 * a - q0)) by lia.
    assert (Hq0 : 100 * a - q0 = 0).
    { destruct (Z.lt_trichotomy (100 * a - q0) 0) as [Hn|[Hz|Hp']];
        [nia | exact Hz | nia]. }
    assert (Hr : r = 0) by (rewrite Ht, Hq0; lia).
    clear Ht. subst r. unfold new_location, new_location_even, new_location_odd.
    cbn [Z.eqb]. destruct (Z.even q);
      apply binary_round_aux_exact_le_100; unfold at_most_100; rewrite Es; lia.
Qed.

Lemma py_float_le_100 (g : string) (f : float) :
  py_float g = Some f -> written_at_most 100 g -> fge hundred f = true.
Proof.
  unfold py_float, written_at_most.
  destruct (numeral_digits false 0 0 0 g) as [[[n k] [|d]]|]; try discriminate.
  intros [= <-] H. now apply of_decimal_le_100.
Qed.

End FloatFacts.

(* ================================================================== *)
(** * Properties of the validator *)
(* ================================================================== *)

Module ValidationFacts.
Import PyStr PyFloat Telemetry Validation Examples.

Lemma status_eqb_eq (a b : ValidationStatus) :
  status_eqb a b = true <-> a = b.
Proof. destruct a, b; simpl; split; congruence. Qed.

Lemma list_eqb_eq (a b : list string) : list_eqb a b = true <-> a = b.
Proof.
  revert b; induction a as [|x a IH]; intros [|y b]; simpl; split;
    try congruence; try reflexivity.
  - intros E. apply andb_true_iff in E as [E1 E2].
    apply String.eqb_eq in E1. apply IH in E2. congruence.
  - intros E. injection E as -> ->. apply andb_true_iff. split.
    + apply String.eqb_refl.
    + now apply IH.
Qed.

(** The latency and loss sub-checks report Pass or Fail, the path
    sub-check Pass or Warning. *)
Lemma latency_status (v : NetworkValidator) (b c : LatencyMetrics) :
  status (_validate_latency v b c) =
  if fgt (fsub (avg_latency_ms c) (avg_latency_ms b)) (latency_threshold_ms v)
  then FAIL else PASS.
Proof. unfold _validate_latency. now destruct (fgt _ _). Qed.

Lemma loss_status (v : NetworkValidator) (b c : LatencyMetrics) :
  status (_validate_packet_loss v b c) =
  if fgt (fsub (packet_loss_percent c) (packet_loss_percent b))
         (packet_loss_threshold_percent v)
  then FAIL else PASS.
Proof. unfold _validate_packet_loss. now destruct (fgt _ _). Qed.

Lemma path_status (b c : PathMetrics) :
  status (_validate_path b c) =
  if hops_differ (map ip_address (hops b)) (map ip_address (hops c))
  then WARNING else PASS.
Proof. unfold _validate_path. now destruct (hops_differ _ _). Qed.

(** C1, as stated, fails: [NetworkValidator()] has
    [path_change_allowed = False], and on two snapshots whose latency and
    loss checks pass and whose hop addresses differ the path sub-check
    reports Warning and the overall verdict is Fail. *)
Lemma default_validator_escalates_path_change :
  path_change_allowed default_validator = false
  /\ is_pass (_validate_latency default_validator ex_latency ex_latency) = true
  /\ is_pass (_validate_packet_loss default_validator ex_latency ex_latency)
     = true
  /\ hops_differ (map ip_address (hops (ex_path "10.0.0.1")))
                 (map ip_address (hops (ex_path "10.0.0.2"))) = true
  /\ status (_validate_path (ex_path "10.0.0.1") (ex_path "10.0.0.2"))
     = WARNING
  /\ status (validate default_validator ex_baseline ex_current) = FAIL.
Proof. repeat split; vm_compute; reflexivity. Qed.

(** C1, amended: the default validator has [path_change_allowed = False].
    For any validator and any two snapshots that both carry a path, whose
    hop addresses differ and whose latency and loss checks (when they
    run) pass, the path sub-check reports Warning, and the overall
    verdict is Pass when [path_change_allowed] is true and Fail when it
    is false. *)
Theorem path_change_verdict
    (v : NetworkValidator) (baseline current : TelemetryMetrics)
    (pb pc : PathMetrics) :
  path baseline = Some pb ->
  path current = Some pc ->
  hops_differ (map ip_address (hops pb)) (map ip_address (hops pc)) = true ->
  (forall lb lc, latency baseline = Some lb -> latency current = Some lc ->
     is_pass (_validate_latency v lb lc) = true
     /\ is_pass (_validate_packet_loss v lb lc) = true) ->
  path_change_allowed default_validator = false
  /\ status (_validate_path pb pc) = WARNING
  /\ status (validate v baseline current)
     = (if path_change_allowed v then PASS else FAIL).
Proof.
  intros Hb Hc Hd Hl. split; [reflexivity|]. split.
  - rewrite path_status, Hd. reflexivity.
  - unfold validate. rewrite Hb, Hc. cbn [status fst snd].
    assert (Hp : is_pass (_validate_path pb pc) = false).
    { unfold is_pass. rewrite path_status, Hd. reflexivity. }
    rewrite Hp. cbn [negb andb].
    destruct (path_change_allowed v); cbn [negb]; [|reflexivity].
    destruct (latency baseline) as [lb|]; [|reflexivity].
    destruct (latency current) as [lc|]; [|reflexivity].
    destruct (Hl lb lc eq_refl eq_refl) as [H1 H2].
    cbn [fst snd]. rewrite H1, H2. reflexivity.
Qed.

Lemma path_change_verdict_witness :
  status (validate (__init__ None None (Some true)) ex_baseline ex_current)
  = PASS.
Proof.
  refine (proj2 (proj2
    (path_change_verdict (__init__ None None (Some true))
       ex_baseline ex_current (ex_path "10.0.0.1") (ex_path "10.0.0.2")
       eq_refl eq_refl eq_refl _))).
  intros lb lc Hb Hc. injection Hb as <-. injection Hc as <-.
  split; reflexivity.
Defined.

(** C2, as stated, fails: on the two example snapshots the sub-checks
    report Pass, Pass and Warning, whose most severe member is Warning,
    while the overall verdict of the default validator is Fail and that
    of a validator with [path_change_allowed = True] is Pass. *)
Lemma path_warning_is_not_the_verdict :
  map status (subchecks default_validator ex_baseline ex_current)
  = [PASS; PASS; WARNING]
  /\ most_severe [PASS; PASS; WARNING] = WARNING
  /\ status (validate default_validator ex_baseline ex_current) = FAIL
  /\ map status (subchecks (__init__ None None (Some true))
                           ex_baseline ex_current)
     = [PASS; PASS; WARNING]
  /\ status (validate (__init__ None None (Some true)) ex_baseline ex_current)
     = PASS.
Proof. repeat split; vm_compute; reflexivity. Qed.

Lemma latency_status_cases (v : NetworkValidator) (b c : LatencyMetrics) :
  status (_validate_latency v b c) = FAIL
  \/ status (_validate_latency v b c) = PASS.
Proof. rewrite latency_status. destruct (fgt _ _); auto. Qed.

Lemma loss_status_cases (v : NetworkValidator) (b c : LatencyMetrics) :
  status (_validate_packet_loss v b c) = FAIL
  \/ status (_validate_packet_loss v b c) = PASS.
Proof. rewrite loss_status. destruct (fgt _ _); auto. Qed.

Lemma path_status_cases (b c : PathMetrics) :
  status (_validate_path b c) = WARNING \/ status (_validate_path b c) = PASS.
Proof. rewrite path_status. destruct (hops_differ _ _); auto. Qed.

(** Abstracts the result of a sub-check to a variable whose status is one
    of the two that the sub-check can report. *)
Ltac abstract_subchecks v :=
  repeat match goal with
         | |- context [_validate_latency v ?b ?c] =>
             let H := fresh "Hl" in
             destruct (latency_status_cases v b c) as [H|H];
             revert H; generalize (_validate_latency v b c); intros ? H
         | |- context [_validate_packet_loss v ?b ?c] =>
             let H := fresh "Hs" in
             destruct (loss_status_cases v b c) as [H|H];
             revert H; generalize (_validate_packet_loss v b c); intros ? H
         | |- context [_validate_path ?b ?c] =>
             let H := fresh "Hp" in
             destruct (path_status_cases b c) as [H|H];
             revert H; generalize (_validate_path b c); intros ? H
         end.

(** Goes through the members of a list of sub-check results. *)
Ltac each_subcheck Hin :=
  simpl in Hin;
  repeat (destruct Hin as [<- | Hin]; [try congruence|]);
  try contradiction.

Ltac pick_subcheck :=
  match goal with
  | H : status ?r = ?s |- exists _, _ /\ status _ = ?s =>
      exists r; split; [simpl; auto 6 | exact H]
  end.

(** C2, amended: the overall status is never Warning.  It is Fail exactly
    when a sub-check that ran reports Fail, or a sub-check that ran
    reports Warning while [path_change_allowed] is false; otherwise it is
    Pass.  It is the most severe status of the sub-checks that ran
    whenever none of them reports Warning. *)
Theorem overall_status
    (v : NetworkValidator) (baseline current : TelemetryMetrics) :
  status (validate v baseline current) <> WARNING
  /\ (status (validate v baseline current) = FAIL <->
        (exists r, In r (subchecks v baseline current) /\ status r = FAIL)
        \/ (path_change_allowed v = false
            /\ exists r, In r (subchecks v baseline current)
                         /\ status r = WARNING))
  /\ (status (validate v baseline current) <> FAIL ->
      status (validate v baseline current) = PASS)
  /\ ((forall r, In r (subchecks v baseline current) -> status r <> WARNING) ->
      status (validate v baseline current)
      = most_severe (map status (subchecks v baseline current))).
Proof.
  unfold validate, subchecks, is_pass.
  destruct (latency baseline) as [lb|], (latency current) as [lc|],
           (path baseline) as [pb|], (path current) as [pc|];
    cbn [status fst snd app map];
    abstract_subchecks v;
    destruct (path_change_allowed v);
    repeat match goal with H : status _ = _ |- _ => rewrite !H end;
    cbn;
    (split; [discriminate|]);
    (split;
     [|split;
       [intros E; first [reflexivity | now elim E]
       |intros Hw;
        first [reflexivity
              |exfalso; eapply Hw; [|eassumption]; simpl; eauto 6]]]);
    (split;
     [intros E; try discriminate E
     |intros [(r & Hin & Hst)|[E (r & Hin & Hst)]];
      try discriminate E; try reflexivity; each_subcheck Hin]).
  all: try (left; pick_subcheck; fail).
  all: try (right; split; [reflexivity|]; pick_subcheck; fail).
Qed.

Lemma overall_status_witness :
  status (validate default_validator ex_baseline ex_baseline)
  = most_severe (map status (subchecks default_validator
                                       ex_baseline ex_baseline)).
Proof.
  apply (proj2 (proj2 (proj2
           (overall_status default_validator ex_baseline ex_baseline)))).
  intros r Hin. simpl in Hin.
  repeat (destruct Hin as [<- | Hin]; [discriminate|]). contradiction.
Defined.

End ValidationFacts.

(* ================================================================== *)
(** * Properties of the telemetry parsers *)
(* ================================================================== *)

Module TelemetryFacts.
Import PyStr PyNum PyFloat PyRe Telemetry PyFacts FloatFacts.

(** C4, as stated, fails: the parser takes the number in front of
    [% packet loss] as it is written.  On an output that reports 150% the
    metrics carry a packet loss of 150.0, which is above 100. *)
Lemma packet_loss_above_100 :
  _parse_ping_output "5 packets transmitted, 0 received, 150% packet loss"
                     "h1" "h2"
  = Ok {| source := "h1"; destination := "h2";
          min_latency_ms := zero; avg_latency_ms := zero;
          max_latency_ms := zero;
          packet_loss_percent := float_of_Z 150 |}
  /\ fge hundred (float_of_Z 150) = false
  /\ fgt (float_of_Z 150) hundred = true.
Proof. repeat split; vm_compute; reflexivity. Qed.

(** C4, amended: whenever the latency parser returns metrics, their packet
    loss is at least 0; it is the float written in front of the first
    [% packet loss] of the output, at most 100 whenever the number written
    is at most 100, and it is 0.0 when the output has no such number.  The
    parser returns metrics whenever the output has no [min/avg/max]
    summary, and the only exception it raises is the [ValueError] of a
    malformed number in that summary. *)
Theorem packet_loss_range (output src dst : string) :
  (forall m, _parse_ping_output output src dst = Ok m ->
     fge (packet_loss_percent m) zero = true
     /\ match search (match_at loss_pattern) output with
        | Some groups =>
            py_float (group groups 1) = Some (packet_loss_percent m)
            /\ (written_at_most 100 (group groups 1) ->
                fge hundred (packet_loss_percent m) = true)
        | None => packet_loss_percent m = zero
        end)
  /\ (search (match_at latency_pattern) output = None ->
      exists m, _parse_ping_output output src dst = Ok m)
  /\ (forall e, _parse_ping_output output src dst = Raise e ->
      e = ValueError /\ search (match_at latency_pattern) output <> None).
Proof.
  unfold _parse_ping_output, to_float.
  assert (Hloss : exists f,
             match search (match_at loss_pattern) output with
             | Some groups => of_option ValueError (py_float (group groups 1))
             | None => Ok zero
             end = Ok f
             /\ positive_sign f
             /\ match search (match_at loss_pattern) output with
                | Some groups =>
                    py_float (group groups 1) = Some f
                    /\ (written_at_most 100 (group groups 1) ->
                        fge hundred f = true)
                | None => f = zero
                end).
  { destruct (search (match_at loss_pattern) output) as [groups|] eqn:E.
    - destruct (search_some _ _ _ E) as [t Ht].
      destruct (loss_pattern_float _ _ Ht) as (g & f & -> & Hf).
      exists f. cbn [group Nat.sub nth]. rewrite Hf. repeat split.
      + eapply py_float_positive; eauto.
      + now apply py_float_le_100.
    - exists zero. repeat split. }
  destruct Hloss as (f & -> & Hpos & Hval). cbn [rbind].
  destruct (search (match_at latency_pattern) output) as [groups|];
    cbn [rbind of_option].
  - destruct (py_float (group groups 1)) as [f1|]; cbn [rbind of_option];
      [destruct (py_float (group groups 2)) as [f2|]; cbn [rbind of_option];
       [destruct (py_float (group groups 3)) as [f3|];
        cbn [rbind of_option]|]|];
      (split; [intros m [= <-] || intros m [=] |
               split; [discriminate | intros e [= <-] || intros e [=]]]);
      simpl; try (split; [now apply positive_sign_fge | exact Hval]);
      try (split; congruence).
  - split; [intros m [= <-]; simpl; split;
            [now apply positive_sign_fge | exact Hval]|].
    split; [eauto | discriminate].
Qed.

Lemma packet_loss_range_witness :
  exists m,
    _parse_ping_output "3 packets transmitted, 2 received, 33.3333% packet loss"
                       "h1" "h2" = Ok m
    /\ fge (packet_loss_percent m) zero = true
    /\ fge hundred (packet_loss_percent m) = true.
Proof.
  destruct (proj1 (proj2 (packet_loss_range
              "3 packets transmitted, 2 received, 33.3333% packet loss"
              "h1" "h2")) eq_refl) as [m Hm].
  exists m. split; [exact Hm|].
  destruct (proj1 (packet_loss_range _ _ _) m Hm) as [H0 H1].
  split; [exact H0|].
  apply (proj2 H1). vm_compute. discriminate.
Defined.

Lemma parse_dev_line_short (lim : nat) (raw : string) :
  (List.length (stats_of raw) < 16)%nat -> parse_dev_line lim raw = Ok None.
Proof.
  unfold stats_of, parse_dev_line. intros H.
  destruct (is_empty (strip raw) || negb (contains ":" (strip raw)));
    [reflexivity|].
  destruct (split_char ":" (strip raw)) as [|a [|b [|c l]]]; try reflexivity.
  cbn [List.length Nat.eqb negb subscript nth_error of_option rbind].
  apply Nat.ltb_lt in H. now rewrite H.
Qed.

Lemma parse_dev_line_long (lim : nat) (raw : string) :
  (16 <= List.length (stats_of raw))%nat ->
  if int_fields_ok lim (stats_of raw)
  then exists c, parse_dev_line lim raw = Ok (Some c)
  else parse_dev_line lim raw = Raise ValueError.
Proof.
  unfold stats_of, parse_dev_line. intros H.
  destruct (split_char ":" (strip raw)) as [|a [|b [|c l]]] eqn:E;
    try (simpl in H; lia).
  assert (Hc : contains ":" (strip raw) = true).
  { destruct (contains ":" (strip raw)) eqn:Hc; [reflexivity|].
    rewrite (split_char_absent _ _ Hc) in E. discriminate. }
  assert (He : is_empty (strip raw) = false).
  { destruct (strip raw); [discriminate | reflexivity]. }
  rewrite Hc, He.
  cbn [orb negb List.length Nat.eqb subscript nth_error of_option rbind].
  assert (Hlt : (List.length (split_ws b) <? 16)%nat = false)
    by (apply Nat.ltb_ge; exact H).
  rewrite Hlt.
  destruct (split_ws b) as
    [|s0 [|s1 [|s2 [|s3 [|s4 [|s5 [|s6 [|s7 [|s8 [|s9 [|s10
     [|s11 st]]]]]]]]]]]];
    try (simpl in H; lia).
  unfold int_fields_ok, to_int.
  cbn [nth_error subscript of_option rbind forallb].
  destruct (py_int lim s0); cbn [of_option rbind andb]; [|reflexivity].
  destruct (py_int lim s1); cbn [of_option rbind andb]; [|reflexivity].
  destruct (py_int lim s3); cbn [of_option rbind andb]; [|reflexivity].
  destruct (py_int lim s8); cbn [of_option rbind andb]; [|reflexivity].
  destruct (py_int lim s9); cbn [of_option rbind andb]; [|reflexivity].
  destruct (py_int lim s11); cbn [of_option rbind andb]; [|reflexivity].
  eauto.
Qed.

(** What the loop adds to [counters]. *)
Lemma parse_dev_lines_ok (lim : nat) (lines : list string) :
  forall acc cs,
    parse_dev_lines lim lines acc = Ok cs ->
    exists added,
      cs = (acc ++ added)%list
      /\ forall c, In c added ->
           exists raw, In raw lines
                       /\ (16 <= List.length (stats_of raw))%nat
                       /\ parse_dev_line lim raw = Ok (Some c).
Proof.
  induction lines as [|raw rest IH]; intros acc cs; cbn [parse_dev_lines].
  - intros [= <-]. exists []. rewrite app_nil_r. split; [reflexivity|].
    intros c [].
  - destruct (parse_dev_line lim raw) as [[c|]|e] eqn:E; cbn [rbind];
      [| |discriminate].
    + intros H. destruct (IH _ _ H) as (added & -> & Hadd).
      exists (c :: added). rewrite <- app_assoc. split; [reflexivity|].
      intros c' [<-|Hin].
      * exists raw. split; [now left|]. split; [|exact E].
        destruct (Nat.lt_ge_cases (List.length (stats_of raw)) 16) as [Hs|Hs];
          [|exact Hs].
        rewrite (parse_dev_line_short lim raw Hs) in E. discriminate.
      * destruct (Hadd c' Hin) as (raw' & Hin' & Hr).
        exists raw'. split; [now right | exact Hr].
    + intros H. destruct (IH _ _ H) as (added & -> & Hadd).
      exists added. split; [reflexivity|].
      intros c' Hin. destruct (Hadd c' Hin) as (raw' & Hin' & Hr).
      exists raw'. split; [now right | exact Hr].
Qed.

Lemma parse_dev_lines_raise (lim : nat) (lines : list string) :
  forall acc e,
    parse_dev_lines lim lines acc = Raise e ->
    e = ValueError
    /\ exists raw, In raw lines
                   /\ (16 <= List.length (stats_of raw))%nat
                   /\ int_fields_ok lim (stats_of raw) = false
                   /\ parse_dev_line lim raw = Raise ValueError.
Proof.
  induction lines as [|raw rest IH]; intros acc e; cbn [parse_dev_lines].
  - discriminate.
  - destruct (parse_dev_line lim raw) as [[c|]|e'] eqn:E; cbn [rbind].
    + intros H. destruct (IH _ _ H) as (-> & raw' & Hin & Hr).
      split; [reflexivity|]. exists raw'. split; [now right | exact Hr].
    + intros H. destruct (IH _ _ H) as (-> & raw' & Hin & Hr).
      split; [reflexivity|]. exists raw'. split; [now right | exact Hr].
    + intros [= <-].
      destruct (Nat.lt_ge_cases (List.length (stats_of raw)) 16) as [Hs|Hs].
      { rewrite (parse_dev_line_short lim raw Hs) in E. discriminate. }
      pose proof (parse_dev_line_long lim raw Hs) as Hl.
      destruct (int_fields_ok lim (stats_of raw)) eqn:Hok.
      * destruct Hl as [c Hc]. congruence.
      * rewrite Hl in E. injection E as <-.
        split; [reflexivity|]. exists raw.
        split; [now left|]. split; [exact Hs|]. split; [exact Hok | exact Hl].
Qed.

Lemma parse_dev_lines_skip (lim : nat) (pre : list string) :
  forall raw post acc,
    parse_dev_line lim raw = Ok None ->
    parse_dev_lines lim (pre ++ raw :: post) acc
    = parse_dev_lines lim (pre ++ post) acc.
Proof.
  induction pre as [|x pre IH]; intros raw post acc H;
    cbn [app parse_dev_lines].
  - now rewrite H.
  - destruct (parse_dev_line lim x) as [[c|]|e]; cbn [rbind]; auto.
Qed.

Lemma parse_dev_lines_total (lim : nat) (lines : list string) :
  (forall raw, In raw lines -> (16 <= List.length (stats_of raw))%nat ->
               int_fields_ok lim (stats_of raw) = true) ->
  forall acc, exists cs, parse_dev_lines lim lines acc = Ok cs.
Proof.
  intros Hall acc.
  destruct (parse_dev_lines lim lines acc) as [cs|e] eqn:E; [eauto|].
  destruct (parse_dev_lines_raise _ _ _ _ E) as (_ & raw & Hin & Hs & Hok & _).
  rewrite (Hall raw Hin Hs) in Hok. discriminate.
Qed.

(** C7, as stated, fails: a line with sixteen fields of which one is not
    an integer makes [int] raise [ValueError], and the parser lets the
    exception through to its caller, whatever the digit limit. *)
Lemma non_integer_field_raises :
  _parse_proc_net_dev 4300
    "  eth0: 1500 12 0 0 0 0 0 0 n/a 9 0 0 0 0 0 0" "h1" = Raise ValueError
  /\ _parse_proc_net_dev 0
    "  eth0: 1500 12 0 0 0 0 0 0 n/a 9 0 0 0 0 0 0" "h1" = Raise ValueError
  /\ List.length (stats_of "  eth0: 1500 12 0 0 0 0 0 0 n/a 9 0 0 0 0 0 0")
     = 16%nat.
Proof. repeat split; vm_compute; reflexivity. Qed.

(** C7, amended: a line with fewer than 16 fields after its colon (among
    them the lines with no colon or with several) is skipped without
    error, and the result is that of the text without the line.  Every
    record returned comes from a line with at least 16 fields.  The parser
    raises only [ValueError], and only when on a line with at least 16
    fields [int] rejects one of the fields 0, 1, 3, 8, 9 and 11; when
    [int] accepts these fields on every such line, it returns a list. *)
Theorem short_lines_skipped (lim : nat) (output node_name : string) :
  (forall pre raw post,
     split_char LF output = (pre ++ raw :: post)%list ->
     (List.length (stats_of raw) < 16)%nat ->
     parse_dev_line lim raw = Ok None
     /\ _parse_proc_net_dev lim output node_name
        = parse_dev_lines lim (pre ++ post) [])
  /\ (forall cs, _parse_proc_net_dev lim output node_name = Ok cs ->
      forall c, In c cs ->
        exists raw, In raw (split_char LF output)
                    /\ (16 <= List.length (stats_of raw))%nat
                    /\ parse_dev_line lim raw = Ok (Some c))
  /\ (forall e, _parse_proc_net_dev lim output node_name = Raise e ->
      e = ValueError
      /\ exists raw, In raw (split_char LF output)
                     /\ (16 <= List.length (stats_of raw))%nat
                     /\ int_fields_ok lim (stats_of raw) = false)
  /\ ((forall raw, In raw (split_char LF output) ->
        (16 <= List.length (stats_of raw))%nat ->
        int_fields_ok lim (stats_of raw) = true) ->
      exists cs, _parse_proc_net_dev lim output node_name = Ok cs).
Proof.
  unfold _parse_proc_net_dev. split; [|split; [|split]].
  - intros pre raw post E Hs. split.
    + now apply parse_dev_line_short.
    + rewrite E. apply parse_dev_lines_skip. now apply parse_dev_line_short.
  - intros cs H c Hc.
    destruct (parse_dev_lines_ok _ _ _ _ H) as (added & -> & Hadd).
    apply Hadd. exact Hc.
  - intros e H.
    destruct (parse_dev_lines_raise _ _ _ _ H)
      as (-> & raw & Hin & Hs & Hok & _).
    split; [reflexivity|]. exists raw. auto.
  - intros Hall. now apply parse_dev_lines_total.
Qed.

Lemma short_lines_skipped_witness :
  exists cs,
    _parse_proc_net_dev 4300
      (join (String LF "")
         ["Inter-|   Receive  |  Transmit";
          "    lo: 100 2 0 5 0 0 0 0 300 4 0 7 0 0 0 0";
          "  eth0: 1 2 3"]) "h1" = Ok cs.
Proof.
  apply (proj2 (proj2 (proj2 (short_lines_skipped 4300 _ "h1")))).
  intros raw Hin Hlen. vm_compute in Hin.
  repeat (destruct Hin as [<- | Hin];
          [try reflexivity; vm_compute in Hlen; lia|]).
  contradiction.
Defined.

End TelemetryFacts.

(* ================================================================== *)
(** * Properties of the simulated device *)
(* ================================================================== *)

Module AutomationFacts.
Import PyStr PyNum PyFacts Automation Examples.

Section DeviceFacts.
Variable NodeS : Type.
Variable node_cmd : string -> NodeS -> option string * NodeS.
Variable lim : nat.

Abbreviation Device := (SimulatedDevice NodeS).
Abbreviation M := (Automation.M NodeS).

Lemma frame_refl (d : Device) : frame d d.
Proof.
  repeat split; auto. exists []. symmetry. apply app_nil_r.
Qed.

Lemma frame_trans (a b c : Device) : frame a b -> frame b c -> frame a c.
Proof.
  intros (H1 & H2 & H3 & H4 & H5 & H6 & m1 & H7)
         (K1 & K2 & K3 & K4 & K5 & K6 & m2 & K7).
  repeat split; try congruence; auto.
  exists (m1 ++ m2)%list. rewrite K7, H7. symmetry. apply app_assoc.
Qed.

Lemma preserves_ret {A : Type} (a : A) : preserves NodeS (ret a).
Proof. intros d. apply frame_refl. Qed.

Lemma preserves_lift {A : Type} (r : result A) : preserves NodeS (lift r).
Proof. intros d. apply frame_refl. Qed.

Lemma preserves_bind {A B : Type} (m : M A) (k : A -> M B) :
  preserves NodeS m -> (forall a, preserves NodeS (k a)) ->
  preserves NodeS (bind m k).
Proof.
  intros Hm Hk d. unfold bind. specialize (Hm d).
  destruct (m d) as [[a|e] d']; simpl in Hm.
  - eapply frame_trans; [exact Hm | apply Hk].
  - exact Hm.
Qed.

Lemma preserves_cmd (c : string) : preserves NodeS (cmd node_cmd c).
Proof.
  intros d. unfold cmd. destruct (node d) as [n|] eqn:E.
  - destruct (node_cmd c n) as [out n']. simpl.
    repeat split; auto; simpl; [discriminate|]. now exists [c].
  - apply frame_refl.
Qed.

Lemma preserves_branch {A : Type} (b : Device -> bool) (m1 m2 : M A) :
  preserves NodeS m1 -> preserves NodeS m2 ->
  preserves NodeS (fun d => if b d then m1 d else m2 d).
Proof. intros H1 H2 d. destruct (b d); [apply H1 | apply H2]. Qed.

Lemma preserves_read {A : Type} (f : Device -> result A) :
  preserves NodeS (fun d => (f d, d)).
Proof. intros d. apply frame_refl. Qed.

Lemma preserves_set_interface (i : option string) :
  preserves NodeS (fun d => (Ok tt, set_current_interface i d)).
Proof.
  intros d. repeat split; auto. exists []. symmetry. apply app_nil_r.
Qed.

Ltac preserves_tac :=
  repeat first
    [ apply preserves_ret | apply preserves_lift | apply preserves_cmd
    | apply preserves_read | apply preserves_set_interface
    | apply preserves_branch
    | apply preserves_bind; [|intros ?]
    | match goal with |- preserves _ (if ?b then _ else _) => destruct b end ].

Lemma apply_line_preserves (line : string) :
  preserves NodeS (apply_line node_cmd lim line).
Proof.
  unfold apply_line, apply_ip_address, apply_ip_route. preserves_tac.
Qed.

Lemma try_line_frame (line : string) (d : Device) :
  frame d (try_line node_cmd lim line d).
Proof. apply apply_line_preserves. Qed.

Lemma fold_try_line_frame (lines : list string) :
  forall d,
    frame d (fold_left (fun dev line => try_line node_cmd lim line dev)
                       lines d).
Proof.
  induction lines as [|l lines IH]; intros d; simpl.
  - apply frame_refl.
  - eapply frame_trans; [apply try_line_frame | apply IH].
Qed.

Lemma send_config_connected (config : string) (d : Device) :
  connected d = true -> node d <> None ->
  send_config node_cmd lim config d
  = (Ok PyNone,
     set_config_pending true
       (set_applied_config
          (_applied_config d ++ config_lines config)%list
          (after_lines node_cmd lim (config_lines config) d))).
Proof.
  intros Hc Hn. unfold send_config. rewrite Hc. cbn [negb].
  destruct (node d) as [n|]; [|congruence].
  unfold after_lines.
  destruct (fold_try_line_frame (config_lines config)
              (set_current_interface None d))
    as (_ & _ & _ & _ & H5 & _).
  rewrite H5. reflexivity.
Qed.

Lemma send_config_raises (config : string) (d : Device) :
  connected d = false \/ node d = None ->
  send_config node_cmd lim config d = (Raise DeviceConnectionError, d).
Proof.
  unfold send_config. intros [H|H].
  - now rewrite H.
  - rewrite H. now destruct (negb (connected d)).
Qed.

(** *** The lines of a configuration text *)

Lemma config_lines_join (l : list string) :
  Forall no_line_feed l ->
  config_lines (join (String LF "") l) = filter keep_line l.
Proof.
  intros Hall. unfold config_lines. destruct l as [|x l].
  - reflexivity.
  - rewrite split_join; [reflexivity | discriminate | exact Hall].
Qed.

Lemma try_line_unknown (u : string) (d : Device) :
  unknown_line u = true -> try_line node_cmd lim u d = d.
Proof.
  unfold unknown_line, try_line, apply_line. intros H.
  do 4 (apply andb_true_iff in H as [H ?]).
  repeat match goal with
         | H : negb ?b = true |- _ => apply negb_true_iff in H; rewrite H
         end.
  reflexivity.
Qed.

Lemma after_lines_unknown (l1 l2 : list string) (u : string) (d : Device) :
  unknown_line u = true ->
  after_lines node_cmd lim (filter keep_line (l1 ++ u :: l2)) d
  = after_lines node_cmd lim (filter keep_line (l1 ++ l2)) d.
Proof.
  intros Hu. unfold after_lines.
  assert (Hk : keep_line u = true).
  { unfold unknown_line in Hu.
    do 4 (apply andb_true_iff in Hu as [Hu _]). exact Hu. }
  rewrite !filter_app. cbn [filter]. rewrite Hk.
  rewrite !fold_left_app. cbn [fold_left].
  now rewrite try_line_unknown.
Qed.

(** A command that is sent is recorded after those sent before, whether
    it raises or not, and stays recorded. *)
Lemma first_command_issued {A : Type} (c : string) (k : string -> M A)
      (d : Device) :
  node d <> None -> (forall out, preserves NodeS (k out)) ->
  exists more,
    issued (snd (bind (cmd node_cmd c) k d)) = (issued d ++ c :: more)%list.
Proof.
  intros Hn Hk. unfold bind, cmd.
  destruct (node d) as [n|]; [|congruence].
  destruct (node_cmd c n) as [[out|] n']; cbn [of_option].
  - destruct (Hk out (set_node (Some n') c d))
      as (_ & _ & _ & _ & _ & _ & more & Hm).
    exists more. rewrite Hm. cbn [set_node issued].
    rewrite <- app_assoc. reflexivity.
  - exists []. reflexivity.
Qed.

(** C3, amended: [send_config] returns [None], not a count.  On a
    connected device with a node it does not raise and appends the
    non-blank, non-comment lines of the text to the history, which so
    grows by the number of lines processed.  It raises
    [DeviceConnectionError] exactly when the device is not connected or
    has no node, it raises nothing else, and when it raises it leaves the
    device as it was. *)
Theorem send_config_outcome (config : string) (d : Device) :
  (connected d = true -> node d <> None ->
   fst (send_config node_cmd lim config d) = Ok PyNone
   /\ _applied_config (snd (send_config node_cmd lim config d))
      = (_applied_config d ++ config_lines config)%list
   /\ List.length (_applied_config (snd (send_config node_cmd lim config d)))
      = (List.length (_applied_config d)
         + List.length (config_lines config))%nat)
  /\ (fst (send_config node_cmd lim config d) = Raise DeviceConnectionError
      <-> connected d = false \/ node d = None)
  /\ (forall e, fst (send_config node_cmd lim config d) = Raise e ->
      e = DeviceConnectionError
      /\ snd (send_config node_cmd lim config d) = d).
Proof.
  split; [|split].
  - intros Hc Hn. rewrite (send_config_connected config d Hc Hn).
    cbn [fst snd set_config_pending set_applied_config _applied_config].
    rewrite length_app. auto.
  - split.
    + intros H. destruct (connected d) eqn:Hc; [|now left].
      destruct (node d) as [n|] eqn:Hn; [|now right].
      rewrite send_config_connected in H by congruence. discriminate.
    + intros H. now rewrite (send_config_raises config d H).
  - intros e H. destruct (connected d) eqn:Hc.
    + destruct (node d) as [n|] eqn:Hn.
      * rewrite send_config_connected in H by congruence. discriminate.
      * rewrite send_config_raises in * by auto. simpl in H.
        split; [congruence | reflexivity].
    + rewrite send_config_raises in * by auto. simpl in H.
        split; [congruence | reflexivity].
Qed.

Lemma config_lines_blank (config : string) :
  Forall blank_or_comment (split_char LF config) -> config_lines config = [].
Proof.
  unfold config_lines. induction (split_char LF config) as [|x l IH];
    intros H; [reflexivity|].
  inversion H as [|? ? Hx Hl]; subst. cbn [filter].
  assert (Hk : keep_line x = false).
  { unfold keep_line. destruct Hx as [Hx|Hx]; rewrite Hx; [reflexivity|].
    apply andb_false_r. }
  rewrite Hk. now apply IH.
Qed.

(** C9: on a connected device with a node, a text whose lines are all
    blank or comments leaves the history and the node untouched and sends
    no command, still sets the pending flag, and a commit that follows
    succeeds and clears the flag. *)
Theorem blank_config_only_sets_pending (config : string) (d : Device) :
  connected d = true -> node d <> None ->
  Forall blank_or_comment (split_char LF config) ->
  let d' := snd (send_config node_cmd lim config d) in
  fst (send_config node_cmd lim config d) = Ok PyNone
  /\ _applied_config d' = _applied_config d
  /\ issued d' = issued d
  /\ node d' = node d
  /\ _config_pending d' = true
  /\ fst (commit d') = Ok PyNone
  /\ _config_pending (snd (commit d')) = false.
Proof.
  intros Hc Hn Hb. rewrite (send_config_connected config d Hc Hn).
  rewrite (config_lines_blank config Hb). unfold after_lines.
  cbn [fold_left fst snd]. rewrite app_nil_r.
  unfold commit. cbn. rewrite Hc. cbn. auto 10.
Qed.

(** C5: on a connected device with a node, whatever the commands do,
    [send_config] does not raise.  A text with an unknown line [u] leaves
    the node, the commands sent and the interface context as the text
    without [u] leaves them, and the history grows by all the non-blank,
    non-comment lines of the text, [u] among them.  The device at the end
    is the one reached by applying every kept line in turn to the device
    that the line before it left, whether or not that line raised; the
    lines before and after [u] are arbitrary, so that they may hold lines
    on which a command or a conversion raises. *)
Theorem unknown_line_ignored (l1 l2 : list string) (u : string) (d : Device) :
  connected d = true -> node d <> None ->
  Forall no_line_feed (l1 ++ u :: l2) ->
  unknown_line u = true ->
  let with_u :=
    send_config node_cmd lim (join (String LF "") (l1 ++ u :: l2)) d in
  let without_u :=
    send_config node_cmd lim (join (String LF "") (l1 ++ l2)) d in
  fst with_u = Ok PyNone
  /\ fst without_u = Ok PyNone
  /\ node (snd with_u) = node (snd without_u)
  /\ issued (snd with_u) = issued (snd without_u)
  /\ _current_interface (snd with_u) = _current_interface (snd without_u)
  /\ _config_pending (snd with_u) = true
  /\ _applied_config (snd with_u)
     = (_applied_config d ++ filter keep_line (l1 ++ u :: l2))%list
  /\ List.length (_applied_config (snd with_u))
     = (List.length (_applied_config d)
        + List.length (filter keep_line (l1 ++ u :: l2)))%nat
  /\ _applied_config (snd without_u)
     = (_applied_config d ++ filter keep_line (l1 ++ l2))%list
  /\ snd with_u
     = set_config_pending true
         (set_applied_config
            (_applied_config d ++ filter keep_line (l1 ++ u :: l2))%list
            (after_lines node_cmd lim (filter keep_line (l1 ++ u :: l2)) d)).
Proof.
  intros Hc Hn Hall Hu.
  assert (Hall' : Forall no_line_feed (l1 ++ l2)).
  { apply Forall_app in Hall as [H1 H2]. apply Forall_app. split; [exact H1|].
    now inversion H2. }
  rewrite !(send_config_connected _ d Hc Hn).
  rewrite !config_lines_join by assumption.
  cbn [fst snd].
  split; [reflexivity|]. split; [reflexivity|].
  rewrite (after_lines_unknown l1 l2 u d Hu).
  cbn [set_config_pending set_applied_config _applied_config node
       issued _current_interface _config_pending].
  rewrite length_app. repeat split; reflexivity.
Qed.

(** C6, amended: without an interface context the target is [eth1] on a
    switch and [eth0] on any other device.  With the context [ethN], [N]
    a string of decimal digits, the target on a switch is [eth] followed
    by the decimal writing of [N + 1] (as long as [int] and [str] accept
    the numbers), and on any other device [eth] followed by [N] as it is
    written.  With any other context name the target on a switch is
    [eth1] unless the name without its occurrences of [eth] is a string
    of digits, and on any other device [eth] followed by the name without
    its occurrences of [eth].  An [ip address] line that carries an
    address sends its commands to that target, the first of them being
    the flush of its addresses, and sends none when the target cannot be
    computed. *)
Theorem target_interface (d : Device) :
  (truthy (_current_interface d) = false ->
   if_name_of lim d
   = Ok (device_name d ++ "-eth" ++ (if is_switch d then "1" else "0")))
  /\ (forall digits,
       digits <> "" -> all_chars isdecimal digits = true ->
       _current_interface d = Some ("eth" ++ digits) ->
       if is_switch d
       then within_limit lim (String.length digits) = true ->
            forall t, py_str lim (decimal_value 0 digits + 1) = Some t ->
                      if_name_of lim d = Ok (device_name d ++ "-eth" ++ t)
       else if_name_of lim d = Ok (device_name d ++ "-eth" ++ digits))
  /\ (forall name,
       name <> "" -> _current_interface d = Some name ->
       if is_switch d
       then isdigit (remove_all "eth" name) = false ->
            if_name_of lim d = Ok (device_name d ++ "-eth" ++ "1")
       else if_name_of lim d
            = Ok (device_name d ++ "-eth" ++ remove_all "eth" name))
  /\ (forall line address,
       node d <> None -> address_of line = Ok address ->
       match if_name_of lim d with
       | Ok target =>
           exists more,
             issued (snd (apply_ip_address node_cmd lim line d))
             = (issued d
                ++ ("ip addr flush dev " ++ target ++ " 2>&1")%string
                   :: more)%list
       | Raise e => apply_ip_address node_cmd lim line d = (Raise e, d)
       end).
Proof.
  split; [|split; [|split]].
  - unfold if_name_of. intros ->. now destruct (is_switch d).
  - unfold if_name_of. intros digits Hne Hd ->.
    rewrite (remove_all_eth digits Hd). cbn [truthy append is_empty negb].
    destruct (is_switch d); [|reflexivity].
    intros Hlim t Ht. rewrite (isdecimal_isdigit digits Hne Hd).
    unfold Automation.to_int, Automation.to_str.
    rewrite (py_int_decimal lim digits Hne Hd Hlim). cbn [of_option rbind].
    rewrite Ht. reflexivity.
  - unfold if_name_of. intros name Hne ->.
    destruct name as [|c name]; [congruence|].
    cbn [truthy is_empty negb].
    destruct (is_switch d); [|reflexivity].
    intros ->. reflexivity.
  - intros line address Hn Ha. unfold apply_ip_address. rewrite Ha.
    match goal with
    | |- context [bind (lift (Ok address)) ?k d] =>
        change (bind (lift (Ok address)) k d) with (k address d)
    end.
    cbv beta.
    match goal with
    | |- context [bind (fun x => (if_name_of lim x, x)) ?k d] =>
        change (bind (fun x => (if_name_of lim x, x)) k d)
          with (match if_name_of lim d with
                | Ok a => k a d
                | Raise e => (Raise e, d)
                end)
    end.
    destruct (if_name_of lim d) as [target|e]; [|reflexivity].
    apply first_command_issued; [exact Hn|].
    intros _. preserves_tac.
Qed.

End DeviceFacts.

(** C3, as stated, fails: on a connected switch and a text of two lines
    [send_config] returns [None], which is not the count 2. *)
Lemma send_config_returns_none :
  fst (send_config ex_node_cmd ex_limit ex_text ex_switch) = Ok PyNone
  /\ List.length (config_lines ex_text) = 2%nat
  /\ fst (send_config ex_node_cmd ex_limit ex_text ex_switch)
     <> Ok (PyInt 2).
Proof. repeat split; vm_compute; congruence. Qed.

Lemma send_config_outcome_witness :
  _applied_config (snd (send_config ex_node_cmd ex_limit ex_text ex_switch))
  = (_applied_config ex_switch ++ config_lines ex_text)%list.
Proof.
  refine (proj1 (proj2 (proj1
    (send_config_outcome nat ex_node_cmd ex_limit ex_text ex_switch)
    eq_refl _))).
  discriminate.
Defined.

Lemma blank_config_only_sets_pending_witness :
  _config_pending
    (snd (send_config ex_node_cmd ex_limit
            (join (String LF "") ["# uplink"; ""; "   "]) ex_switch)) = true.
Proof.
  refine (proj1 (proj2 (proj2 (proj2 (proj2
    (blank_config_only_sets_pending nat ex_node_cmd ex_limit
       (join (String LF "") ["# uplink"; ""; "   "]) ex_switch
       eq_refl _ _)))))).
  - discriminate.
  - repeat (constructor; [first [left; reflexivity | right; reflexivity]|]).
    constructor.
Defined.

Lemma unknown_line_ignored_witness :
  issued (snd (send_config ex_node_cmd ex_limit
                 (join (String LF "")
                    ["hostname s1"; "banner motd foo"; "interface eth0";
                     " ip address 10.0.0.1 255.255.255.0"]) ex_switch))
  = issued (snd (send_config ex_node_cmd ex_limit
                   (join (String LF "")
                      ["hostname s1"; "interface eth0";
                       " ip address 10.0.0.1 255.255.255.0"]) ex_switch)).
Proof.
  refine (proj1 (proj2 (proj2 (proj2
    (unknown_line_ignored nat ex_node_cmd ex_limit
       ["hostname s1"]
       ["interface eth0"; " ip address 10.0.0.1 255.255.255.0"]
       "banner motd foo" ex_switch eq_refl _ _ eq_refl))))).
  - discriminate.
  - repeat constructor.
Defined.

(** C6, as stated, fails: the context [port2] has the trailing numeric
    suffix 2, yet the target on a switch is [eth1], not [eth3], and on a
    host [ethport2], not [eth2]. *)
Lemma numeral_of_other_names :
  trailing_digits "port2" = "2"
  /\ if_name_of ex_limit (set_current_interface (Some "port2") ex_switch)
     = Ok "s1-eth1"
  /\ if_name_of ex_limit (set_current_interface (Some "port2") ex_switch)
     <> Ok "s1-eth3"
  /\ if_name_of ex_limit (set_current_interface (Some "port2") ex_host)
     = Ok "h1-ethport2"
  /\ if_name_of ex_limit (set_current_interface (Some "port2") ex_host)
     <> Ok "h1-eth2"
  /\ issued (snd (send_config ex_node_cmd ex_limit
                    (join (String LF "")
                       ["interface port2"; " ip address 10.0.0.1"])
                    ex_host))
     = ["ip addr flush dev h1-ethport2 2>&1";
        "ip addr add 10.0.0.1/24 dev h1-ethport2 2>&1";
        "ip link set h1-ethport2 up 2>/dev/null || true";
        "ip addr show h1-ethport2 2>/dev/null"].
Proof. repeat split; vm_compute; congruence. Qed.

Lemma target_interface_witness :
  if_name_of ex_limit (set_current_interface (Some "eth0") ex_switch)
  = Ok "s1-eth1".
Proof.
  refine (proj1 (proj2
    (target_interface nat ex_node_cmd ex_limit
       (set_current_interface (Some "eth0") ex_switch))) "0" _
    eq_refl eq_refl eq_refl "1" eq_refl).
  discriminate.
Defined.

End AutomationFacts.

(* ================================================================== *)
(** * Properties of the device session *)
(* ================================================================== *)

Module SessionFacts.
Import PyStr Automation Session Examples.

Section SessionFacts.
Context {D : Type} `{NetworkDevice D}.

(** C8: on a session that is not connected [deploy_config] raises
    [DeviceConnectionError] and leaves the session and its device as they
    were.  On a connected session it calls [send_config] and, when that
    call returns, [commit] on the device that [send_config] left; when
    either call raises, it raises [DeviceConnectionError]; it raises no
    other exception; and the session stays connected in every case, the
    device keeping whatever state the calls left it in. *)
Theorem deploy_config_outcome (config : string) (s : DeviceSession D) :
  let outcome := deploy_config config true s in
  let applied := dev_send_config config (device s) in
  let committed := dev_commit (snd applied) in
  (_connected s = false -> outcome = (Raise DeviceConnectionError, s))
  /\ (_connected s = true ->
      _connected (snd outcome) = true
      /\ (is_raise (fst applied) ->
          fst outcome = Raise DeviceConnectionError
          /\ device (snd outcome) = snd applied)
      /\ (is_ok (fst applied) -> device (snd outcome) = snd committed)
      /\ (is_ok (fst applied) -> is_raise (fst committed) ->
          fst outcome = Raise DeviceConnectionError)
      /\ (is_ok (fst applied) -> is_ok (fst committed) ->
          fst outcome = Ok PyNone)
      /\ (forall e, fst outcome = Raise e -> e = DeviceConnectionError)).
Proof.
  cbv zeta. unfold deploy_config. split.
  - intros ->. reflexivity.
  - intros ->. cbn [negb].
    destruct (dev_send_config config (device s)) as [[v1|e1] d1];
      cbn [fst snd is_ok is_raise].
    + destruct (dev_commit d1) as [[v2|e2] d2];
        cbn [fst snd is_ok is_raise device _connected];
        repeat split; try tauto; try congruence.
    + repeat split; try tauto; congruence.
Qed.

(** C10: [disconnect] of a session never raises.  On a session that is not
    connected it changes nothing.  On a connected session it calls
    [disconnect] of the device; when that call raises, the session stays
    marked connected, and when it returns, the mark is cleared.
    [__exit__] ends with the session as [disconnect] leaves it and returns
    [False] without raising. *)
Theorem disconnect_never_raises (s : DeviceSession D) :
  fst (disconnect s) = Ok PyNone
  /\ (_connected s = false -> disconnect s = (Ok PyNone, s))
  /\ (_connected s = true ->
      device (snd (disconnect s)) = snd (dev_disconnect (device s))
      /\ (is_raise (fst (dev_disconnect (device s))) ->
          _connected (snd (disconnect s)) = true)
      /\ (is_ok (fst (dev_disconnect (device s))) ->
          _connected (snd (disconnect s)) = false))
  /\ __exit__ s = (Ok (PyBool false), snd (disconnect s)).
Proof.
  unfold __exit__, disconnect.
  destruct (_connected s) eqn:E; cbn [negb].
  - destruct (dev_disconnect (device s)) as [[v|e] d'];
      cbn [fst snd is_ok is_raise device _connected];
      repeat split; try tauto; try congruence.
  - repeat split; congruence.
Qed.

End SessionFacts.

Lemma deploy_config_outcome_witness :
  fst (deploy_config (H := simulated_device nat ex_node_cmd ex_limit)
         "hostname s1" true ex_session) = Ok PyNone
  /\ fst (deploy_config (H := ex_stuck_device) "hostname s1" true
            {| device := 0; _connected := true |})
     = Raise DeviceConnectionError.
Proof.
  split.
  - exact (proj1 (proj2 (proj2 (proj2 (proj2
      (proj2 (deploy_config_outcome
                (H := simulated_device nat ex_node_cmd ex_limit)
                "hostname s1" ex_session) eq_refl))))) I I).
  - exact (proj1 (proj2 (proj2 (proj2
      (proj2 (deploy_config_outcome (H := ex_stuck_device)
                "hostname s1" {| device := 0; _connected := true |})
             eq_refl)))) I I).
Defined.

Lemma disconnect_never_raises_witness :
  _connected (snd (disconnect (H := ex_stuck_device)
                     {| device := 0; _connected := true |})) = true
  /\ fst (disconnect (H := ex_stuck_device)
            {| device := 0; _connected := true |}) = Ok PyNone.
Proof.
  split.
  - exact (proj1 (proj2 (proj1 (proj2 (proj2
      (disconnect_never_raises (H := ex_stuck_device)
         {| device := 0; _connected := true |}))) eq_refl)) I).
  - exact (proj1 (disconnect_never_raises (H := ex_stuck_device)
                    {| device := 0; _connected := true |})).
Defined.

End SessionFacts.

(* ================================================================== *)
(** * Properties of the regular expressions *)
(* ================================================================== *)

Module RegexFacts.
Import PyStr PyNum PyFloat PyRe PyFacts.

Lemma prefix_drop (t s : string) :
  prefix t s = true -> s = t ++ drop (String.length t) s.
Proof.
  revert s; induction t as [|c t IH]; intros s H.
  - now destruct s.
  - destruct s as [|d s]; [discriminate|]. simpl in H.
    destruct (ascii_dec c d) as [->|]; [|discriminate].
    simpl. f_equal. now apply IH.
Qed.

Lemma many_sound {R : Type} (p : ascii -> bool) (least : nat)
      (k : string -> string -> option R) (s : string) :
  forall taken x,
    many p least k taken s = Some x ->
    exists a b,
      s = a ++ b /\ all_chars p a = true
      /\ (least <= String.length (taken ++ a))%nat
      /\ k (taken ++ a) b = Some x.
Proof.
  induction s as [|c s IH]; intros taken x; cbn [many].
  - destruct (least <=? String.length taken)%nat eqn:E; [|discriminate].
    intros H. exists "", "". rewrite (append_empty_r taken).
    apply Nat.leb_le in E. repeat split; first [assumption | reflexivity].
  - assert (Hstop :
      (if (least <=? String.length taken)%nat then k taken (String c s)
       else None) = Some x ->
      exists a b,
        String c s = a ++ b /\ all_chars p a = true
        /\ (least <= String.length (taken ++ a))%nat
        /\ k (taken ++ a) b = Some x).
    { destruct (least <=? String.length taken)%nat eqn:E; [|discriminate].
      intros H. exists "", (String c s). rewrite (append_empty_r taken).
      apply Nat.leb_le in E. repeat split; first [assumption | reflexivity]. }
    destruct (p c) eqn:Hp; [|exact Hstop].
    destruct (many p least k (taken ++ String c "") s) as [y|] eqn:Hm;
      [|exact Hstop].
    intros [= <-]. destruct (IH _ _ Hm) as (a & b & -> & Ha & Hl & Hk).
    exists (String c a), b. rewrite append_assoc in Hl, Hk.
    cbn [append all_chars] in *. rewrite Hp, Ha. auto.
Qed.

Lemma run_sound {R : Type} (r : regex) :
  forall (s : string) (caps : list string)
         (k : string -> string -> list string -> option R) (x : R),
    run r s caps k = Some x ->
    exists m rest caps',
      s = m ++ rest /\ matches r m caps caps' /\ k m rest caps' = Some x.
Proof.
  induction r as [t|p least|r IH|r1 IH1 r2 IH2|r IH]; intros s caps k x;
    cbn [run matches].
  - destruct (prefix t s) eqn:E; [|discriminate].
    intros H. exists t, (drop (String.length t) s), caps.
    split; [now apply prefix_drop | auto].
  - intros H. destruct (many_sound _ _ _ _ _ _ H) as (a & b & -> & Ha & Hl & Hk).
    exists a, b, caps. cbn [append] in *. auto.
  - destruct (run r s caps k) as [y|] eqn:E.
    + intros [= <-]. destruct (IH _ _ _ _ E) as (m & rest & caps' & -> & Hm & Hk).
      exists m, rest, caps'. auto.
    + intros H. exists "", s, caps. auto.
  - intros H. destruct (IH1 _ _ _ _ H) as (m1 & rest1 & c1 & -> & Hm1 & H1).
    destruct (IH2 _ _ _ _ H1) as (m2 & rest2 & c2 & -> & Hm2 & H2).
    exists (m1 ++ m2), rest2, c2. rewrite append_assoc.
    split; [reflexivity|]. split; [|exact H2].
    exists m1, m2, c1. auto.
  - intros H. destruct (IH _ _ _ _ H) as (m & rest & c1 & -> & Hm & Hk).
    exists m, rest, (c1 ++ [m])%list. split; [reflexivity|].
    split; [|exact Hk]. exists c1. auto.
Qed.

Lemma match_at_sound (r : regex) (s : string) (caps : list string) :
  match_at r s = Some caps ->
  exists m rest, s = m ++ rest /\ matches r m [] caps.
Proof.
  unfold match_at. intros H.
  destruct (run_sound _ _ _ _ _ H) as (m & rest & caps' & -> & Hm & [= <-]).
  eauto.
Qed.

Lemma search_suffix {A : Type} (f : string -> option A) (s : string) (g : A) :
  search f s = Some g -> exists pre t, s = pre ++ t /\ f t = Some g.
Proof.
  induction s as [|c s IH]; cbn [search].
  - destruct (f "") eqn:E; [|discriminate]. intros [= <-]. now exists "", "".
  - destruct (f (String c s)) eqn:E.
    + intros [= <-]. now exists "", (String c s).
    + intros H. destruct (IH H) as (pre & t & -> & Ht).
      now exists (String c pre), t.
Qed.

Lemma prefix_append (t rest : string) : prefix t (t ++ rest) = true.
Proof.
  induction t as [|c t IH]; simpl.
  - now destruct rest.
  - destruct (ascii_dec c c); [exact IH | congruence].
Qed.

Lemma contains_append (sub pre rest : string) :
  contains sub (pre ++ sub ++ rest) = true.
Proof.
  induction pre as [|c pre IH].
  - cbn [append]. destruct (sub ++ rest) eqn:E; cbn [contains];
      rewrite <- E, prefix_append; reflexivity.
  - cbn [append contains]. rewrite IH. apply orb_true_r.
Qed.

(** The groups of a match of the hop pattern. *)
Lemma hop_pattern_groups (s : string) (caps : list string) :
  match_at hop_pattern s = Some caps ->
  exists g1 g2 g3 g4,
    caps = [g1; g2; g3; g4]
    /\ (g1 <> "" /\ all_chars isdecimal g1 = true)
    /\ (g2 <> "" /\ all_chars not_space_or_paren g2 = true)
    /\ (g3 <> "" /\ all_chars not_close_paren g3 = true)
    /\ (g4 <> "" /\ all_chars isnumchar g4 = true).
Proof.
  intros H. destruct (match_at_sound _ _ _ H) as (m & rest & _ & Hm).
  unfold hop_pattern in Hm. cbn [matches] in Hm.
  repeat match goal with
         | H : exists _, _ |- _ => destruct H
         | H : _ /\ _ |- _ => destruct H
         end.
  subst. cbn [app].
  do 4 eexists. split; [reflexivity|].
  repeat split; try assumption;
    intros ->; simpl in *; lia.
Qed.

End RegexFacts.

(* ================================================================== *)
(** * Properties of the path parser *)
(* ================================================================== *)

Module PathFacts.
Import PyStr PyNum PyFloat PyRe Telemetry PyFacts RegexFacts.
Local Open Scope result_scope.

Lemma decimal_value_nonneg (s : string) :
  forall acc, (0 <= acc)%Z -> (0 <= decimal_value acc s)%Z.
Proof.
  induction s as [|c s IH]; intros acc H; cbn [decimal_value]; [exact H|].
  apply IH. unfold digit_value. lia.
Qed.

Lemma py_int_decimal_cases (lim : nat) (s : string) :
  s <> "" -> all_chars isdecimal s = true ->
  py_int lim s
  = if within_limit lim (String.length s) then Some (decimal_value 0 s)
    else None.
Proof.
  intros Hne H. unfold py_int. rewrite (strip_decimal s H).
  destruct s as [|c s]; [congruence|].
  pose proof H as H'. cbn [all_chars] in H'.
  apply andb_true_iff in H' as [Hc Hs].
  rewrite (isdecimal_not_sign c s Hc).
  cbn [int_digits]. rewrite Hc, (int_digits_decimal s Hs).
  cbn [String.length Nat.add]. reflexivity.
Qed.

(** What a line that adds a hop puts into it. *)
Lemma parse_hop_line_some (lim : nat) (raw : string) (h : PathHop) :
  parse_hop_line lim raw = Ok (Some h) ->
  (0 <= hop_number h)%Z
  /\ match hostname h with
     | Some name =>
         name <> "*" /\ name <> ""
         /\ all_chars not_space_or_paren name = true
     | None => True
     end
  /\ ip_address h <> ""
  /\ all_chars not_close_paren (ip_address h) = true
  /\ exists f, latency_ms h = Some f /\ positive_sign f.
Proof.
  unfold parse_hop_line.
  destruct (is_empty (strip raw) || startswith (strip raw) "traceroute");
    [discriminate|].
  destruct (match_at hop_pattern (strip raw)) as [caps|] eqn:E;
    [|discriminate].
  destruct (hop_pattern_groups _ _ E)
    as (g1 & g2 & g3 & g4 & -> & [N1 D1] & [N2 D2] & [N3 D3] & [N4 D4]).
  cbn [group Nat.sub nth]. unfold to_int, to_float.
  rewrite (py_int_decimal_cases lim g1 N1 D1).
  destruct (within_limit lim (String.length g1)); [|discriminate].
  cbn [of_option rbind].
  destruct (py_float g4) as [f|] eqn:F; [|discriminate].
  cbn [of_option rbind]. intros [= <-].
  cbn [hop_number hostname ip_address latency_ms].
  split; [apply decimal_value_nonneg; lia|].
  split.
  { destruct (String.eqb g2 "*") eqn:S; [exact I|].
    apply String.eqb_neq in S. auto. }
  split; [exact N3|]. split; [exact D3|].
  exists f. split; [reflexivity|]. eapply py_float_positive; eassumption.
Qed.

Lemma parse_hop_line_raise (lim : nat) (raw : string) (e : exn) :
  parse_hop_line lim raw = Raise e -> e = ValueError.
Proof.
  unfold parse_hop_line, to_int, to_float.
  destruct (is_empty (strip raw) || startswith (strip raw) "traceroute");
    [discriminate|].
  destruct (match_at hop_pattern (strip raw)) as [caps|]; [|discriminate].
  destruct (py_int lim (group caps 1)); cbn [of_option rbind];
    [|congruence].
  destruct (py_float (group caps 4)); cbn [of_option rbind]; congruence.
Qed.

(** The loop adds to the list it is given. *)
Lemma parse_hop_lines_found (lim : nat) (lines : list string) :
  forall found,
    parse_hop_lines lim lines found
    = rbind (parse_hop_lines lim lines [])
            (fun added => Ok (found ++ added)%list).
Proof.
  induction lines as [|raw rest IH]; intros found; cbn [parse_hop_lines].
  - cbn [rbind]. now rewrite app_nil_r.
  - destruct (parse_hop_line lim raw) as [[h|]|e]; cbn [rbind];
      [|apply IH|reflexivity].
    rewrite IH. rewrite (IH ([] ++ [h])%list).
    destruct (parse_hop_lines lim rest []) as [added|e]; cbn [rbind];
      [|reflexivity].
    now rewrite <- app_assoc.
Qed.

Lemma parse_hop_lines_app (lim : nat) (l1 l2 : list string) :
  forall found,
    parse_hop_lines lim (l1 ++ l2) found
    = rbind (parse_hop_lines lim l1 found) (parse_hop_lines lim l2).
Proof.
  induction l1 as [|raw rest IH]; intros found; cbn [app parse_hop_lines].
  - reflexivity.
  - destruct (parse_hop_line lim raw) as [[h|]|e]; cbn [rbind]; auto.
Qed.

Lemma parse_hop_lines_ok (lim : nat) (lines : list string) :
  forall hs,
    parse_hop_lines lim lines [] = Ok hs ->
    (List.length hs <= List.length lines)%nat
    /\ forall h, In h hs ->
         exists raw, In raw lines /\ parse_hop_line lim raw = Ok (Some h).
Proof.
  induction lines as [|raw rest IH]; intros hs; cbn [parse_hop_lines].
  - intros [= <-]. split; [reflexivity | intros h []].
  - destruct (parse_hop_line lim raw) as [[h|]|e] eqn:E; cbn [rbind];
      [| |discriminate].
    + rewrite parse_hop_lines_found.
      destruct (parse_hop_lines lim rest []) as [added|e']; cbn [rbind];
        [|discriminate].
      intros [= <-]. destruct (IH added eq_refl) as [Hl Hin].
      split; [simpl; lia|].
      intros h' [<-|H'].
      * exists raw. split; [now left | exact E].
      * destruct (Hin h' H') as (raw' & Hr & Hp).
        exists raw'. split; [now right | exact Hp].
    + intros H. destruct (IH hs H) as [Hl Hin].
      split; [simpl; lia|].
      intros h' H'. destruct (Hin h' H') as (raw' & Hr & Hp).
      exists raw'. split; [now right | exact Hp].
Qed.

Lemma parse_hop_lines_raise (lim : nat) (lines : list string) :
  forall found e, parse_hop_lines lim lines found = Raise e -> e = ValueError.
Proof.
  induction lines as [|raw rest IH]; intros found e; cbn [parse_hop_lines].
  - discriminate.
  - destruct (parse_hop_line lim raw) as [[h|]|e'] eqn:E; cbn [rbind].
    + apply IH.
    + apply IH.
    + intros [= <-]. eapply parse_hop_line_raise; eassumption.
Qed.

Lemma lstrip_of_head (space : ascii -> bool) (s : string) (c : ascii)
      (t : string) :
  lstrip_of space s = String c t -> space c = false.
Proof.
  induction s as [|d s IH]; cbn [lstrip_of]; [discriminate|].
  destruct (space d) eqn:E; [exact IH|]. now intros [= <- <-].
Qed.

Lemma rstrip_of_head (space : ascii -> bool) (s : string) (c : ascii)
      (t : string) :
  rstrip_of space s = String c t -> exists t', s = String c t'.
Proof.
  destruct s as [|d s]; cbn [rstrip_of]; [discriminate|].
  destruct (space d && is_empty (rstrip_of space s)); [discriminate|].
  intros [= <- <-]. eauto.
Qed.

Lemma strip_head (s : string) (c : ascii) (t : string) :
  strip s = String c t -> isspace c = false.
Proof.
  unfold strip, strip_of. intros H.
  destruct (rstrip_of_head _ _ _ _ H) as [t' H'].
  eapply lstrip_of_head; eassumption.
Qed.

(** A line that does not start, after the white space before it, with a
    decimal digit adds no hop. *)
Lemma parse_hop_line_other (lim : nat) (raw : string) :
  match strip raw with
  | String c _ => isdecimal c = false
  | EmptyString => True
  end ->
  parse_hop_line lim raw = Ok None.
Proof.
  unfold parse_hop_line. destruct (strip raw) as [|c t] eqn:E.
  - reflexivity.
  - intros Hd. pose proof (strip_head _ _ _ E) as Hs.
    cbn [is_empty orb].
    destruct (startswith (String c t) "traceroute"); [reflexivity|].
    unfold match_at, hop_pattern. cbn [run many]. rewrite Hs, Hd.
    reflexivity.
Qed.

End PathFacts.

Module PathTheorems.
Import PyStr PyNum PyFloat PyRe Telemetry PyFacts RegexFacts PathFacts Examples.
Local Open Scope result_scope.

(** X1: whenever the path parser returns, [total_hops] is the number of
    hops, there are at most as many hops as the output has lines, and
    every hop carries a hop number that is not negative, an address that
    is neither empty nor holds a closing parenthesis, a latency that is
    present and not negative, and a host name that is either absent or a
    non-empty text other than [*] without white space or opening
    parenthesis. *)
Theorem hops_well_formed (lim : nat) (output src dst : string)
        (p : PathMetrics) :
  _parse_traceroute_output lim output src dst = Ok p ->
  total_hops p = List.length (hops p)
  /\ (List.length (hops p) <= List.length (split_char LF output))%nat
  /\ Forall (fun h =>
       (0 <= hop_number h)%Z
       /\ match hostname h with
          | Some name =>
              name <> "*" /\ name <> ""
              /\ all_chars not_space_or_paren name = true
          | None => True
          end
       /\ ip_address h <> ""
       /\ all_chars not_close_paren (ip_address h) = true
       /\ exists f, latency_ms h = Some f /\ positive_sign f) (hops p).
Proof.
  unfold _parse_traceroute_output.
  destruct (parse_hop_lines lim (split_char LF output) []) as [hs|e] eqn:E;
    cbn [rbind]; [|discriminate].
  intros [= <-]. cbn [hops total_hops].
  destruct (parse_hop_lines_ok _ _ _ E) as [Hl Hin].
  split; [reflexivity|]. split; [exact Hl|].
  apply Forall_forall. intros h Hh.
  destruct (Hin h Hh) as (raw & _ & Hp).
  eapply parse_hop_line_some; eassumption.
Qed.

Lemma hops_well_formed_witness :
  total_hops ex_route = List.length (hops ex_route)
  /\ (List.length (hops ex_route)
      <= List.length (split_char LF ex_traceroute))%nat.
Proof.
  split.
  - exact (proj1 (hops_well_formed 4300 ex_traceroute "h1" "h2" ex_route
                    eq_refl)).
  - exact (proj1 (proj2 (hops_well_formed 4300 ex_traceroute "h1" "h2"
                           ex_route eq_refl))).
Defined.

(** X2: the path parser works line by line.  The hops of two outputs
    joined by a line feed are the hops of the first followed by those of
    the second, and the joined output makes the parser raise exactly when
    one of the two does, the first of them giving the exception. *)
Theorem traceroute_output_concat (lim : nat) (a b src dst : string) :
  _parse_traceroute_output lim (a ++ String LF b) src dst
  = (pa <- _parse_traceroute_output lim a src dst ;;
     pb <- _parse_traceroute_output lim b src dst ;;
     Ok {| path_source := src;
           path_destination := dst;
           hops := (hops pa ++ hops pb)%list;
           total_hops := (total_hops pa + total_hops pb)%nat |}).
Proof.
  unfold _parse_traceroute_output.
  rewrite split_char_app, parse_hop_lines_app.
  destruct (parse_hop_lines lim (split_char LF a) []) as [ha|e];
    cbn [rbind]; [|reflexivity].
  rewrite parse_hop_lines_found.
  destruct (parse_hop_lines lim (split_char LF b) []) as [hb|e];
    cbn [rbind hops total_hops]; [|reflexivity].
  now rewrite length_app.
Qed.

(** X3: the path parser raises nothing but [ValueError].  On an output
    none of whose lines starts, after the white space before it, with a
    decimal digit (blank lines, the header line, lines of asterisks) it
    returns a path without hops. *)
Theorem traceroute_without_hops (lim : nat) (output src dst : string) :
  (forall e, _parse_traceroute_output lim output src dst = Raise e ->
     e = ValueError)
  /\ (Forall (fun raw => match strip raw with
                         | String c _ => isdecimal c = false
                         | EmptyString => True
                         end) (split_char LF output) ->
      _parse_traceroute_output lim output src dst
      = Ok {| path_source := src; path_destination := dst;
              hops := []; total_hops := 0 |}).
Proof.
  unfold _parse_traceroute_output. split.
  - intros e.
    destruct (parse_hop_lines lim (split_char LF output) []) as [hs|e'] eqn:E;
      cbn [rbind]; [discriminate|].
    intros [= <-]. eapply parse_hop_lines_raise; eassumption.
  - intros Hall.
    assert (H : parse_hop_lines lim (split_char LF output) [] = Ok []).
    { induction Hall as [|raw rest Hr _ IH]; cbn [parse_hop_lines];
        [reflexivity|].
      rewrite (parse_hop_line_other lim raw Hr). exact IH. }
    now rewrite H.
Qed.

Lemma traceroute_without_hops_witness :
  _parse_traceroute_output 4300
    (join (String LF "")
       ["traceroute to 10.0.1.10 (10.0.1.10), 30 hops max"; "  * * *"; ""])
    "h1" "h2"
  = Ok {| path_source := "h1"; path_destination := "h2";
          hops := []; total_hops := 0 |}.
Proof.
  apply (proj2 (traceroute_without_hops 4300 _ "h1" "h2")).
  repeat constructor.
Defined.

End PathTheorems.

(* ================================================================== *)
(** * Verdicts of the validator on the metrics read *)
(* ================================================================== *)

Module VerdictFacts.
Import PyStr PyFloat PyRe Telemetry Validation Examples PyFacts RegexFacts
       ValidationFacts.

(** A float minus itself is [+0.0], or not a number. *)
Lemma fsub_self (x : float) :
  fsub x x = S754_zero false \/ fsub x x = S754_nan.
Proof.
  unfold fsub. destruct x as [[|]|[|]| |s m e]; cbn [SFsub]; auto.
  rewrite Z.sub_diag. left. reflexivity.
Qed.

Lemma no_increase (x t : float) :
  fgt zero t = false -> fgt (fsub x x) t = false.
Proof.
  intros H. destruct (fsub_self x) as [-> | ->].
  - exact H.
  - unfold fgt, SFltb. now destruct t.
Qed.

Lemma list_eqb_refl (a : list string) : list_eqb a a = true.
Proof. now apply list_eqb_eq. Qed.

Lemma list_eqb_sym (a b : list string) : list_eqb a b = list_eqb b a.
Proof.
  destruct (list_eqb a b) eqn:E.
  - apply list_eqb_eq in E as ->. symmetry. apply list_eqb_refl.
  - destruct (list_eqb b a) eqn:E'; [|reflexivity].
    apply list_eqb_eq in E' as ->. now rewrite list_eqb_refl in E.
Qed.

(** A loss of at least 100.0 is above 50.0. *)
Lemma fge_100_fgt_50 (x : float) :
  fge x (float_of_Z 100) = true -> fgt x (float_of_Z 50) = true.
Proof.
  change (float_of_Z 100) with (S754_finite false 7036874417766400 (-46)).
  change (float_of_Z 50) with (S754_finite false 7036874417766400 (-47)).
  unfold fge, fgt, SFleb, SFltb.
  destruct x as [s|[|]| |[|] m e]; cbn [SFcompare]; try discriminate;
    try reflexivity.
  destruct (Z.compare_spec (-46) e) as [<-|Hlt|Hgt].
  - reflexivity.
  - intros _. destruct (Z.compare_spec (-47) e); first [reflexivity | lia].
  - discriminate.
Qed.

(** The loss pattern matches only where the text [% packet loss] is. *)
Lemma loss_pattern_contains (output : string) :
  contains "% packet loss" output = false ->
  search (match_at loss_pattern) output = None.
Proof.
  intros Hc. destruct (search (match_at loss_pattern) output) as [caps|] eqn:E;
    [|reflexivity].
  destruct (search_suffix _ _ _ E) as (pre & t & -> & Ht).
  destruct (match_at_sound _ _ _ Ht) as (m & rest & -> & Hm).
  unfold loss_pattern in Hm. cbn [matches] in Hm.
  destruct Hm as (m1 & m2 & mid & -> & _ & -> & _).
  rewrite append_assoc, <- (append_assoc pre m1) in Hc.
  rewrite contains_append in Hc. discriminate.
Qed.

End VerdictFacts.

Module VerdictTheorems.
Import PyStr PyNum PyFloat PyRe Telemetry Validation Examples PyFacts RegexFacts
       ValidationFacts TelemetryFacts VerdictFacts.
Local Open Scope result_scope.

(** X4: the connectivity check never reports Warning and gives exactly
    one line of evidence.  It reports Fail exactly when the snapshot has
    no latency metrics or their packet loss is above 50.0, the test for a
    loss of at least 100.0 changing the evidence only, and Pass
    otherwise. *)
Theorem connectivity_verdict (metrics : TelemetryMetrics) :
  status (validate_connectivity metrics) <> WARNING
  /\ (status (validate_connectivity metrics) = FAIL <->
      match latency metrics with
      | Some l => fgt (packet_loss_percent l) (float_of_Z 50) = true
      | None => True
      end)
  /\ (status (validate_connectivity metrics) = PASS <->
      exists l, latency metrics = Some l
                /\ fgt (packet_loss_percent l) (float_of_Z 50) = false)
  /\ List.length (details (validate_connectivity metrics)) = 1%nat.
Proof.
  unfold validate_connectivity. destruct (latency metrics) as [l|].
  - destruct (fge (packet_loss_percent l) (float_of_Z 100)) eqn:E100.
    + rewrite (fge_100_fgt_50 _ E100). cbn [status details List.length].
      repeat split; try discriminate; auto.
      intros (l' & [= <-] & H). rewrite (fge_100_fgt_50 _ E100) in H.
      discriminate.
    + destruct (fgt (packet_loss_percent l) (float_of_Z 50)) eqn:E50;
        cbn [status details List.length];
        repeat split; try discriminate; auto.
      * intros (l' & [= <-] & H). congruence.
      * intros _. eauto.
  - cbn [status details List.length].
    repeat split; try discriminate; auto.
    intros (l' & [=] & _).
Qed.

(** X5: a snapshot compared with itself passes, with no other evidence
    than that of values within their thresholds and an unchanged path,
    whatever [path_change_allowed] is, as long as neither threshold is
    below zero. *)
Theorem same_snapshot_passes (v : NetworkValidator) (m : TelemetryMetrics) :
  fgt zero (latency_threshold_ms v) = false ->
  fgt zero (packet_loss_threshold_percent v) = false ->
  status (validate v m m) = PASS
  /\ Forall (fun ev => match ev with
                       | LatencyWithin _ _ | LossWithin _ _ | PathUnchanged =>
                           True
                       | _ => False
                       end) (details (validate v m m)).
Proof.
  intros Hl Hp. unfold validate, is_pass.
  destruct (latency m) as [l|], (path m) as [p|];
    cbn [fst snd status details app];
    rewrite ?latency_status, ?loss_status, ?path_status;
    unfold _validate_latency, _validate_packet_loss, _validate_path,
           hops_differ;
    rewrite ?(no_increase _ _ Hl), ?(no_increase _ _ Hp), ?list_eqb_refl;
    cbn; repeat constructor.
Qed.

Lemma same_snapshot_passes_witness :
  status (validate default_validator ex_baseline ex_baseline) = PASS.
Proof.
  exact (proj1 (same_snapshot_passes default_validator ex_baseline
                  eq_refl eq_refl)).
Defined.

(** X6: the path sub-check reports Pass exactly when the two paths have
    the same sequence of hop addresses and Warning otherwise; host names,
    hop numbers, latencies and [total_hops] play no part, and exchanging
    baseline and current does not change the status. *)
Theorem path_verdict_by_addresses (b c : PathMetrics) :
  (status (_validate_path b c) = PASS <->
   map ip_address (hops b) = map ip_address (hops c))
  /\ (status (_validate_path b c) = WARNING <->
      map ip_address (hops b) <> map ip_address (hops c))
  /\ status (_validate_path b c) = status (_validate_path c b).
Proof.
  rewrite !path_status. unfold hops_differ.
  rewrite (list_eqb_sym (map ip_address (hops c))).
  destruct (list_eqb (map ip_address (hops b)) (map ip_address (hops c)))
    eqn:E; cbn [negb].
  - apply list_eqb_eq in E. repeat split; try discriminate; auto.
    intros H. now elim H.
  - assert (N : map ip_address (hops b) <> map ip_address (hops c)).
    { intros H. apply list_eqb_eq in H. congruence. }
    repeat split; try discriminate; auto. intros H. now elim N.
Qed.

(** X7: the evidence of [validate] is the evidence of the sub-checks
    that ran, in the order latency, packet loss, path; it has at most
    five lines, and the result records the two snapshots it was given. *)
Theorem evidence_in_order (v : NetworkValidator)
        (baseline current : TelemetryMetrics) :
  details (validate v baseline current)
  = List.concat (map details (subchecks v baseline current))
  /\ baseline_metrics (validate v baseline current) = Some baseline
  /\ current_metrics (validate v baseline current) = Some current
  /\ (List.length (details (validate v baseline current)) <= 5)%nat.
Proof.
  unfold validate, subchecks.
  destruct (latency baseline) as [lb|], (latency current) as [lc|],
           (path baseline) as [pb|], (path current) as [pc|];
    cbn [fst snd details baseline_metrics current_metrics app map List.concat];
    rewrite ?app_nil_r;
    unfold _validate_latency, _validate_packet_loss, _validate_path;
    repeat match goal with |- context [if ?b then _ else _] => destruct b end;
    cbn; repeat split; lia.
Qed.

(** X9: whenever the latency parser returns metrics, the minimal, the
    average and the maximal latency are not negative (and numbers); they
    are the three floats of the first [min/avg/max] summary of the output
    as written, and 0.0 when the output has no summary.  Source and
    destination are those given. *)
Theorem latency_figures_nonnegative (output src dst : string)
        (m : LatencyMetrics) :
  _parse_ping_output output src dst = Ok m ->
  positive_sign (min_latency_ms m)
  /\ positive_sign (avg_latency_ms m)
  /\ positive_sign (max_latency_ms m)
  /\ match search (match_at latency_pattern) output with
     | Some groups =>
         py_float (group groups 1) = Some (min_latency_ms m)
         /\ py_float (group groups 2) = Some (avg_latency_ms m)
         /\ py_float (group groups 3) = Some (max_latency_ms m)
     | None =>
         min_latency_ms m = zero /\ avg_latency_ms m = zero
         /\ max_latency_ms m = zero
     end
  /\ source m = src /\ destination m = dst.
Proof.
  unfold _parse_ping_output, to_float.
  destruct (match search (match_at loss_pattern) output with
            | Some g => of_option ValueError (py_float (group g 1))
            | None => Ok zero
            end) as [loss|e]; cbn [rbind]; [|discriminate].
  destruct (search (match_at latency_pattern) output) as [groups|].
  - destruct (py_float (group groups 1)) as [f1|] eqn:E1;
      cbn [rbind of_option]; [|discriminate].
    destruct (py_float (group groups 2)) as [f2|] eqn:E2;
      cbn [rbind of_option]; [|discriminate].
    destruct (py_float (group groups 3)) as [f3|] eqn:E3;
      cbn [rbind of_option]; [|discriminate].
    intros [= <-]. cbn.
    repeat split; eauto using py_float_positive.
  - cbn [rbind]. intros [= <-]. cbn. repeat split.
Qed.

Lemma latency_figures_nonnegative_witness :
  positive_sign (avg_latency_ms ex_summary_metrics).
Proof.
  exact (proj1 (proj2 (latency_figures_nonnegative
    ex_summary "h1" "h2" ex_summary_metrics eq_refl))).
Defined.

(** X10: an output of [ping] in which the text [% packet loss] does not
    occur, the empty output among them, is read as a loss of 0.0, and a
    snapshot with the metrics read from it passes the connectivity
    check. *)
Theorem silent_ping_passes_connectivity (output src dst : string)
        (m : LatencyMetrics) (snapshot : TelemetryMetrics) :
  contains "% packet loss" output = false ->
  _parse_ping_output output src dst = Ok m ->
  latency snapshot = Some m ->
  packet_loss_percent m = zero
  /\ status (validate_connectivity snapshot) = PASS.
Proof.
  intros Hc Hp Hs.
  assert (Hz : packet_loss_percent m = zero).
  { revert Hp. unfold _parse_ping_output.
    rewrite (loss_pattern_contains output Hc). cbn [rbind].
    destruct (match search (match_at latency_pattern) output with
              | Some g => _
              | None => _
              end) as [[[a b] c]|e]; cbn [rbind]; [|discriminate].
    now intros [= <-]. }
  split; [exact Hz|].
  unfold validate_connectivity. rewrite Hs, Hz. reflexivity.
Qed.

Lemma silent_ping_passes_connectivity_witness :
  status (validate_connectivity ex_no_answer_snapshot) = PASS.
Proof.
  exact (proj2 (silent_ping_passes_connectivity "" "h1" "h2" ex_no_answer
                  ex_no_answer_snapshot eq_refl eq_refl eq_refl)).
Defined.

(** X8: when the latency metrics are missing on one side and the path is
    missing on one side, no sub-check runs and [validate] reports Pass
    without evidence, whatever the other snapshot holds. *)
Theorem missing_metrics_pass (v : NetworkValidator)
        (baseline current : TelemetryMetrics) :
  latency baseline = None \/ latency current = None ->
  path baseline = None \/ path current = None ->
  status (validate v baseline current) = PASS
  /\ details (validate v baseline current) = []
  /\ subchecks v baseline current = [].
Proof.
  intros Hl Hp. unfold validate, subchecks.
  destruct (latency baseline), (latency current), (path baseline),
           (path current);
    destruct Hl as [Hl|Hl]; try discriminate Hl;
    destruct Hp as [Hp|Hp]; try discriminate Hp;
    repeat split.
Qed.

Lemma missing_metrics_pass_witness :
  status (validate default_validator ex_empty_snapshot ex_current) = PASS.
Proof.
  exact (proj1 (missing_metrics_pass default_validator ex_empty_snapshot
                  ex_current (or_introl eq_refl) (or_introl eq_refl))).
Defined.

End VerdictTheorems.

(* ================================================================== *)
(** * The records of the interface counters *)
(* ================================================================== *)

Module CounterFacts.
Import PyStr PyNum PyFloat PyRe Telemetry Examples PyFacts TelemetryFacts.
Local Open Scope result_scope.

(** Where the fields of a record come from. *)
Lemma parse_dev_line_fields (lim : nat) (raw : string) (c : InterfaceCounter) :
  parse_dev_line lim raw = Ok (Some c) ->
  exists name_part stats_part,
    split_char ":" (strip raw) = [name_part; stats_part]
    /\ interface_name c = strip name_part
    /\ py_int lim (nth 0 (split_ws stats_part) "") = Some (bytes_received c)
    /\ py_int lim (nth 1 (split_ws stats_part) "") = Some (packets_received c)
    /\ py_int lim (nth 3 (split_ws stats_part) "") = Some (drops_received c)
    /\ py_int lim (nth 8 (split_ws stats_part) "") = Some (bytes_sent c)
    /\ py_int lim (nth 9 (split_ws stats_part) "") = Some (packets_sent c)
    /\ py_int lim (nth 11 (split_ws stats_part) "") = Some (drops_sent c).
Proof.
  unfold parse_dev_line.
  destruct (is_empty (strip raw) || negb (contains ":" (strip raw)));
    [discriminate|].
  destruct (split_char ":" (strip raw)) as [|a [|b [|x l]]];
    cbn [List.length Nat.eqb negb]; try discriminate.
  cbn [subscript nth_error of_option rbind].
  destruct (List.length (split_ws b) <? 16)%nat eqn:Hlt; [discriminate|].
  apply Nat.ltb_ge in Hlt.
  destruct (split_ws b) as
    [|s0 [|s1 [|s2 [|s3 [|s4 [|s5 [|s6 [|s7 [|s8 [|s9 [|s10
     [|s11 st]]]]]]]]]]]] eqn:Es;
    try (simpl in Hlt; lia).
  unfold to_int. cbn [nth_error subscript of_option rbind].
  destruct (py_int lim s0) eqn:E0; cbn [of_option rbind]; [|discriminate].
  destruct (py_int lim s1) eqn:E1; cbn [of_option rbind]; [|discriminate].
  destruct (py_int lim s3) eqn:E3; cbn [of_option rbind]; [|discriminate].
  destruct (py_int lim s8) eqn:E8; cbn [of_option rbind]; [|discriminate].
  destruct (py_int lim s9) eqn:E9; cbn [of_option rbind]; [|discriminate].
  destruct (py_int lim s11) eqn:E11; cbn [of_option rbind]; [|discriminate].
  intros [= <-]. exists a, b. rewrite Es. cbn.
  repeat split; assumption.
Qed.

Lemma parse_dev_lines_counters (lim : nat) (lines : list string) :
  forall counters,
    parse_dev_lines lim lines counters
    = rbind (parse_dev_lines lim lines [])
            (fun added => Ok (counters ++ added)%list).
Proof.
  induction lines as [|raw rest IH]; intros counters; cbn [parse_dev_lines].
  - cbn [rbind]. now rewrite app_nil_r.
  - destruct (parse_dev_line lim raw) as [[c|]|e]; cbn [rbind];
      [|apply IH|reflexivity].
    rewrite IH. rewrite (IH ([] ++ [c])%list).
    destruct (parse_dev_lines lim rest []) as [added|e]; cbn [rbind];
      [|reflexivity].
    now rewrite <- app_assoc.
Qed.

Lemma parse_dev_lines_app (lim : nat) (l1 l2 : list string) :
  forall counters,
    parse_dev_lines lim (l1 ++ l2) counters
    = rbind (parse_dev_lines lim l1 counters) (parse_dev_lines lim l2).
Proof.
  induction l1 as [|raw rest IH]; intros counters; cbn [app parse_dev_lines].
  - reflexivity.
  - destruct (parse_dev_line lim raw) as [[c|]|e]; cbn [rbind]; auto.
Qed.

(** X11: every record that the counter parser returns comes from a line
    with exactly one colon: its name is the text before the colon without
    the white space around it, and its bytes, packets and drops are the
    integers of the fields 0, 1 and 3 after the colon for the receiving
    side and of the fields 8, 9 and 11 for the sending side. *)
Theorem counters_from_fields (lim : nat) (output node_name : string)
        (cs : list InterfaceCounter) :
  _parse_proc_net_dev lim output node_name = Ok cs ->
  Forall (fun c =>
    exists raw name_part stats_part,
      In raw (split_char LF output)
      /\ split_char ":" (strip raw) = [name_part; stats_part]
      /\ interface_name c = strip name_part
      /\ py_int lim (nth 0 (split_ws stats_part) "") = Some (bytes_received c)
      /\ py_int lim (nth 1 (split_ws stats_part) "")
         = Some (packets_received c)
      /\ py_int lim (nth 3 (split_ws stats_part) "") = Some (drops_received c)
      /\ py_int lim (nth 8 (split_ws stats_part) "") = Some (bytes_sent c)
      /\ py_int lim (nth 9 (split_ws stats_part) "") = Some (packets_sent c)
      /\ py_int lim (nth 11 (split_ws stats_part) "") = Some (drops_sent c))
    cs.
Proof.
  unfold _parse_proc_net_dev. intros H.
  destruct (parse_dev_lines_ok _ _ _ _ H) as (added & -> & Hadd).
  cbn [app]. apply Forall_forall. intros c Hc.
  destruct (Hadd c Hc) as (raw & Hin & _ & Hp).
  destruct (parse_dev_line_fields _ _ _ Hp) as (a & b & Hf).
  exists raw, a, b. split; [exact Hin | exact Hf].
Qed.

Lemma counters_from_fields_witness :
  exists raw name_part stats_part,
    In raw (split_char LF ex_dev_line)
    /\ split_char ":" (strip raw) = [name_part; stats_part]
    /\ interface_name ex_counter = strip name_part
    /\ py_int 4300 (nth 8 (split_ws stats_part) "")
       = Some (bytes_sent ex_counter).
Proof.
  destruct (Forall_inv (counters_from_fields 4300 ex_dev_line "h1"
                          [ex_counter] eq_refl))
    as (raw & a & b & H1 & H2 & H3 & _ & _ & _ & H4 & _).
  exists raw, a, b. auto.
Defined.

(** X12: the counter parser works line by line.  The records of two
    outputs joined by a line feed are the records of the first followed
    by those of the second, and the joined output makes the parser raise
    exactly when one of the two does. *)
Theorem proc_net_dev_concat (lim : nat) (a b node_name : string) :
  _parse_proc_net_dev lim (a ++ String LF b) node_name
  = (ca <- _parse_proc_net_dev lim a node_name ;;
     cb <- _parse_proc_net_dev lim b node_name ;;
     Ok (ca ++ cb)%list).
Proof.
  unfold _parse_proc_net_dev.
  rewrite split_char_app, parse_dev_lines_app.
  destruct (parse_dev_lines lim (split_char LF a) []) as [ca|e];
    cbn [rbind]; [|reflexivity].
  apply parse_dev_lines_counters.
Qed.

End CounterFacts.

(* ================================================================== *)
(** * The life cycle of a simulated device *)
(* ================================================================== *)

Module LifecycleFacts.
Import PyStr PyNum PyFacts Automation Examples AutomationFacts.

Section Lifecycle.
Variable NodeS : Type.
Variable node_cmd : string -> NodeS -> option string * NodeS.
Variable lim : nat.

Abbreviation Device := (SimulatedDevice NodeS).

Lemma grows_refl (d : Device) : grows d d.
Proof.
  repeat split; auto; exists []; symmetry; apply app_nil_r.
Qed.

Lemma grows_trans (a b c : Device) : grows a b -> grows b c -> grows a c.
Proof.
  intros (H1 & H2 & [m1 H3] & [i1 H4] & H5) (K1 & K2 & [m2 K3] & [i2 K4] & K5).
  repeat split; try congruence; auto.
  - exists (m1 ++ m2)%list. rewrite K3, H3. symmetry. apply app_assoc.
  - exists (i1 ++ i2)%list. rewrite K4, H4. symmetry. apply app_assoc.
Qed.

Lemma after_lines_frame (lines : list string) (d : Device) :
  frame d (after_lines node_cmd lim lines d).
Proof.
  unfold after_lines.
  eapply frame_trans; [|apply fold_try_line_frame].
  repeat split; auto. exists []. symmetry. apply app_nil_r.
Qed.

Lemma send_config_grows (config : string) (d : Device) :
  grows d (snd (send_config node_cmd lim config d)).
Proof.
  destruct (connected d) eqn:Hc.
  - destruct (node d) as [n|] eqn:Hn.
    + rewrite send_config_connected by congruence. cbn [snd].
      destruct (after_lines_frame (config_lines config) d)
        as (H1 & H2 & _ & _ & _ & H6 & H7).
      repeat split; cbn; auto. eauto.
    + rewrite send_config_raises by auto. apply grows_refl.
  - rewrite send_config_raises by auto. apply grows_refl.
Qed.

Lemma do_call_grows (c : call) (d : Device) :
  grows d (snd (do_call node_cmd lim c d)).
Proof.
  destruct c as [|config| |]; cbn [do_call].
  - unfold connect. destruct (connected d); [apply grows_refl|].
    destruct (node d) eqn:E; [|apply grows_refl].
    cbn [snd]. repeat split; cbn; auto; exists []; symmetry; apply app_nil_r.
  - apply send_config_grows.
  - unfold commit. destruct (negb (connected d)); [apply grows_refl|].
    destruct (negb (_config_pending d)); [apply grows_refl|].
    cbn [snd]. repeat split; cbn; auto; exists []; symmetry; apply app_nil_r.
  - unfold disconnect. destruct (negb (connected d)); [apply grows_refl|].
    cbn [snd]. repeat split; cbn; auto; exists []; symmetry; apply app_nil_r.
Qed.

Lemma after_calls_grows (calls : list call) :
  forall d, grows d (after_calls node_cmd lim calls d).
Proof.
  unfold after_calls.
  induction calls as [|c calls IH]; intros d; cbn [fold_left].
  - apply grows_refl.
  - eapply grows_trans; [apply do_call_grows | apply IH].
Qed.

(** The pieces that [split('\n')] gives hold no line feed. *)
Lemma split_char_no_line_feed (s : string) :
  Forall no_line_feed (split_char LF s).
Proof.
  induction s as [|c s IH]; cbn [split_char].
  - repeat constructor.
  - destruct (Ascii.eqb c LF) eqn:E.
    + constructor; [reflexivity | exact IH].
    + destruct (split_char LF s) as [|h t]; [repeat constructor|].
      * unfold no_line_feed. cbn [contains prefix].
        destruct (ascii_dec LF c) as [<-|]; [|reflexivity].
        now rewrite Ascii.eqb_refl in E.
      * inversion IH as [|? ? Hh Ht]; subst. constructor; [|exact Ht].
        unfold no_line_feed in *. cbn [contains prefix].
        destruct (ascii_dec LF c) as [<-|]; [|exact Hh].
        now rewrite Ascii.eqb_refl in E.
Qed.

Lemma config_lines_kept (config : string) :
  Forall (fun line => keep_line line = true /\ no_line_feed line)
         (config_lines config).
Proof.
  unfold config_lines. apply Forall_forall. intros line H.
  apply filter_In in H as [Hin Hk]. split; [exact Hk|].
  pose proof (split_char_no_line_feed config) as Hall.
  rewrite Forall_forall in Hall. now apply Hall.
Qed.

Lemma config_lines_app (a b : string) :
  config_lines (a ++ String LF b) = (config_lines a ++ config_lines b)%list.
Proof.
  unfold config_lines. now rewrite split_char_app, filter_app.
Qed.

Lemma do_call_sound (c : call) (d : Device) :
  sound d -> sound (snd (do_call node_cmd lim c d)).
Proof.
  intros H. pose proof H as [Hn Hh].
  destruct c as [|config| |]; cbn [do_call].
  - unfold connect. destruct (connected d) eqn:Hc; [exact H|].
    destruct (node d) eqn:E; [|exact H].
    split; cbn; [congruence | exact Hh].
  - destruct (connected d) eqn:Hc.
    + rewrite send_config_connected by auto. cbn [snd].
      destruct (after_lines_frame (config_lines config) d)
        as (_ & _ & H3 & _ & _ & H6 & _).
      split; cbn.
      * intros _. apply H6. now apply Hn.
      * apply Forall_app. split; [exact Hh | apply config_lines_kept].
    + rewrite send_config_raises by auto. exact H.
  - unfold commit. destruct (negb (connected d)); [exact H|].
    destruct (negb (_config_pending d)); exact H.
  - unfold disconnect. destruct (negb (connected d)); [exact H|].
    split; cbn; [discriminate | exact Hh].
Qed.

Lemma after_calls_sound (calls : list call) :
  forall d, sound d -> sound (after_calls node_cmd lim calls d).
Proof.
  unfold after_calls.
  induction calls as [|c calls IH]; intros d H; cbn [fold_left].
  - exact H.
  - apply IH. now apply do_call_sound.
Qed.

End Lifecycle.
End LifecycleFacts.

Module LifecycleTheorems.
Import PyStr PyNum PyFacts Automation Examples AutomationFacts LifecycleFacts.

Section Lifecycle.
Variable NodeS : Type.
Variable node_cmd : string -> NodeS -> option string * NodeS.
Variable lim : nat.

Abbreviation Device := (SimulatedDevice NodeS).

(** X13: [connect] of a device raises exactly when the device is not
    connected and has no node; it raises [DeviceConnectionError] only and
    then leaves the device as it was; when it returns the device is
    connected, and a second [connect] changes nothing.  [disconnect]
    never raises, leaves the device disconnected, keeps the history and
    the pending flag, and changes nothing when repeated.  On a device
    that is not connected, [connect] followed by [disconnect] gives the
    device back as it was. *)
Theorem connection_life_cycle (d : Device) :
  (fst (connect d) = Raise DeviceConnectionError <->
   connected d = false /\ node d = None)
  /\ (forall e, fst (connect d) = Raise e ->
      e = DeviceConnectionError /\ snd (connect d) = d)
  /\ (fst (connect d) = Ok PyNone -> connected (snd (connect d)) = true)
  /\ connect (snd (connect d)) = (fst (connect d), snd (connect d))
  /\ fst (disconnect d) = Ok PyNone
  /\ connected (snd (disconnect d)) = false
  /\ _applied_config (snd (disconnect d)) = _applied_config d
  /\ _config_pending (snd (disconnect d)) = _config_pending d
  /\ disconnect (snd (disconnect d)) = (Ok PyNone, snd (disconnect d))
  /\ (connected d = false -> snd (disconnect (snd (connect d))) = d).
Proof.
  unfold connect, disconnect.
  destruct d as [nm ty [|] pd [n|] hist ctx iss]; cbn;
    repeat split; try congruence; try tauto;
    try (intros [? ?]; congruence); try (intros e; congruence).
Qed.

(** X14: [commit] raises exactly when the device is not connected, raises
    [DeviceConnectionError] only and then leaves the device as it was.
    On a connected device it returns [None] and clears the pending flag,
    touching nothing else; without pending changes it leaves the device
    as it was, and a second [commit] changes nothing. *)
Theorem commit_outcome (d : Device) :
  (fst (commit d) = Raise DeviceConnectionError <-> connected d = false)
  /\ (forall e, fst (commit d) = Raise e ->
      e = DeviceConnectionError /\ snd (commit d) = d)
  /\ (connected d = true ->
      commit d = (Ok PyNone, set_config_pending false d))
  /\ (_config_pending d = false -> snd (commit d) = d)
  /\ commit (snd (commit d)) = (fst (commit d), snd (commit d)).
Proof.
  unfold commit.
  destruct d as [nm ty [|] [|] n hist ctx iss]; cbn;
    repeat split; try congruence; try (intros e; congruence).
Qed.

(** X15: no sequence of calls of [connect], [send_config], [commit] and
    [disconnect] changes the name or the type of a device, removes or
    rewrites an entry of its history or of the commands sent to its node,
    or takes its node away: history and commands only grow at the end. *)
Theorem history_append_only (calls : list call) (d : Device) :
  let d' := after_calls node_cmd lim calls d in
  device_name d' = device_name d
  /\ device_type d' = device_type d
  /\ (exists more, _applied_config d' = (_applied_config d ++ more)%list)
  /\ (exists more, issued d' = (issued d ++ more)%list)
  /\ (List.length (_applied_config d) <= List.length (_applied_config d'))%nat
  /\ (node d <> None -> node d' <> None).
Proof.
  cbv zeta.
  destruct (after_calls_grows NodeS node_cmd lim calls d)
    as (H1 & H2 & [m H3] & H4 & H5).
  repeat split; eauto. rewrite H3, length_app. lia.
Qed.

(** X16: on a device obtained from the constructor by any sequence of
    calls, a connected device has a node, so that [send_config] raises
    exactly when the device is not connected and returns [None] when it
    is; and the history holds only lines that are neither blank nor
    comments and that hold no line feed. *)
Theorem reachable_device_sound (name type : string) (n : option NodeS)
        (calls : list call) :
  let d := after_calls node_cmd lim calls (new_device name type n) in
  (connected d = true -> node d <> None)
  /\ Forall (fun line => keep_line line = true /\ no_line_feed line)
            (get_applied_config d)
  /\ (forall config,
        fst (send_config node_cmd lim config d) = Raise DeviceConnectionError
        <-> connected d = false)
  /\ (forall config,
        connected d = true ->
        fst (send_config node_cmd lim config d) = Ok PyNone).
Proof.
  cbv zeta.
  assert (H0 : sound (new_device name type n)).
  { split; cbn; [discriminate | constructor]. }
  destruct (after_calls_sound NodeS node_cmd lim calls _ H0) as [Hn Hh].
  split; [exact Hn|]. split; [exact Hh|]. split.
  - intros config. split.
    + intros H.
      destruct (connected (after_calls node_cmd lim calls
                             (new_device name type n))) eqn:Hc;
        [|reflexivity].
      rewrite send_config_connected in H by auto. discriminate.
    + intros Hc. now rewrite send_config_raises by auto.
  - intros config Hc. now rewrite send_config_connected by auto.
Qed.

(** X17: on a device without a node that is not connected, every call of
    [connect], [send_config] and [commit] raises
    [DeviceConnectionError], [disconnect] returns, and no sequence of
    calls changes the device. *)
Theorem device_without_node_is_inert (d : Device) (calls : list call) :
  node d = None -> connected d = false ->
  after_calls node_cmd lim calls d = d
  /\ Forall (fun c =>
       fst (do_call node_cmd lim c d)
       = match c with
         | Disconnect => Ok PyNone
         | _ => Raise DeviceConnectionError
         end) calls.
Proof.
  intros Hn Hc.
  assert (H1 : forall c, snd (do_call node_cmd lim c d) = d
                         /\ fst (do_call node_cmd lim c d)
                            = match c with
                              | Disconnect => Ok PyNone
                              | _ => Raise DeviceConnectionError
                              end).
  { intros [|config| |]; cbn [do_call].
    - unfold connect. now rewrite Hc, Hn.
    - now rewrite send_config_raises by auto.
    - unfold commit. now rewrite Hc.
    - unfold disconnect. now rewrite Hc. }
  split.
  - unfold after_calls. induction calls as [|c calls IH]; cbn [fold_left].
    + reflexivity.
    + now rewrite (proj1 (H1 c)).
  - apply Forall_forall. intros c _. apply H1.
Qed.

End Lifecycle.

Lemma connection_life_cycle_witness :
  snd (disconnect (snd (connect ex_fresh))) = ex_fresh.
Proof.
  exact (proj2 (proj2 (proj2 (proj2 (proj2 (proj2 (proj2 (proj2 (proj2
           (connection_life_cycle nat ex_fresh))))))))) eq_refl).
Defined.

Lemma commit_outcome_witness :
  commit ex_switch = (Ok PyNone, set_config_pending false ex_switch).
Proof.
  exact (proj1 (proj2 (proj2 (commit_outcome nat ex_switch))) eq_refl).
Defined.

Lemma history_append_only_witness :
  device_name (after_calls ex_node_cmd ex_limit ex_calls ex_fresh)
  = device_name ex_fresh.
Proof.
  exact (proj1 (history_append_only nat ex_node_cmd ex_limit ex_calls
                  ex_fresh)).
Defined.

Lemma reachable_device_sound_witness :
  fst (send_config ex_node_cmd ex_limit ex_text
         (after_calls ex_node_cmd ex_limit [Connect]
                      (new_device "h1" "host" (Some 0)))) = Ok PyNone.
Proof.
  exact (proj2 (proj2 (proj2
           (reachable_device_sound nat ex_node_cmd ex_limit "h1" "host"
              (Some 0) [Connect]))) ex_text eq_refl).
Defined.

Lemma device_without_node_is_inert_witness :
  after_calls ex_node_cmd ex_limit ex_calls ex_no_node = ex_no_node.
Proof.
  exact (proj1 (device_without_node_is_inert nat ex_node_cmd ex_limit
                  ex_no_node ex_calls eq_refl eq_refl)).
Defined.

End LifecycleTheorems.

(* ================================================================== *)
(** * The lines of a configuration text *)
(* ================================================================== *)

Module IndependenceFacts.
Import PyStr PyNum PyFacts Automation Examples AutomationFacts LifecycleFacts.

Section Independence.
Variable NodeS : Type.
Variable node_cmd : string -> NodeS -> option string * NodeS.
Variable lim : nat.

Abbreviation Device := (SimulatedDevice NodeS).
Abbreviation M := (Automation.M NodeS).

(** An update [f] of attributes that the application of a line neither
    reads nor writes. *)
Variable f : Device -> Device.
Hypothesis f_name : forall d, device_name (f d) = device_name d.
Hypothesis f_type : forall d, device_type (f d) = device_type d.
Hypothesis f_node : forall d, node (f d) = node d.
Hypothesis f_context :
  forall d, _current_interface (f d) = _current_interface d.
Hypothesis f_set_node :
  forall n c d, f (set_node n c d) = set_node n c (f d).
Hypothesis f_set_context :
  forall i d, f (set_current_interface i d) = set_current_interface i (f d).

Abbreviation commutes m := (forall d, m (f d) = (fst (m d), f (snd (m d)))).

Lemma commutes_ret {A : Type} (a : A) : commutes (@ret NodeS A a).
Proof. reflexivity. Qed.

Lemma commutes_lift {A : Type} (r : result A) : commutes (@lift NodeS A r).
Proof. reflexivity. Qed.

Lemma commutes_bind {A B : Type} (m : M A) (k : A -> M B) :
  commutes m -> (forall a, commutes (k a)) -> commutes (bind m k).
Proof.
  intros Hm Hk d. unfold bind. rewrite Hm.
  destruct (m d) as [[a|e] d']; cbn [fst snd]; [apply Hk | reflexivity].
Qed.

Lemma commutes_cmd (c : string) : commutes (cmd node_cmd c).
Proof.
  intros d. unfold cmd. rewrite f_node.
  destruct (node d) as [n|]; [|reflexivity].
  destruct (node_cmd c n) as [out n']. cbn [fst snd].
  now rewrite f_set_node.
Qed.

Lemma is_switch_f (d : Device) : is_switch (f d) = is_switch d.
Proof. unfold is_switch. now rewrite f_type. Qed.

Lemma commutes_if_name : commutes (fun d => (if_name_of lim d, d)).
Proof.
  intros d. cbn [fst snd]. unfold if_name_of.
  now rewrite f_context, is_switch_f, f_name.
Qed.

Lemma commutes_switch {A : Type} (m1 m2 : M A) :
  commutes m1 -> commutes m2 ->
  commutes (fun d => if is_switch d then m1 d else m2 d).
Proof.
  intros H1 H2 d. cbv beta. rewrite is_switch_f.
  destruct (is_switch d); [apply H1 | apply H2].
Qed.

Lemma commutes_set_context (i : option string) :
  commutes (fun d => (@Ok unit tt, set_current_interface i d)).
Proof. intros d. cbn [fst snd]. now rewrite f_set_context. Qed.

Ltac commutes_tac :=
  repeat first
    [ apply commutes_ret | apply commutes_lift | apply commutes_cmd
    | apply commutes_if_name | apply commutes_set_context
    | apply commutes_switch
    | apply commutes_bind; [|intros ?]
    | match goal with
      | |- forall d, (if ?b then _ else _) _ = _ => destruct b
      end ].

Lemma apply_line_commutes (line : string) :
  commutes (apply_line node_cmd lim line).
Proof.
  unfold apply_line, apply_ip_address, apply_ip_route. commutes_tac.
Qed.

Lemma try_line_commutes (line : string) (d : Device) :
  try_line node_cmd lim line (f d) = f (try_line node_cmd lim line d).
Proof. unfold try_line. now rewrite apply_line_commutes. Qed.

Lemma fold_try_line_commutes (lines : list string) :
  forall d,
    fold_left (fun dev line => try_line node_cmd lim line dev) lines (f d)
    = f (fold_left (fun dev line => try_line node_cmd lim line dev) lines d).
Proof.
  induction lines as [|l lines IH]; intros d; cbn [fold_left].
  - reflexivity.
  - now rewrite try_line_commutes, IH.
Qed.

End Independence.
End IndependenceFacts.

Module LineFacts.
Import PyStr PyNum PyFacts RegexFacts Automation Examples AutomationFacts
       LifecycleFacts IndependenceFacts.

(** The fields that [split()] gives are not empty. *)
Lemma split_ws_from_nonempty (s : string) :
  forall tok, Forall (fun t => is_empty t = false) (split_ws_from tok s).
Proof.
  induction s as [|c s IH]; intros tok; cbn [split_ws_from].
  - destruct (is_empty tok) eqn:E; repeat constructor. exact E.
  - destruct (isspace c).
    + destruct (is_empty tok) eqn:E; [apply IH|].
      constructor; [exact E | apply IH].
    + apply IH.
Qed.

Lemma prefix_heads (a b : ascii) (p q s : string) :
  prefix (String a p) s = true -> prefix (String b q) s = true -> a = b.
Proof.
  destruct s as [|c s]; cbn [prefix]; [discriminate|].
  destruct (ascii_dec a c), (ascii_dec b c); congruence.
Qed.

Lemma rstrip_of_cons (space : ascii -> bool) (c : ascii) (s : string) :
  space c = false ->
  rstrip_of space (String c s) = String c (rstrip_of space s).
Proof. intros H. cbn [rstrip_of]. now rewrite H. Qed.

Lemma rstrip_of_cons2 (space : ascii -> bool) (c1 c2 : ascii) (s : string) :
  space c2 = false ->
  rstrip_of space (String c1 (String c2 s))
  = String c1 (String c2 (rstrip_of space s)).
Proof.
  intros H. cbn [rstrip_of]. rewrite H. cbn [andb is_empty].
  now rewrite andb_false_r.
Qed.

Lemma strip_cons (c : ascii) (s : string) :
  isspace c = false -> strip (String c s) = String c (rstrip_of isspace s).
Proof.
  intros H. unfold strip, strip_of. cbn [lstrip_of]. rewrite H.
  now apply rstrip_of_cons.
Qed.

(** A line that starts with [ip route ] meets none of the conditions
    that come before the one on routes. *)
Lemma route_line_conditions (line : string) :
  startswith line "ip route " = true ->
  is_hostname line = false /\ is_interface line = false
  /\ is_ip_address line = false /\ is_ip_route line = true
  /\ after_first "ip route " line = Some (drop 9 line).
Proof.
  unfold startswith. intros H.
  assert (E : exists r, line = "ip route " ++ r).
  { eexists. apply (prefix_drop "ip route "). exact H. }
  destruct E as [r ->].
  unfold is_hostname, is_interface, is_ip_address, is_ip_route, startswith.
  cbn [append] in *. rewrite strip_cons by reflexivity.
  rewrite rstrip_of_cons by reflexivity.
  rewrite rstrip_of_cons2 by reflexivity.
  repeat split.
  - exact H.
  - cbn [after_first]. now rewrite H.
Qed.

End LineFacts.

Module LineTheorems.
Import PyStr PyNum PyFacts RegexFacts Automation Examples AutomationFacts
       LifecycleFacts IndependenceFacts LineFacts.

Section Lines.
Variable NodeS : Type.
Variable node_cmd : string -> NodeS -> option string * NodeS.
Variable lim : nat.

Abbreviation Device := (SimulatedDevice NodeS).

Lemma set_current_interface_same (d : Device) :
  _current_interface d = None -> set_current_interface None d = d.
Proof. destruct d. cbn. now intros ->. Qed.

Lemma after_lines_kept (x : list string) (p : bool) (lines : list string)
      (d : Device) :
  _current_interface d = None ->
  after_lines node_cmd lim lines
    (set_config_pending p (set_applied_config x d))
  = set_config_pending p
      (set_applied_config x
         (fold_left (fun dev line => try_line node_cmd lim line dev)
                    lines d)).
Proof.
  intros H. unfold after_lines.
  change (set_current_interface None
            (set_config_pending p (set_applied_config x d)))
    with (set_config_pending p
            (set_applied_config x (set_current_interface None d))).
  rewrite (set_current_interface_same d H).
  apply (fold_try_line_commutes NodeS node_cmd lim
           (fun dev => set_config_pending p (set_applied_config x dev)));
    reflexivity.
Qed.

(** X18: on a connected device with a node, sending a text [a] and then
    a text [b] leaves the same history as sending the two joined by a
    line feed: the lines kept of [a] followed by those of [b].  The
    second call does not depend on the interface context that the first
    one left, and when the first one left none, the device after the two
    calls is the device after the single call. *)
Theorem consecutive_sends (a b : string) (d : Device) :
  connected d = true -> node d <> None ->
  let first := snd (send_config node_cmd lim a d) in
  let one_by_one := snd (send_config node_cmd lim b first) in
  let at_once := snd (send_config node_cmd lim (a ++ String LF b) d) in
  fst (send_config node_cmd lim b first) = Ok PyNone
  /\ get_applied_config one_by_one = get_applied_config at_once
  /\ get_applied_config at_once
     = (get_applied_config d ++ config_lines a ++ config_lines b)%list
  /\ (forall i,
        send_config node_cmd lim b (set_current_interface i first)
        = send_config node_cmd lim b first)
  /\ (_current_interface first = None -> one_by_one = at_once).
Proof.
  intros Hc Hn. cbv zeta. unfold get_applied_config.
  rewrite (send_config_connected NodeS node_cmd lim a d Hc Hn). cbn [snd].
  destruct (after_lines_frame NodeS node_cmd lim (config_lines a) d)
    as (_ & _ & H3 & _ & H5 & H6 & _).
  rewrite !send_config_connected; cbn [connected node set_config_pending
    set_applied_config]; try congruence; auto.
  rewrite config_lines_app. cbn [fst snd].
  split; [reflexivity|]. split.
  { cbn [_applied_config set_config_pending set_applied_config].
    now rewrite <- app_assoc. }
  split; [reflexivity|].
  split.
  { intros i. rewrite !send_config_connected; cbn [connected node
      set_config_pending set_applied_config set_current_interface];
      try congruence; auto. }
  intros Hctx.
  change (_current_interface (after_lines node_cmd lim (config_lines a) d)
          = None) in Hctx.
  rewrite (after_lines_kept _ _ _ _ Hctx).
  unfold after_lines. rewrite fold_left_app.
  cbn [_applied_config set_config_pending set_applied_config device_name
       device_type connected _config_pending node _current_interface issued].
  now rewrite <- app_assoc.
Qed.

(** X19: a line that starts with [ip route ] and names a network and a
    next hop sends [ip route del] and then, unless that command raises,
    [ip route add] for the same network and hop, the network taking the
    suffix [/24] when it has no slash; with fewer than two fields after
    [ip route ] the line sends nothing.  A line on which [ip route ]
    comes after leading white space, and that does not mention
    [ip address], is ignored. *)
Theorem route_line_commands (line : string) (d : Device) :
  (startswith line "ip route " = true ->
   forall n, node d = Some n ->
   match split_ws (strip (drop 9 line)) with
   | network :: next_hop :: _ =>
       let network' :=
         if contains "/" network then network else network ++ "/24" in
       let del := "ip route del " ++ network' ++ " via " ++ next_hop
                  ++ " 2>/dev/null || true" in
       let add := "ip route add " ++ network' ++ " via " ++ next_hop
                  ++ " 2>&1" in
       try_line node_cmd lim line d
       = match node_cmd del n with
         | (Some _, n1) =>
             set_node (Some (snd (node_cmd add n1))) add
                      (set_node (Some n1) del d)
         | (None, n1) => set_node (Some n1) del d
         end
   | _ => try_line node_cmd lim line d = d
   end)
  /\ (startswith line "ip route " = false ->
      startswith (strip line) "ip route " = true ->
      contains "ip address" (strip line) = false ->
      try_line node_cmd lim line d = d).
Proof.
  split.
  - intros H n Hn.
    destruct (route_line_conditions line H) as (H1 & H2 & H3 & H4 & H5).
    unfold try_line, apply_line. rewrite H1, H2, H3, H4.
    unfold apply_ip_route. rewrite H5. cbn [of_option].
    match goal with
    | |- context [bind (lift (Ok ?x)) ?k d] =>
        change (bind (lift (Ok x)) k d) with (k x d)
    end.
    cbv beta.
    destruct (split_ws (strip (drop 9 line))) as [|network [|hop rest]] eqn:E.
    + reflexivity.
    + reflexivity.
    + assert (Ht : is_empty hop = false).
      { pose proof (split_ws_from_nonempty (strip (drop 9 line)) "") as Hall.
        fold (split_ws (strip (drop 9 line))) in Hall. rewrite E in Hall.
        inversion Hall as [|? ? _ H']; subst.
        now inversion H' as [|? ? Hb _]. }
      cbv zeta. unfold second.
      cbn [List.length Nat.ltb Nat.leb nth_error subscript of_option truthy].
      rewrite Ht. cbn [negb].
      match goal with
      | |- context [bind (lift (Ok ?x)) ?k d] =>
          change (bind (lift (Ok x)) k d) with (k x d)
      end.
      cbv beta.
      destruct (contains "/" network); cbn [negb];
        unfold bind, cmd, ret; rewrite Hn;
        match goal with
        | |- context [node_cmd ?c n] => destruct (node_cmd c n) as [[o|] n1]
        end; cbn [of_option snd node set_node];
        try reflexivity;
        match goal with
        | |- context [node_cmd ?c ?m] => destruct (node_cmd c m) as [[?|] ?]
        end; reflexivity.
  - intros Hs Hr Hc. unfold try_line, apply_line.
    assert (H1 : is_hostname line = false).
    { unfold is_hostname, startswith in *.
      destruct (prefix "hostname " (strip line)) eqn:E; [|reflexivity].
      pose proof (prefix_heads _ _ _ _ _ E Hr). discriminate. }
    assert (E : exists r, strip line = "ip route " ++ r).
    { eexists. apply (prefix_drop "ip route "). exact Hr. }
    destruct E as [r E].
    assert (H2 : is_interface line = false).
    { unfold is_interface, startswith. rewrite E. reflexivity. }
    assert (H3 : is_ip_address line = false).
    { unfold is_ip_address, startswith in *. rewrite Hc, andb_false_r.
      rewrite E. reflexivity. }
    unfold is_ip_route. now rewrite H1, H2, H3, Hs.
Qed.

Ltac keeps_frame :=
  repeat first
    [ apply preserves_ret | apply preserves_lift | apply preserves_cmd
    | apply preserves_read | apply preserves_set_interface
    | apply preserves_branch
    | apply preserves_bind; [|intros ?]
    | match goal with |- preserves _ (if ?b then _ else _) => destruct b end ].

Lemma cidr_of_cases (mask : option string) :
  (cidr_of mask = "/16" <-> mask = Some "255.255.0.0")
  /\ (cidr_of mask = "/8" <-> mask = Some "255.0.0.0")
  /\ (mask <> Some "255.255.0.0" -> mask <> Some "255.0.0.0" ->
      cidr_of mask = "/24").
Proof.
  unfold cidr_of, truthy. destruct mask as [m|].
  - destruct (is_empty m) eqn:Em; cbn [negb].
    + apply is_empty_true in Em as ->.
      repeat split; try discriminate.
    + unfold cidr_map. cbn [dict_get].
      destruct (String.eqb_spec m "255.255.255.0") as [->|N1];
        [repeat split; discriminate|].
      destruct (String.eqb_spec m "255.255.0.0") as [->|N2];
        [repeat split; try discriminate; try reflexivity; congruence|].
      destruct (String.eqb_spec m "255.0.0.0") as [->|N3];
        [repeat split; try discriminate; try reflexivity; congruence|].
      repeat split; try discriminate; try congruence.
  - repeat split; discriminate.
Qed.

(** X20: when the flush of the target interface returns, the second
    command of an [ip address] line adds the address with a prefix
    length that is [/16] exactly for the mask 255.255.0.0, [/8] exactly
    for the mask 255.0.0.0, and [/24] for every other mask and for no
    mask. *)
Theorem address_line_prefix_length (line ip : string) (mask : option string)
        (target : string) (d : Device) (n : NodeS) :
  address_of line = Ok (ip, mask) ->
  if_name_of lim d = Ok target ->
  node d = Some n ->
  fst (node_cmd ("ip addr flush dev " ++ target ++ " 2>&1") n) <> None ->
  (exists more,
     issued (snd (apply_ip_address node_cmd lim line d))
     = (issued d
        ++ ("ip addr flush dev " ++ target ++ " 2>&1")%string
        :: ("ip addr add " ++ ip ++ cidr_of mask ++ " dev " ++ target
            ++ " 2>&1")%string
        :: more)%list)
  /\ (cidr_of mask = "/16" <-> mask = Some "255.255.0.0")
  /\ (cidr_of mask = "/8" <-> mask = Some "255.0.0.0")
  /\ (mask <> Some "255.255.0.0" -> mask <> Some "255.0.0.0" ->
      cidr_of mask = "/24").
Proof.
  intros Ha Ht Hn Hf. split; [|apply cidr_of_cases].
  unfold apply_ip_address. rewrite Ha.
  match goal with
  | |- context [bind (lift (Ok ?x)) ?k d] =>
      change (bind (lift (Ok x)) k d) with (k x d)
  end.
  cbv beta.
  match goal with
  | |- context [bind (fun x => (if_name_of lim x, x)) ?k d] =>
      change (bind (fun x => (if_name_of lim x, x)) k d)
        with (match if_name_of lim d with
              | Ok a => k a d
              | Raise e => (Raise e, d)
              end)
  end.
  rewrite Ht. cbn [fst snd].
  unfold bind at 1. unfold cmd at 1. rewrite Hn.
  destruct (node_cmd ("ip addr flush dev " ++ target ++ " 2>&1") n)
    as [[out|] n1]; [|now elim Hf].
  cbn [of_option].
  match goal with
  | |- context [bind (cmd node_cmd ?c) ?k ?d1] =>
      destruct (first_command_issued NodeS node_cmd c k d1) as [more Hm]
  end.
  - cbn. discriminate.
  - intros _. keeps_frame.
  - exists more. rewrite Hm. cbn [issued set_node].
    now rewrite <- app_assoc.
Qed.

End Lines.

Lemma consecutive_sends_witness :
  get_applied_config
    (snd (send_config ex_node_cmd ex_limit "interface eth0"
            (snd (send_config ex_node_cmd ex_limit "hostname s1" ex_switch))))
  = get_applied_config (snd (send_config ex_node_cmd ex_limit ex_text
                               ex_switch)).
Proof.
  refine (proj1 (proj2
    (consecutive_sends nat ex_node_cmd ex_limit "hostname s1"
       "interface eth0" ex_switch eq_refl _))).
  discriminate.
Defined.

Lemma route_line_commands_witness :
  try_line ex_node_cmd ex_limit "  ip route 10.0.1.0/24 10.0.0.1" ex_host
  = ex_host.
Proof.
  exact (proj2 (route_line_commands nat ex_node_cmd ex_limit
                  "  ip route 10.0.1.0/24 10.0.0.1" ex_host)
               eq_refl eq_refl eq_refl).
Defined.

Lemma address_line_prefix_length_witness :
  exists more,
    issued (snd (apply_ip_address ex_node_cmd ex_limit
                   " ip address 10.0.0.1 255.255.0.0" ex_host))
    = (issued ex_host
       ++ "ip addr flush dev h1-eth0 2>&1"
       :: "ip addr add 10.0.0.1/16 dev h1-eth0 2>&1" :: more)%list.
Proof.
  refine (proj1 (address_line_prefix_length nat ex_node_cmd ex_limit
                   " ip address 10.0.0.1 255.255.0.0" "10.0.0.1"
                   (Some "255.255.0.0") "h1-eth0" ex_host 0
                   eq_refl eq_refl eq_refl _)).
  discriminate.
Defined.

End LineTheorems.

(* ================================================================== *)
(** * The deployment to a device *)
(* ================================================================== *)

Module WorkflowFacts.
Import PyStr PyFacts Automation Session Examples AutomationFacts LifecycleFacts.

Section Workflow.
Context {D : Type} `{NetworkDevice D}.

(** X21: [connect] of a session that is marked connected changes
    nothing and does not call the device.  Otherwise it calls [connect]
    of the device once; when that call returns the session is marked
    connected, and when it raises, the session raises
    [DeviceConnectionError] and stays unmarked.  It raises no other
    exception, and [__enter__] leaves the session as [connect] does. *)
Theorem session_connect_outcome (s : DeviceSession D) :
  (_connected s = true -> connect s = (Ok PyNone, s))
  /\ (_connected s = false ->
      device (snd (connect s)) = snd (dev_connect (device s))
      /\ (is_ok (fst (dev_connect (device s))) ->
          fst (connect s) = Ok PyNone /\ _connected (snd (connect s)) = true)
      /\ (is_raise (fst (dev_connect (device s))) ->
          fst (connect s) = Raise DeviceConnectionError
          /\ _connected (snd (connect s)) = false))
  /\ (forall e, fst (connect s) = Raise e -> e = DeviceConnectionError)
  /\ snd (__enter__ s) = snd (connect s)
  /\ (fst (__enter__ s) = Ok tt <-> fst (connect s) = Ok PyNone).
Proof.
  unfold __enter__, connect.
  destruct (_connected s) eqn:E.
  - cbn [fst snd]. repeat split; try congruence; try reflexivity.
  - destruct (dev_connect (device s)) as [[v|e] d'];
      cbn [fst snd is_ok is_raise device _connected];
      repeat split; try tauto; try congruence.
Qed.

(** X22: in [with DeviceSession(d) as session: body], when [connect] of
    the device raises, the statement raises [DeviceConnectionError]
    without running the body or calling [disconnect].  Otherwise the
    session is left as [disconnect] leaves it after the body, whether the
    body raised or not, and an exception of the body is raised again by
    the statement. *)
Theorem context_manager (d : D) (body : SessionM pyval) :
  (is_raise (fst (dev_connect d)) ->
   with_session d body
   = (Raise DeviceConnectionError,
      {| device := snd (dev_connect d); _connected := false |}))
  /\ (is_ok (fst (dev_connect d)) ->
      let entered := {| device := snd (dev_connect d); _connected := true |} in
      snd (with_session d body) = snd (disconnect (snd (body entered)))
      /\ (forall e, fst (body entered) = Raise e ->
          fst (with_session d body) = Raise e)
      /\ (is_ok (fst (body entered)) ->
          fst (with_session d body) = Ok PyNone)).
Proof.
  unfold with_session, __enter__, connect, new_session, __exit__.
  cbn [_connected device].
  destruct (dev_connect d) as [[v|e] d']; cbn [fst snd is_ok is_raise].
  - split; [tauto|]. intros _. cbv zeta.
    destruct (body {| device := d'; _connected := true |}) as [[w|e] s1];
      cbn [fst snd is_ok];
      unfold disconnect; destruct (negb (_connected s1));
      [|destruct (dev_disconnect (device s1)) as [[?|?] ?]
       | |destruct (dev_disconnect (device s1)) as [[?|?] ?]];
      cbn [truth fst snd]; repeat split; try tauto; congruence.
  - split; [reflexivity | tauto].
Qed.

End Workflow.

Section Simulated.
Variable NodeS : Type.
Variable node_cmd : string -> NodeS -> option string * NodeS.
Variable lim : nat.

Abbreviation Device := (SimulatedDevice NodeS).
Abbreviation deploy :=
  (deploy_to_device (H := simulated_device NodeS node_cmd lim)).

Lemma connect_with_node (d : Device) :
  node d <> None -> Automation.connect d = (Ok PyNone, set_connected true d).
Proof.
  intros Hn. unfold Automation.connect. destruct (connected d) eqn:E.
  - destruct d; cbn in *; now subst.
  - destruct (node d); [reflexivity | congruence].
Qed.

(** The deployment to a device that has a node. *)
Lemma deploy_with_node (config : string) (d : Device) :
  node d <> None ->
  deploy config d
  = (Ok PyNone,
     {| device :=
          set_connected false
            (set_config_pending false
               (set_applied_config
                  (_applied_config d ++ config_lines config)%list
                  (after_lines node_cmd lim (config_lines config)
                               (set_connected true d))));
        _connected := false |}).
Proof.
  intros Hn.
  unfold deploy_to_device, with_session, __enter__, Session.connect,
    new_session.
  cbn [_connected device dev_connect simulated_device].
  rewrite (connect_with_node d Hn). unfold deploy_config.
  cbn [_connected negb device dev_send_config dev_commit simulated_device].
  rewrite send_config_connected by (cbn; auto).
  destruct (after_lines_frame NodeS node_cmd lim (config_lines config)
              (set_connected true d)) as (_ & _ & H3 & _ & _ & _ & _).
  cbn [connected set_connected] in H3.
  unfold Automation.commit.
  cbn [connected _config_pending set_config_pending set_applied_config
       negb].
  rewrite H3. cbn [negb].
  unfold __exit__, Session.disconnect.
  cbn [_connected negb device dev_disconnect simulated_device].
  unfold Automation.disconnect.
  cbn [connected _config_pending set_config_pending set_applied_config
       negb].
  rewrite H3. reflexivity.
Qed.

(** X23: the deployment of a text to a simulated device that has a node
    does not raise, whatever the commands of the node do: the device ends
    disconnected, with no pending changes and with the lines kept of the
    text added to its history, and the session ends unmarked.  On a
    device without a node that is not connected, the deployment raises
    [DeviceConnectionError] and leaves the device as it was. *)
Theorem deployment_to_simulated_device (config : string) (d : Device) :
  (node d <> None ->
   fst (deploy config d) = Ok PyNone
   /\ _connected (snd (deploy config d)) = false
   /\ connected (device (snd (deploy config d))) = false
   /\ _config_pending (device (snd (deploy config d))) = false
   /\ get_applied_config (device (snd (deploy config d)))
      = (get_applied_config d ++ config_lines config)%list
   /\ device (snd (deploy config d))
      = set_connected false
          (set_config_pending false
             (set_applied_config
                (_applied_config d ++ config_lines config)%list
                (after_lines node_cmd lim (config_lines config)
                             (set_connected true d)))))
  /\ (node d = None -> connected d = false ->
      deploy config d = (Raise DeviceConnectionError, new_session d)).
Proof.
  split.
  - intros Hn. rewrite (deploy_with_node config d Hn). repeat split.
  - intros Hn Hc.
    unfold deploy_to_device, with_session, __enter__, Session.connect,
      new_session.
    cbn [_connected device dev_connect simulated_device].
    unfold Automation.connect. now rewrite Hc, Hn.
Qed.

(** X24: deploying the same text twice to a simulated device with a node
    succeeds both times and adds the lines kept of the text to the
    history twice: unless the text has no such line, the history after
    the second deployment differs from the history after the first. *)
Theorem repeated_deployment (config : string) (d : Device) :
  node d <> None ->
  let once := device (snd (deploy config d)) in
  let twice := device (snd (deploy config once)) in
  fst (deploy config once) = Ok PyNone
  /\ get_applied_config twice
     = (get_applied_config d ++ config_lines config ++ config_lines config)%list
  /\ (config_lines config <> [] ->
      get_applied_config twice <> get_applied_config once).
Proof.
  intros Hn. cbv zeta. rewrite (deploy_with_node config d Hn). cbn [snd device].
  destruct (after_lines_frame NodeS node_cmd lim (config_lines config)
              (set_connected true d)) as (_ & _ & _ & _ & _ & H6 & _).
  rewrite deploy_with_node by (cbn; auto).
  unfold get_applied_config. cbn. rewrite <- app_assoc.
  split; [reflexivity|]. split; [reflexivity|].
  intros Hne Heq. apply Hne.
  apply (f_equal (@List.length string)) in Heq.
  rewrite !length_app in Heq.
  destruct (config_lines config); [reflexivity | simpl in Heq; lia].
Qed.

End Simulated.

Lemma session_connect_outcome_witness :
  connect (H := simulated_device nat ex_node_cmd ex_limit) ex_session
  = (Ok PyNone, ex_session).
Proof.
  exact (proj1 (session_connect_outcome
                  (H := simulated_device nat ex_node_cmd ex_limit)
                  ex_session) eq_refl).
Defined.

Lemma context_manager_witness :
  fst (with_session (H := ex_stuck_device) 0
         (deploy_config (H := ex_stuck_device) "hostname s1" true))
  = Raise DeviceConnectionError.
Proof.
  exact (proj1 (proj2 (proj2 (context_manager (H := ex_stuck_device) 0
                         (deploy_config (H := ex_stuck_device)
                                        "hostname s1" true)) I))
               DeviceConnectionError eq_refl).
Defined.

Lemma deployment_to_simulated_device_witness :
  fst (deploy_to_device (H := simulated_device nat ex_node_cmd ex_limit)
         ex_text ex_fresh) = Ok PyNone.
Proof.
  refine (proj1 (proj1 (deployment_to_simulated_device nat ex_node_cmd
                          ex_limit ex_text ex_fresh) _)).
  discriminate.
Defined.

Lemma repeated_deployment_witness :
  fst (deploy_to_device (H := simulated_device nat ex_node_cmd ex_limit)
         ex_text
         (device (snd (deploy_to_device
                         (H := simulated_device nat ex_node_cmd ex_limit)
                         ex_text ex_fresh)))) = Ok PyNone.
Proof.
  refine (proj1 (repeated_deployment nat ex_node_cmd ex_limit ex_text
                   ex_fresh _)).
  discriminate.
Defined.

End WorkflowFacts.
